(** * Spain fires: hexagonal grid cache and fire aggregation

    A shallow embedding of
    - the hexagon grid service, hexagonGridService.ts (found in
      src/backend/scripts/collect-remaining-data.ts),
    - the cumulated fire service, cumulatedFireService.ts (found in
      src/backend/src/services/standaloneDataCollector.ts),
    - the route GET /api/cumulated-fires (src/backend/src/routes/cumulatedFireRoutes.ts),
    - the browser-side binning of src/frontend/src/composables/useFireData.ts
      and the resolution policy of useHexagonGrid.ts.

    Conventions of the embedding:
    - a JavaScript [number] that carries a measure (hectares, degrees, zoom)
      is an exact rational [Qc]; the rounding of binary64 arithmetic is left
      out, so "equal within floating-point tolerance" reads as equality in
      [Qc]; NaN and the infinities are not values of the model;
    - a [number] that is a count is a [nat], a resolution or an id is a [Z];
    - a JS object used as a dictionary and a [Map] are [gmap string _];
    - code that can throw returns a [result]; code that reads or writes the
      file cache or the in-memory cache passes its state explicitly;
    - logging is left out;
    - the h3-js library is a parameter ([H3.Lib]). *)

From Stdlib Require Import ZArith QArith Qcanon Qabs Qround String Ascii List.
From stdpp Require Import base option list strings gmap numbers pretty sorting.

Local Open Scope Qc_scope.

(** ** Errors and results *)

Inductive Error :=
| InvalidResolution (resolution : Z)   (* new Error(`Invalid resolution: ...`) *)
| H3Error                              (* thrown by an h3-js call *)
| StoreError                           (* thrown while reading the record store *)
| TypeError.                           (* a property read off [undefined], a call of what is no function *)

Inductive result (A : Type) :=
| Ok (a : A)
| Throw (e : Error).
Arguments Ok {A} a.
Arguments Throw {A} e.

#[global] Instance result_bind : MBind result := λ A B k r,
  match r with
  | Ok a => k a
  | Throw e => Throw e
  end.

(** [for (const x of xs) { acc = body(x, acc) }] where the body may throw. *)
Fixpoint forEach {A S} (body : A → S → result S) (xs : list A) (acc : S) : result S :=
  match xs with
  | [] => Ok acc
  | x :: xs' => acc' ← body x acc; forEach body xs' acc'
  end.

(** ** JavaScript numbers and the built-ins the code calls *)

Module Js.

Definition int (z : Z) : Qc := Qc_of_Z z.
Definition ofNat (n : nat) : Qc := int (Z.of_nat n).
(** The decimal literal [m / d], e.g. [decimal 358 10] for [35.8]. *)
Definition decimal (m : Z) (d : positive) : Qc := Q2Qc (m # d).

Definition lt (x y : Qc) : bool := bool_decide (x < y).

(** [x.toFixed(2)]: sign, then the integer [n] nearest to [|x| * 100]
    (the larger one on a tie), printed with two decimals. *)
Definition pad2 (n : Z) : string :=
  if (n <? 10)%Z then "0" +:+ pretty n else pretty n.

Definition toFixed2 (x : Qc) : string :=
  let n := Qfloor (Qabs (this x) * (100 # 1) + (1 # 2))%Q in
  (if lt x 0 then "-" else "") +:+ pretty (n / 100)%Z +:+ "." +:+ pad2 (n mod 100)%Z.

(** [parseInt(s)] without a radix: leading white space, an optional sign,
    an optional [0x] prefix, then the longest run of digits; [None] is NaN. *)
Definition isWhiteSpace (c : ascii) : bool :=
  let n := nat_of_ascii c in
  (n =? 32)%nat || ((9 <=? n)%nat && (n <=? 13)%nat).

Fixpoint trimStart (s : string) : string :=
  match s with
  | String c s' => if isWhiteSpace c then trimStart s' else s
  | EmptyString => s
  end.

Definition digitValue (radix : Z) (c : ascii) : option Z :=
  let n := Z.of_nat (nat_of_ascii c) in
  let v := if (48 <=? n)%Z && (n <=? 57)%Z then Some (n - 48)%Z
           else if (97 <=? n)%Z && (n <=? 122)%Z then Some (n - 87)%Z
           else if (65 <=? n)%Z && (n <=? 90)%Z then Some (n - 55)%Z
           else None in
  match v with
  | Some d => if (d <? radix)%Z then Some d else None
  | None => None
  end.

Fixpoint parseDigits (radix : Z) (s : string) (acc : option Z) : option Z :=
  match s with
  | String c s' =>
      match digitValue radix c with
      | Some d => parseDigits radix s' (Some (default 0%Z acc * radix + d)%Z)
      | None => acc
      end
  | EmptyString => acc
  end.

Definition parseInt (s : string) : option Z :=
  let s1 := trimStart s in
  let '(sign, s2) :=
    match s1 with
    | String "-" r => ((-1)%Z, r)
    | String "+" r => (1%Z, r)
    | _ => (1%Z, s1)
    end in
  let '(radix, s3) :=
    match s2 with
    | String "0" (String "x" r) | String "0" (String "X" r) => (16%Z, r)
    | _ => (10%Z, s2)
    end in
  Z.mul sign <$> parseDigits radix s3 None.

Definition isDigit (c : ascii) : bool :=
  let n := nat_of_ascii c in (48 <=? n)%nat && (n <=? 57)%nat.

(** [/^\d{4}-\d{2}-\d{2}$/.test(s)] *)
Definition dateRegexTest (s : string) : bool :=
  match list_ascii_of_string s with
  | [y1; y2; y3; y4; s1; m1; m2; s2; d1; d2] =>
      forallb isDigit [y1; y2; y3; y4; m1; m2; d1; d2]
      && Ascii.eqb s1 "-" && Ascii.eqb s2 "-"
  | _ => false
  end.

(** [!s] for a query parameter: absent or the empty string. *)
Definition falsy (s : option string) : bool :=
  match s with
  | None | Some EmptyString => true
  | Some _ => false
  end.

End Js.

(** ** The h3-js library *)

Module H3.

Abbreviation H3Index := string.

(** A vertex of a cell, as the indexing library holds it. *)
Record LatLng := { lat : Qc; lng : Qc }.

(** A two-element [number[]]; which component is the latitude depends on
    the producer. *)
Abbreviation Position := (Qc * Qc)%type.
Abbreviation Ring := (list Position).

(** The [coordinates] argument of [polygonToCells], by nesting depth. *)
Inductive Coordinates :=
| Loop (ring : Ring)
| Polygon (rings : list Ring)
| MultiPolygon (polygons : list (list Ring)).

(** What the embedding needs from the library. [None] is a thrown
    [H3Error]. [cellVertices] is the boundary of a cell as the library
    computes it: its distinct vertices, in order. *)
Class Lib := {
  polygonToCells : Coordinates → Z → option (list H3Index);
  latLngToCell : Qc → Qc → Z → option H3Index;
  cellVertices : H3Index → list LatLng
}.

(** [cellToBoundary(index, formatAsGeoJson)] as h3-js documents it: with
    [formatAsGeoJson] the pairs are [[lng, lat]] and the loop is closed by
    repeating its first vertex; without it the pairs are [[lat, lng]] and
    the loop stays open. *)
Definition cellToBoundary `{Lib} (index : H3Index) (formatAsGeoJson : bool) : Ring :=
  let vs := cellVertices index in
  if formatAsGeoJson
  then let out := (λ v, (lng v, lat v)) <$> vs in out ++ take 1 out
  else (λ v, (lat v, lng v)) <$> vs.

End H3.
Import H3.

(** ** Data shared by both sides (backend/src/types/index.ts) *)

(** [FireData], restricted to the fields the aggregation reads. [centroid]
    is [[longitude, latitude]]; [shape] is [None] when the record has no
    [shape] or no [shape.coordinates], otherwise the MultiPolygon rings in
    [[lng, lat]] order. *)
Record FireData := {
  id : Z;
  centroid : Position;
  shape : option (list (list Ring));
  area_ha : Qc
}.

Inductive FireSize := small | medium | large | none.

#[global] Instance FireSize_eq_dec : EqDecision FireSize.
Proof. solve_decision. Defined.

(** ** Hexagon grid service (backend) *)

Module HexagonGridService.

Record Viewport := { north : Qc; south : Qc; east : Qc; west : Qc }.

Record Hexagon := { index : H3Index; boundary : Ring }.

(** [generatedAt] is the reading of the clock, not its ISO rendering. *)
Record Metadata := {
  totalHexagons : nat;
  generatedAt : nat;
  viewport : option Viewport;
  spainBounds : option Viewport
}.

Record HexagonGrid := {
  resolution : Z;
  hexagons : list Hexagon;
  metadata : Metadata
}.

(** The service and what it touches: the JSON files of [CACHE_DIR] (a file
    holds the grid that [JSON.parse] gives back; a missing, unreadable or
    unparsable file has no entry), whether [fs.writeFile] succeeds, the
    clock, and the coverings asked of the library so far. *)
Record State := {
  files : gmap string HexagonGrid;
  writable : bool;
  clock : nat;
  coverings : list (Coordinates * Z)
}.

(** [path.join(__dirname, '../../data/hexagon-grids')], up to the directory
    the service is installed in, with the separator of [path.join]. *)
Definition CACHE_DIR : string := "data/hexagon-grids/".

Definition SPAIN_BOUNDS : Viewport := {|
  north := Js.int 44;
  south := Js.decimal 358 10;
  east := Js.decimal 35 10;
  west := Js.decimal (-95) 10
|}.

Definition getCacheFilePath (resolution : Z) (viewport : option Viewport) : string :=
  match viewport with
  | Some v =>
      let viewportKey :=
        Js.toFixed2 (west v) +:+ "_" +:+ Js.toFixed2 (south v) +:+ "_"
        +:+ Js.toFixed2 (east v) +:+ "_" +:+ Js.toFixed2 (north v) in
      CACHE_DIR +:+ "viewport-res-" +:+ pretty resolution +:+ "-" +:+ viewportKey +:+ ".json"
  | None => CACHE_DIR +:+ "spain-grid-res-" +:+ pretty resolution +:+ ".json"
  end.

Definition getResolutionForZoom (zoom : Qc) : Z :=
  if Js.lt zoom (Js.int 9) then 6%Z else 7%Z.

(** The closed rectangle of a bounding box, in [[lat, lng]] pairs. *)
Definition boundsPolygon (v : Viewport) : Coordinates :=
  Polygon [[ (south v, west v); (south v, east v); (north v, east v);
             (north v, west v); (south v, west v) ]].

Section WithH3.
Context `{Lib}.

Definition toHexagons (hexagonIndexes : list H3Index) : list Hexagon :=
  (λ index, {| index := index; boundary := cellToBoundary index false |})
    <$> hexagonIndexes.

(** One call of [polygonToCells] followed by the boundary of each cell;
    both [generate...] methods are this with their own polygon. *)
Definition generateGrid (resolution : Z) (polygon : Coordinates)
    (viewport spainBounds : option Viewport) (st : State)
    : result HexagonGrid * State :=
  let st1 := {| files := files st; writable := writable st; clock := clock st;
                coverings := coverings st ++ [(polygon, resolution)] |} in
  match polygonToCells polygon resolution with
  | None => (Throw H3Error, st1)
  | Some hexagonIndexes =>
      let hexagons := toHexagons hexagonIndexes in
      (Ok {| resolution := resolution;
             hexagons := hexagons;
             metadata := {| totalHexagons := length hexagons;
                            generatedAt := clock st;
                            viewport := viewport;
                            spainBounds := spainBounds |} |},
       {| files := files st1; writable := writable st1; clock := S (clock st1);
          coverings := coverings st1 |})
  end.

Definition generateHexagonGridForViewport (resolution : Z) (viewport : Viewport)
    (st : State) : result HexagonGrid * State :=
  generateGrid resolution (boundsPolygon viewport) (Some viewport) None st.

Definition generateHexagonGridForSpain (resolution : Z) (st : State)
    : result HexagonGrid * State :=
  generateGrid resolution (boundsPolygon SPAIN_BOUNDS) None (Some SPAIN_BOUNDS) st.

(** [fs.writeFile] inside its own [try]: a failure is logged and dropped. *)
Definition writeCache (cacheFilePath : string) (grid : HexagonGrid) (st : State) : State :=
  if writable st
  then {| files := <[cacheFilePath := grid]> (files st); writable := writable st;
          clock := clock st; coverings := coverings st |}
  else st.

(** The shared body of both getters: the cached file if it reads and
    parses, otherwise generate, try to write, and return the new grid. *)
Definition loadOrGenerate (cacheFilePath : string)
    (generate : State → result HexagonGrid * State) (st : State)
    : result HexagonGrid * State :=
  match files st !! cacheFilePath with
  | Some grid => (Ok grid, st)
  | None =>
      match generate st with
      | (Ok grid, st1) => (Ok grid, writeCache cacheFilePath grid st1)
      | (Throw e, st1) => (Throw e, st1)
      end
  end.

Definition getHexagonGridForViewport (zoom : Qc) (viewport : Viewport) (st : State)
    : result HexagonGrid * State :=
  let resolution := getResolutionForZoom zoom in
  let cacheFilePath := getCacheFilePath resolution (Some viewport) in
  loadOrGenerate cacheFilePath (generateHexagonGridForViewport resolution viewport) st.

Definition getHexagonGridForSpain (resolution : Z) (st : State)
    : result HexagonGrid * State :=
  if (resolution <? 0)%Z || (resolution >? 15)%Z
  then (Throw (InvalidResolution resolution), st)
  else
    let cacheFilePath := getCacheFilePath resolution None in
    loadOrGenerate cacheFilePath (generateHexagonGridForSpain resolution) st.

(** The GeoJSON view of a grid. *)
Record Feature := {
  coordinates : list Ring;
  h3Index : H3Index;
  featureResolution : Z
}.

Record FeatureCollection := {
  features : list Feature;
  collectionMetadata : Metadata
}.

Definition toFeature (grid : HexagonGrid) (hexagon : Hexagon) : Feature :=
  {| coordinates := [ (λ coord : Position, (coord.2, coord.1)) <$> boundary hexagon ];
     h3Index := index hexagon;
     featureResolution := resolution grid |}.

Definition getHexagonGridAsGeoJSON (zoom : Qc) (viewport : option Viewport)
    (st : State) : result FeatureCollection * State :=
  let '(r, st1) :=
    match viewport with
    | Some v => getHexagonGridForViewport zoom v st
    | None => getHexagonGridForSpain (getResolutionForZoom zoom) st
    end in
  (grid ← r;
   Ok {| features := toFeature grid <$> hexagons grid;
         collectionMetadata := metadata grid |},
   st1).

End WithH3.

End HexagonGridService.

(** ** Cumulated fire service (backend) *)

Module CumulatedFireService.

(** The value stored under one [h3Index] of [hexagonData]. *)
Module Hex.
Record t := {
  totalArea : Qc;
  fireCount : nat;
  fires : list string;
  size : FireSize
}.
End Hex.

Record CumulatedFireData := {
  resolution : Z;
  hexagonData : gmap string Hex.t;
  dateRange : string * string;
  totalFires : nat;
  totalArea : Qc
}.

(** The service and what it touches: its private [cache], the record
    store seen through [getFiresInDateRange] (the day-by-day reader over
    dataCollectionService, which skips a day that fails; here the list it
    returns for a start and an end date, or the error it rethrows),
    and the number of binning passes started so far. *)
Record State := {
  cache : gmap string CumulatedFireData;
  getFiresInDateRange : string → string → result (list FireData);
  binnings : nat
}.

Definition getFireSize (area : Qc) : FireSize :=
  if Js.lt area (Js.int 10) then small
  else if Js.lt area (Js.int 100) then medium
  else large.

Section WithH3.
Context `{Lib}.

Definition addFireToHexagonByCentroid (fire : FireData) (resolution : Z)
    (hexagonData : gmap string Hex.t) : result (gmap string Hex.t) :=
  let '(lng, lat) := centroid fire in
  match latLngToCell lat lng resolution with
  | None => Throw H3Error
  | Some h3Index =>
      let hexagonData1 :=
        match hexagonData !! h3Index with
        | Some _ => hexagonData
        | None => <[h3Index := {| Hex.totalArea := 0; Hex.fireCount := 0;
                                  Hex.fires := []; Hex.size := none |}]> hexagonData
        end in
      Ok (alter (λ hexagon,
                   {| Hex.totalArea := Hex.totalArea hexagon + area_ha fire;
                      Hex.fireCount := Hex.fireCount hexagon + 1;
                      Hex.fires := Hex.fires hexagon ++ [pretty (id fire)];
                      Hex.size := Hex.size hexagon |})
                h3Index hexagonData1)
  end.

(** The loop over [fires]: the accumulator is
    [(hexagonData, totalFires, totalArea)]. *)
Definition processFire (resolution : Z) (fire : FireData)
    (acc : gmap string Hex.t * nat * Qc) : result (gmap string Hex.t * nat * Qc) :=
  let '(hexagonData, totalFires, totalArea) := acc in
  hexagonData1 ← addFireToHexagonByCentroid fire resolution hexagonData;
  Ok (hexagonData1, S totalFires, totalArea + area_ha fire).

Definition setSize (hexagon : Hex.t) : Hex.t :=
  {| Hex.totalArea := Hex.totalArea hexagon;
     Hex.fireCount := Hex.fireCount hexagon;
     Hex.fires := Hex.fires hexagon;
     Hex.size := getFireSize (Hex.totalArea hexagon) |}.

(** The body of the [try] once the fires are known. *)
Definition aggregate (fires : list FireData) (startDate endDate : string)
    (resolution : Z) : result CumulatedFireData :=
  acc ← forEach (processFire resolution) fires (∅, 0%nat, 0);
  let '(hexagonData, totalFires, totalArea) := acc in
  Ok {| resolution := resolution;
        hexagonData := setSize <$> hexagonData;
        dateRange := (startDate, endDate);
        totalFires := totalFires;
        totalArea := totalArea |}.

Definition cacheKey (startDate endDate : string) (resolution : Z) : string :=
  startDate +:+ "_" +:+ endDate +:+ "_" +:+ pretty resolution.

Definition calculateCumulatedFireData (startDate endDate : string) (resolution : Z)
    (st : State) : result CumulatedFireData * State :=
  let cacheKey := cacheKey startDate endDate resolution in
  match cache st !! cacheKey with
  | Some cached => (Ok cached, st)
  | None =>
      match getFiresInDateRange st startDate endDate with
      | Throw e => (Throw e, st)
      | Ok fires =>
          let st1 := {| cache := cache st; getFiresInDateRange := getFiresInDateRange st;
                        binnings := S (binnings st) |} in
          match aggregate fires startDate endDate resolution with
          | Throw e => (Throw e, st1)
          | Ok result =>
              (Ok result,
               {| cache := <[cacheKey := result]> (cache st1);
                  getFiresInDateRange := getFiresInDateRange st1;
                  binnings := binnings st1 |})
          end
      end
  end.

Definition clearCache (st : State) : State :=
  {| cache := ∅; getFiresInDateRange := getFiresInDateRange st; binnings := binnings st |}.

End WithH3.

End CumulatedFireService.

(** ** GET /api/cumulated-fires (backend) *)

Module CumulatedFireRoutes.

Import CumulatedFireService.

Record Query := {
  startDate : option string;
  endDate : option string;
  resolution : option string
}.

Inductive Response :=
| Status400 (error : string)
| Status200 (data : CumulatedFireData)
| Status500 (error : Error).

Definition missingParameters : string :=
  "Missing required parameters: startDate, endDate, resolution".
Definition invalidDateFormat : string := "Invalid date format. Use YYYY-MM-DD".
Definition invalidResolution : string := "Invalid resolution. Must be between 0 and 15".

Section WithH3.
Context `{Lib}.

Definition getCumulatedFires (query : Query) (st : State) : Response * State :=
  if Js.falsy (startDate query) || Js.falsy (endDate query)
     || Js.falsy (resolution query)
  then (Status400 missingParameters, st)
  else
    let startDate := default "" (startDate query) in
    let endDate := default "" (endDate query) in
    if negb (Js.dateRegexTest startDate) || negb (Js.dateRegexTest endDate)
    then (Status400 invalidDateFormat, st)
    else
      match Js.parseInt (default "" (resolution query)) with
      | None => (Status400 invalidResolution, st)
      | Some resolutionNum =>
          if (resolutionNum <? 0)%Z || (resolutionNum >? 15)%Z
          then (Status400 invalidResolution, st)
          else
            match calculateCumulatedFireData startDate endDate resolutionNum st with
            | (Ok cumulatedData, st1) => (Status200 cumulatedData, st1)
            | (Throw e, st1) => (Status500 e, st1)
            end
      end.

End WithH3.

End CumulatedFireRoutes.

(** ** Browser side: useHexagonGrid.ts and useFireData.ts *)

Module UseHexagonGrid.

Definition getResolutionForZoom (zoom : Qc) : Z :=
  if Js.lt zoom (Js.int 9) then 6%Z else 7%Z.

End UseHexagonGrid.

Module UseFireData.

(** The [properties] that the aggregation writes on a hexagon feature. *)
Record Properties := {
  hasFireData : bool;
  totalArea : Qc;
  fireCount : nat;
  averageArea : Qc;
  size : FireSize;
  fires : list FireData
}.

(** A feature of the [hexagon-grid] source. *)
Record Feature := { h3Index : H3Index; properties : Properties }.

(** [map.value]: in [Some m], [m] is the data of the [hexagon-grid]
    source, [None] when the source or its [features] are missing. *)
Definition MapValue := option (option (list Feature)).

(** A value of [hexagonFireMap]. *)
Module Agg.
Record t := { totalArea : Qc; fireCount : nat; fires : list FireData }.
End Agg.

Definition getFireSize (area : Qc) : FireSize :=
  if Js.lt area (Js.int 10) then small
  else if Js.lt area (Js.int 100) then medium
  else large.

Definition noFireData : Properties :=
  {| hasFireData := false; totalArea := 0; fireCount := 0; averageArea := 0;
     size := none; fires := [] |}.

Definition clearFireLayers (map : MapValue) : MapValue :=
  match map with
  | Some (Some features) =>
      Some (Some ((λ hexagon, {| h3Index := h3Index hexagon; properties := noFireData |})
                    <$> features))
  | _ => map
  end.

(** "Initialize all hexagons with zero values". *)
Definition initFireMap (features : list Feature) : gmap string Agg.t :=
  foldl (λ hexagonFireMap hexagon,
           <[h3Index hexagon := {| Agg.totalArea := 0; Agg.fireCount := 0;
                                   Agg.fires := [] |}]> hexagonFireMap)
        ∅ features.

(** [totalArea += area; fireCount += 1; fires.push(fire)] on the entry of
    [h3Index], which the caller has found to exist; nothing otherwise. *)
Definition addToHexagon (fire : FireData) (area : Qc) (h3Index : H3Index)
    (hexagonFireMap : gmap string Agg.t) : gmap string Agg.t :=
  match hexagonFireMap !! h3Index with
  | Some hexagonData =>
      <[h3Index := {| Agg.totalArea := Agg.totalArea hexagonData + area;
                      Agg.fireCount := Agg.fireCount hexagonData + 1;
                      Agg.fires := Agg.fires hexagonData ++ [fire] |}]> hexagonFireMap
  | None => hexagonFireMap
  end.

Section WithH3.
Context `{Lib}.

(** The centroid method of both fallbacks. *)
Definition addByCentroid (fire : FireData) (currentResolution : Z)
    (hexagonFireMap : gmap string Agg.t) : result (gmap string Agg.t) :=
  let '(lng, lat) := centroid fire in
  match latLngToCell lat lng currentResolution with
  | None => Throw H3Error
  | Some h3Index => Ok (addToHexagon fire (area_ha fire) h3Index hexagonFireMap)
  end.

Definition swapRings (polygons : list (list Ring)) : list (list Ring) :=
  (λ polygon : list Ring,
     (λ ring : Ring, (λ coord : Position, (coord.2, coord.1)) <$> ring) <$> polygon)
    <$> polygons.

(** The body of [fires.forEach]. *)
Definition binFire (currentResolution : Z) (fire : FireData)
    (hexagonFireMap : gmap string Agg.t) : result (gmap string Agg.t) :=
  match shape fire with
  | Some ((_ :: _) as polygons) =>
      let h3Polygons := swapRings polygons in
      match polygonToCells (MultiPolygon h3Polygons) currentResolution with
      | Some intersectingHexagons =>
          Ok (foldl (λ m h3Index,
                       addToHexagon fire
                         (area_ha fire / Js.ofNat (length intersectingHexagons))
                         h3Index m)
                    hexagonFireMap intersectingHexagons)
      | None => addByCentroid fire currentResolution hexagonFireMap
      end
  | _ => addByCentroid fire currentResolution hexagonFireMap
  end.

(** "Update hexagon properties with aggregated fire data". *)
Definition updateProperties (hexagonFireMap : gmap string Agg.t) (hexagon : Feature)
    : Feature :=
  {| h3Index := h3Index hexagon;
     properties :=
       match hexagonFireMap !! h3Index hexagon with
       | Some fireData =>
           if (0 <? Agg.fireCount fireData)%nat
           then {| hasFireData := true;
                   totalArea := Agg.totalArea fireData;
                   fireCount := Agg.fireCount fireData;
                   averageArea := Agg.totalArea fireData / Js.ofNat (Agg.fireCount fireData);
                   size := getFireSize (Agg.totalArea fireData);
                   fires := Agg.fires fireData |}
           else noFireData
       | None => noFireData
       end |}.

(** The aggregation proper: from the features of the grid and the fires
    to the features with their fire properties. *)
Definition aggregateOnGrid (zoom : Qc) (features : list Feature)
    (fires : list FireData) : result (list Feature) :=
  let currentResolution := UseHexagonGrid.getResolutionForZoom zoom in
  hexagonFireMap ← forEach (binFire currentResolution) fires (initFireMap features);
  Ok (updateProperties hexagonFireMap <$> features).

Definition addFireDataToMap (zoom : Qc) (fires : list FireData) (map : MapValue)
    : result MapValue :=
  match map with
  | None => Ok map
  | Some _ =>
      let map1 := clearFireLayers map in
      match fires, map1 with
      | [], _ => Ok map1
      | _, Some (Some features) =>
          features1 ← aggregateOnGrid zoom features fires;
          Ok (Some (Some features1))
      | _, _ => Ok map1
      end
  end.

End WithH3.

End UseFireData.

(** ** Hexagon grid service: cache status, cache clearing, pre-generation *)

Module HexagonGridCache.

Import HexagonGridService.

(** [s.startsWith(prefix)], with what follows the prefix. *)
Fixpoint dropPrefix (prefix s : string) : option string :=
  match prefix, s with
  | EmptyString, _ => Some s
  | String c prefix', String d s' =>
      if Ascii.eqb c d then dropPrefix prefix' s' else None
  | String _ _, EmptyString => None
  end.

Definition startsWith (prefix s : string) : bool :=
  match dropPrefix prefix s with Some _ => true | None => false end.

(** [s.endsWith(suffix)]: some tail of [s] is [suffix]. *)
Fixpoint endsWith (suffix s : string) : bool :=
  String.eqb s suffix
  || match s with
     | String _ s' => endsWith suffix s'
     | EmptyString => false
     end.

(** [fs.readdir(CACHE_DIR)]: the names of the files of the cache
    directory, which has no subdirectory; reading the directory and the
    size of a file are taken to succeed. *)
Definition readdir (st : State) : list string :=
  omap (dropPrefix CACHE_DIR) (map_to_list (files st)).*1.

(** A run of digits and what follows it. *)
Fixpoint digits (s : string) : string * string :=
  match s with
  | String c s' =>
      if Js.isDigit c then let '(ds, rest) := digits s' in (String c ds, rest)
      else (EmptyString, s)
  | EmptyString => (EmptyString, s)
  end.

(** [/spain-grid-res-(\d+)\.json/] at the start of [s]: the digits. *)
Definition matchSpainGridHere (s : string) : option string :=
  match dropPrefix "spain-grid-res-" s with
  | Some rest =>
      let '(ds, rest') := digits rest in
      match ds with
      | EmptyString => None
      | _ => if startsWith ".json" rest' then Some ds else None
      end
  | None => None
  end.

(** [file.match(/spain-grid-res-(\d+)\.json/)]: the first group of the
    leftmost match. *)
Fixpoint matchSpainGrid (s : string) : option string :=
  match matchSpainGridHere s with
  | Some ds => Some ds
  | None =>
      match s with
      | String _ s' => matchSpainGrid s'
      | EmptyString => None
      end
  end.

Record CacheStatus := {
  cachedResolutions : list Z;
  totalCacheSize : nat;
  lastUpdated : nat;
  viewportCaches : nat
}.

Section WithH3.
Context `{Lib}.
(** The size in bytes of the file that holds a grid. *)
Variable byteLength : HexagonGrid → nat.

Definition getCacheStatus (st : State) : CacheStatus :=
  let files := readdir st in
  let gridFiles := filter (λ file, endsWith ".json" file = true) files in
  let spainGridFiles :=
    filter (λ file, startsWith "spain-grid-res-" file = true) gridFiles in
  let viewportGridFiles :=
    filter (λ file, startsWith "viewport-res-" file = true) gridFiles in
  let cachedResolutions :=
    omap (λ file, matchSpainGrid file ≫= Js.parseInt) spainGridFiles in
  let totalSize :=
    foldl (λ totalSize file,
             totalSize + from_option byteLength 0 (HexagonGridService.files st
                                                     !! (CACHE_DIR +:+ file)))%nat
          0%nat gridFiles in
  {| cachedResolutions := merge_sort Z.le cachedResolutions;
     totalCacheSize := totalSize;
     lastUpdated := clock st;
     viewportCaches := length viewportGridFiles |}.

(** [clearCache]: every [.json] file of the cache directory is unlinked;
    [None] is the error that the method rethrows, when there is a file to
    unlink and the directory cannot be written. *)
Definition clearCache (st : State) : option State :=
  let gridFiles := filter (λ file, endsWith ".json" file = true) (readdir st) in
  match gridFiles with
  | [] => Some st
  | _ =>
      if writable st
      then Some {| files := foldl (λ files file, delete (CACHE_DIR +:+ file) files)
                                  (files st) gridFiles;
                   writable := writable st; clock := clock st;
                   coverings := coverings st |}
      else None
  end.

Definition pregenerateSpainOverview (st : State) : result () * State :=
  match getHexagonGridForSpain 5 st with
  | (Ok _, st1) => (Ok (), st1)
  | (Throw e, st1) => (Throw e, st1)
  end.

End WithH3.

End HexagonGridCache.

(** ** The hexagon grid routes (backend/src/routes/fireRoutes.ts) *)

Module FireRoutes.

Import HexagonGridService.

(** What the handler of a route does: it answers, or it throws outside its
    [try] and sends none of its answers. *)
Inductive Response :=
| Status400 (error : string)
| Json (geojson : FeatureCollection)
| Status500 (error : string) (message : Error)
| Uncaught.

(** A value that [JSON.parse] returns. *)
Unset Elimination Schemes.
Inductive JsonValue :=
| JNull
| JBool (b : bool)
| JNumber (x : Qc)
| JString (s : string)
| JArray (items : list JsonValue)
| JObject (members : list (string * JsonValue)).
Set Elimination Schemes.

(** The [viewport] parameter of the query: absent or empty, a text that
    [JSON.parse] refuses, or the value that it returns. *)
Inductive ViewportParameter :=
| absent
| unparsable
| parsed (value : JsonValue).

(** [if (value)]. *)
Definition truthy (value : JsonValue) : bool :=
  match value with
  | JNull => false
  | JBool b => b
  | JNumber x => if decide (x = 0) then false else true
  | JString s => negb (String.eqb s "")
  | JArray _ | JObject _ => true
  end.

(** [value.key] for the four keys of a viewport, [None] for [undefined]:
    the member of an object under that name, the last one when the text
    had several; a number, a string, a boolean or an array has none. *)
Definition member (key : string) (value : JsonValue) : option JsonValue :=
  match value with
  | JObject members => snd <$> last (filter (λ m, m.1 = key) members)
  | _ => None
  end.

(** [value.key.toFixed(2)] formats a number; on [undefined] the access
    throws a TypeError, on a value of another type the call does. [None] is
    that TypeError. *)
Definition numberAt (key : string) (value : JsonValue) : option Qc :=
  match member key value with
  | Some (JNumber x) => Some x
  | _ => None
  end.

(** What the service makes of the [viewport] it is handed. Without a
    parameter, or with a falsy value, it serves Spain ([Some None]). Of any
    other value [getCacheFilePath] formats [west], [south], [east] and
    [north], before a file is read or a cell generated, and throws the
    TypeError ([None]) unless the four are numbers. The covering reads
    these four numbers again and nothing else; the metadata of a generated
    grid keep the value whole, of which the model keeps the four bounds. *)
Definition readViewport (viewport : ViewportParameter) : option (option Viewport) :=
  match viewport with
  | parsed value =>
      if truthy value
      then west ← numberAt "west" value;
           south ← numberAt "south" value;
           east ← numberAt "east" value;
           north ← numberAt "north" value;
           Some (Some {| north := north; south := south; east := east; west := west |})
      else Some None
  | _ => Some None
  end.

Definition invalidZoom : string := "Invalid zoom level. Must be between 0 and 20.".
Definition invalidResolution : string :=
  "Invalid resolution. Must be a number between 0 and 15.".
Definition failed : string := "Failed to fetch hexagon grid".

Section WithH3.
Context `{Lib}.

(** GET /hexagon-grid. [zoom] is what [parseFloat] made of the query
    parameter, [None] for NaN. The [viewport] parameter goes through
    [JSON.parse] before the [try] of the handler, and whatever value comes
    out is handed to the service. *)
Definition getHexagonGrid (zoom : option Qc) (viewport : ViewportParameter) (st : State)
    : Response * State :=
  let zoom :=
    match zoom with
    | Some z => if decide (z = 0) then Js.int 5 else z
    | None => Js.int 5
    end in
  match viewport with
  | unparsable => (Uncaught, st)
  | _ =>
      if Js.lt zoom 0 || Js.lt (Js.int 20) zoom
      then (Status400 invalidZoom, st)
      else
        match readViewport viewport with
        | None => (Status500 failed TypeError, st)
        | Some viewport =>
            match getHexagonGridAsGeoJSON zoom viewport st with
            | (Ok geojson, st1) => (Json geojson, st1)
            | (Throw e, st1) => (Status500 failed e, st1)
            end
        end
  end.

(** GET /hexagon-grid/:resolution, the legacy endpoint. *)
Definition getHexagonGridByResolution (resolution : string) (st : State)
    : Response * State :=
  match Js.parseInt resolution with
  | None => (Status400 invalidResolution, st)
  | Some resolution =>
      if (resolution <? 0)%Z || (resolution >? 15)%Z
      then (Status400 invalidResolution, st)
      else
        match getHexagonGridAsGeoJSON (Js.int 5) None st with
        | (Ok geojson, st1) => (Json geojson, st1)
        | (Throw e, st1) => (Status500 failed e, st1)
        end
  end.

End WithH3.

End FireRoutes.

(** ** Browser side: the cumulated mode of useFireData.ts *)

Module UseFireDataCumulated.

(** The [properties] of a hexagon in cumulated mode: [fires] holds ids. *)
Record Properties := {
  hasFireData : bool;
  totalArea : Qc;
  fireCount : nat;
  averageArea : Qc;
  size : FireSize;
  fires : list string
}.

Record Feature := { h3Index : H3Index; properties : Properties }.

Definition noFireData : Properties :=
  {| hasFireData := false; totalArea := 0; fireCount := 0; averageArea := 0;
     size := none; fires := [] |}.

(** "Update hexagon properties with cumulated fire data", on one hexagon. *)
Definition updateProperties (cumulatedData : CumulatedFireService.CumulatedFireData)
    (h3Index : H3Index) : Feature :=
  {| h3Index := h3Index;
     properties :=
       match CumulatedFireService.hexagonData cumulatedData !! h3Index with
       | Some fireData =>
           if (0 <? CumulatedFireService.Hex.fireCount fireData)%nat
           then {| hasFireData := true;
                   totalArea := CumulatedFireService.Hex.totalArea fireData;
                   fireCount := CumulatedFireService.Hex.fireCount fireData;
                   averageArea :=
                     CumulatedFireService.Hex.totalArea fireData
                     / Js.ofNat (CumulatedFireService.Hex.fireCount fireData);
                   size := CumulatedFireService.Hex.size fireData;
                   fires := CumulatedFireService.Hex.fires fireData |}
           else noFireData
       | None => noFireData
       end |}.

(** [addCumulatedFireDataToMap]. The map is given by the ids of the
    hexagons of its [hexagon-grid] source ([Some None] when the source or
    its features are missing, [None] without a map): the function assigns
    every fire property of every hexagon and reads none of them. *)
Definition addCumulatedFireDataToMap
    (cumulatedData : CumulatedFireService.CumulatedFireData)
    (map : option (option (list H3Index))) : option (option (list Feature)) :=
  match map with
  | None => None
  | Some None => Some None
  | Some (Some hexagons) =>
      if (CumulatedFireService.totalFires cumulatedData =? 0)%nat
      then Some (Some ((λ h3Index, {| h3Index := h3Index; properties := noFireData |})
                         <$> hexagons))
      else Some (Some (updateProperties cumulatedData <$> hexagons))
  end.

(** [reapplyFireStyling] in cumulated mode: the data structure it
    reconstructs from [fireData.count] and [dateRange]. *)
Definition reapplyFireStyling (zoom : Qc) (dateRange : string * string) (count : nat)
    (map : option (option (list H3Index))) : option (option (list Feature)) :=
  let resolution := UseHexagonGrid.getResolutionForZoom zoom in
  let mockCumulatedData :=
    {| CumulatedFireService.resolution := resolution;
       CumulatedFireService.hexagonData := ∅;
       CumulatedFireService.dateRange := dateRange;
       CumulatedFireService.totalFires := count;
       CumulatedFireService.totalArea := 0 |} in
  addCumulatedFireDataToMap mockCumulatedData map.

End UseFireDataCumulated.

(** ** Browser side: the client-side grid of useHexagonGrid.ts *)

Module UseHexagonGridFallback.

(** The two further functions of h3-js that the client-side grid calls;
    [None] is a thrown error. *)
Class Hierarchy := {
  getRes0Cells : list H3Index;
  cellToChildren : H3Index → Z → option (list H3Index)
}.

Record Bounds := { north : Qc; south : Qc; east : Qc; west : Qc }.

Definition spainBounds : Bounds :=
  {| north := Js.decimal 438 10; south := Js.int 36;
     east := Js.decimal 33 10; west := Js.decimal (-94) 10 |}.

(** [a >= b] and [a <= b]. *)
Definition ge (a b : Qc) : bool := negb (Js.lt a b).
Definition le (a b : Qc) : bool := negb (Js.lt b a).

(** The test of [boundary.some]: [coord] is a [[lng, lat]] pair. *)
Definition inBounds (coord : Position) : bool :=
  ge coord.2 (south spainBounds) && le coord.2 (north spainBounds)
  && ge coord.1 (west spainBounds) && le coord.1 (east spainBounds).

Section WithH3.
Context `{Lib} `{Hierarchy}.

Definition hexagonsOf (children : list H3Index) : list HexagonGridService.Hexagon :=
  omap (λ child,
          let boundary := cellToBoundary child true in
          if existsb inBounds boundary
          then Some {| HexagonGridService.index := child;
                       HexagonGridService.boundary := boundary |}
          else None)
       children.

Definition generateHexagonGrid (resolution : Z)
    : result (list HexagonGridService.Hexagon) :=
  forEach (λ cell hexagons,
             match cellToChildren cell resolution with
             | Some children => Ok (hexagons ++ hexagonsOf children)
             | None => Throw H3Error
             end)
          getRes0Cells [].

End WithH3.

End UseHexagonGridFallback.

(** ** A sample indexing library

    An instance of [H3.Lib] on which the code can be run: the cells are the
    unit squares of the degree lattice, whatever the resolution. A point lies
    in the square of its floors; a loop or a polygon is covered by the
    squares whose centre lies in its bounding box; the boundary of a square
    is its four corners. A resolution outside 0..15 is refused, as h3-js
    does. So is an array of polygons: [polygonToCells] of h3-js takes a loop
    or a polygon, reads the polygons of such an array as loops and their
    rings as vertices, finds no number where it looks for a coordinate, and
    throws; an array that is empty or starts with an empty array it covers
    with no cell. *)

Module Lattice.

Definition cellName (i j : Z) : H3Index := pretty i +:+ ":" +:+ pretty j.

Fixpoint beforeColon (s : string) : string :=
  match s with
  | String ":" _ | EmptyString => EmptyString
  | String c s' => String c (beforeColon s')
  end.

Fixpoint afterColon (s : string) : string :=
  match s with
  | String ":" s' => s'
  | String _ s' => afterColon s'
  | EmptyString => EmptyString
  end.

Definition validResolution (resolution : Z) : bool :=
  (0 <=? resolution)%Z && (resolution <=? 15)%Z.

Definition positions (c : Coordinates) : list Position :=
  match c with
  | Loop ring => ring
  | Polygon rings => concat rings
  | MultiPolygon _ => []
  end.

Definition least (xs : list Qc) : Qc :=
  foldr (λ x m, if Js.lt x m then x else m) (default 0 (head xs)) xs.
Definition greatest (xs : list Qc) : Qc :=
  foldr (λ x m, if Js.lt m x then x else m) (default 0 (head xs)) xs.

(** The integers [i] with [lo ≤ i + 1/2 ≤ hi]. *)
Definition centresBetween (lo hi : Qc) : list Z :=
  let first := Qceiling (this lo - (1 # 2))%Q in
  let last := Qfloor (this hi - (1 # 2))%Q in
  seqZ first (last - first + 1).

Definition cover (c : Coordinates) (resolution : Z) : option (list H3Index) :=
  if validResolution resolution then
    match c with
    | MultiPolygon [] | MultiPolygon ([] :: _) => Some []
    | MultiPolygon _ => None
    | _ =>
        match positions c with
        | [] => Some []
        | ps =>
            let lats := fst <$> ps in
            let lngs := snd <$> ps in
            Some (i ← centresBetween (least lats) (greatest lats);
                  j ← centresBetween (least lngs) (greatest lngs);
                  [cellName i j])
        end
    end
  else None.

Definition locate (lat lng : Qc) (resolution : Z) : option H3Index :=
  if validResolution resolution
  then Some (cellName (Qfloor (this lat)) (Qfloor (this lng)))
  else None.

Definition corners (index : H3Index) : list LatLng :=
  match Js.parseInt (beforeColon index), Js.parseInt (afterColon index) with
  | Some i, Some j =>
      [ {| lat := Js.int i; lng := Js.int j |};
        {| lat := Js.int i; lng := Js.int (j + 1) |};
        {| lat := Js.int (i + 1); lng := Js.int (j + 1) |};
        {| lat := Js.int (i + 1); lng := Js.int j |} ]
  | _, _ => []
  end.

Definition lib : Lib :=
  {| polygonToCells := cover; latLngToCell := locate; cellVertices := corners |}.

End Lattice.

(** ** Sample data

    The scenario of section 8 of the specification on the sample library:
    fire A burns 5 ha inside one cell, fire B burns 150 ha and its polygon
    lies over three cells,
    fire C burns 20 ha and comes without a polygon. *)

Module Sample.

(** The rectangle [[west, east] x [south, north]] as a one-ring, one-polygon
    MultiPolygon in [[lng, lat]] pairs. *)
Definition box (west south east north : Qc) : list (list Ring) :=
  [[ [ (west, south); (east, south); (east, north); (west, north); (west, south) ] ]].

Definition fireA : FireData :=
  {| id := 1; centroid := (Js.decimal (-35) 10, Js.decimal 405 10);
     shape := Some (box (Js.decimal (-38) 10) (Js.decimal 402 10)
                        (Js.decimal (-32) 10) (Js.decimal 408 10));
     area_ha := Js.int 5 |}.

Definition fireB : FireData :=
  {| id := 2; centroid := (Js.decimal (-55) 10, Js.decimal 415 10);
     shape := Some (box (Js.decimal (-68) 10) (Js.decimal 412 10)
                        (Js.decimal (-42) 10) (Js.decimal 418 10));
     area_ha := Js.int 150 |}.

Definition fireC : FireData :=
  {| id := 3; centroid := (Js.decimal (-15) 10, Js.decimal 385 10);
     shape := None;
     area_ha := Js.int 20 |}.

Definition fires : list FireData := [fireA; fireB; fireC].

(** A cumulated fire service that has served nothing yet, over a record
    store that holds the three fires for every range. *)
Definition service : CumulatedFireService.State :=
  {| CumulatedFireService.cache := ∅;
     CumulatedFireService.getFiresInDateRange := λ _ _, Ok fires;
     CumulatedFireService.binnings := 0 |}.

Definition cumulated : result CumulatedFireService.CumulatedFireData
                       * CumulatedFireService.State :=
  CumulatedFireService.calculateCumulatedFireData
    (H := Lattice.lib) "2025-08-01" "2025-08-03" 6 service.

(** A grid service with an empty, writable cache directory, and a viewport
    around Paris, five degrees north of [SPAIN_BOUNDS]. *)
Definition emptyDisk : HexagonGridService.State :=
  {| HexagonGridService.files := ∅; HexagonGridService.writable := true;
     HexagonGridService.clock := 0; HexagonGridService.coverings := [] |}.

Definition paris : HexagonGridService.Viewport :=
  {| HexagonGridService.north := Js.int 49; HexagonGridService.south := Js.int 48;
     HexagonGridService.east := Js.int 4; HexagonGridService.west := Js.int 2 |}.

(** Browser side: a hexagon without fire data, the grid over
    [SPAIN_BOUNDS], and a grid cropped to a single cell of fire B. *)
Definition hexagonOf (h3Index : H3Index) : UseFireData.Feature :=
  {| UseFireData.h3Index := h3Index; UseFireData.properties := UseFireData.noFireData |}.

Definition spainGrid : list UseFireData.Feature :=
  hexagonOf <$> default [] (Lattice.cover
                              (HexagonGridService.boundsPolygon
                                 HexagonGridService.SPAIN_BOUNDS) 6).

Definition croppedGrid : list UseFireData.Feature := [hexagonOf "41:-6"].

End Sample.

(** ** Vocabulary of the properties *)

(** The sum of a list of areas. *)
Definition sumList (xs : list Qc) : Qc := foldr Qcplus 0 xs.

(** Sums over the values of a dictionary. *)
Definition sumNatOver {V} (f : V → nat) (m : gmap string V) : nat :=
  map_fold (λ _ v acc, acc + f v)%nat 0%nat m.
Definition sumQcOver {V} (f : V → Qc) (m : gmap string V) : Qc :=
  map_fold (λ _ v acc, acc + f v) 0 m.

(** The size class as section 3 of the specification words it. *)
Inductive sizeClass : Qc → nat → FireSize → Prop :=
| sizeClass_none totalAreaHectares :
    sizeClass totalAreaHectares 0 none
| sizeClass_small totalAreaHectares fireCount :
    fireCount ≠ 0%nat → totalAreaHectares < Js.int 10 →
    sizeClass totalAreaHectares fireCount small
| sizeClass_medium totalAreaHectares fireCount :
    fireCount ≠ 0%nat → Js.int 10 ≤ totalAreaHectares → totalAreaHectares < Js.int 100 →
    sizeClass totalAreaHectares fireCount medium
| sizeClass_large totalAreaHectares fireCount :
    fireCount ≠ 0%nat → Js.int 100 ≤ totalAreaHectares →
    sizeClass totalAreaHectares fireCount large.

(** The library resolves the centroid of every record at [resolution]. *)
Definition centroidsResolve `{Lib} (resolution : Z) (fires : list FireData) : Prop :=
  Forall (λ fire, is_Some (latLngToCell (centroid fire).2 (centroid fire).1 resolution)) fires.

Section CumulatedVocabulary.
Import CumulatedFireService.

(** The entry of a cell once [fire] is added to it. *)
Definition credited (fire : FireData) (hexagon : Hex.t) : Hex.t :=
  {| Hex.totalArea := Hex.totalArea hexagon + area_ha fire;
     Hex.fireCount := Hex.fireCount hexagon + 1;
     Hex.fires := Hex.fires hexagon ++ [pretty (id fire)];
     Hex.size := Hex.size hexagon |}.

Definition emptyHexagon : Hex.t :=
  {| Hex.totalArea := 0; Hex.fireCount := 0; Hex.fires := []; Hex.size := none |}.

(** What holds of the result of one aggregation. *)
Definition consistent (r : CumulatedFireData) : Prop :=
  map_Forall (λ _ hexagon,
                (1 ≤ Hex.fireCount hexagon)%nat
                ∧ Hex.size hexagon = getFireSize (Hex.totalArea hexagon))
             (hexagonData r)
  ∧ sumNatOver Hex.fireCount (hexagonData r) = totalFires r
  ∧ sumQcOver Hex.totalArea (hexagonData r) = totalArea r.

(** What the cumulated fire service can be brought to: it starts with an
    empty cache; a request may be served, the cache cleared, and the record
    store may change between two requests. *)
Inductive reachable `{Lib} : State → Prop :=
| reachable_start store :
    reachable {| cache := ∅; getFiresInDateRange := store; binnings := 0 |}
| reachable_request st startDate endDate resolution :
    reachable st →
    reachable (calculateCumulatedFireData startDate endDate resolution st).2
| reachable_clear st :
    reachable st → reachable (clearCache st)
| reachable_store st store :
    reachable st →
    reachable {| cache := cache st; getFiresInDateRange := store;
                 binnings := binnings st |}.

End CumulatedVocabulary.

(** The same record without its polygon. *)
Definition eraseShape (fire : FireData) : FireData :=
  {| id := id fire; centroid := centroid fire; shape := None; area_ha := area_ha fire |}.

(** How often [h3Index] is listed in [cells]. *)
Definition listings (h3Index : H3Index) (cells : list H3Index) : nat :=
  length (filter (λ cell, cell = h3Index) cells).

(** The cells of [cells] that the grid dictionary [m] holds. *)
Definition onGrid {V} (m : gmap string V) (cells : list H3Index) : list H3Index :=
  filter (λ cell, is_Some (m !! cell)) cells.

(** The entry of a grid cell once [fire] is added to it [n] times with the
    share [area]. *)
Definition creditedTimes (fire : FireData) (area : Qc) (n : nat)
    (hexagonData : UseFireData.Agg.t) : UseFireData.Agg.t :=
  {| UseFireData.Agg.totalArea :=
       UseFireData.Agg.totalArea hexagonData + Js.ofNat n * area;
     UseFireData.Agg.fireCount := UseFireData.Agg.fireCount hexagonData + n;
     UseFireData.Agg.fires := UseFireData.Agg.fires hexagonData ++ replicate n fire |}.

(** The records of [fires] whose centroid the library resolves to
    [h3Index], in the order of [fires]. *)
Definition binnedTo `{Lib} (resolution : Z) (h3Index : H3Index)
    (fires : list FireData) : list FireData :=
  filter (λ fire,
            latLngToCell (centroid fire).2 (centroid fire).1 resolution = Some h3Index)
         fires.

(** The cumulated fire service over another record store. *)
Definition withStore (store : string → string → result (list FireData))
    (st : CumulatedFireService.State) : CumulatedFireService.State :=
  {| CumulatedFireService.cache := CumulatedFireService.cache st;
     CumulatedFireService.getFiresInDateRange := store;
     CumulatedFireService.binnings := CumulatedFireService.binnings st |}.

(** How [binFire] treats a record at [resolution]: the cells of its polygon
    when it has one and the library covers it, otherwise [None], the
    centroid method. *)
Definition polygonCells `{Lib} (resolution : Z) (fire : FireData) : option (list H3Index) :=
  match shape fire with
  | Some ((_ :: _) as polygons) =>
      polygonToCells (MultiPolygon (UseFireData.swapRings polygons)) resolution
  | _ => None
  end.

(** The area that one listing of a cell receives from [fire]. *)
Definition shareOf `{Lib} (resolution : Z) (fire : FireData) : Qc :=
  match polygonCells resolution fire with
  | Some cells => area_ha fire / Js.ofNat (length cells)
  | None => area_ha fire
  end.

(** How many times [fire] is added to the cell [h3Index]. *)
Definition timesIn `{Lib} (resolution : Z) (h3Index : H3Index) (fire : FireData) : nat :=
  match polygonCells resolution fire with
  | Some cells => listings h3Index cells
  | None =>
      match latLngToCell (centroid fire).2 (centroid fire).1 resolution with
      | Some cell => if decide (cell = h3Index) then 1%nat else 0%nat
      | None => 0%nat
      end
  end.

(** What every entry of [hexagonFireMap] satisfies while the fires of
    [fires] are binned. *)
Definition entryOf (fires : list FireData) (hexagonData : UseFireData.Agg.t) : Prop :=
  length (UseFireData.Agg.fires hexagonData) = UseFireData.Agg.fireCount hexagonData
  ∧ (UseFireData.Agg.fireCount hexagonData = 0%nat →
     UseFireData.Agg.totalArea hexagonData = 0)
  ∧ ∀ fire, fire ∈ UseFireData.Agg.fires hexagonData → fire ∈ fires.

(** What the properties of a hexagon satisfy after the fires of [fires]
    have been binned. *)
Definition fireProperties (fires : list FireData) (p : UseFireData.Properties) : Prop :=
  UseFireData.fireCount p = length (UseFireData.fires p)
  ∧ (∀ fire, fire ∈ UseFireData.fires p → fire ∈ fires)
  ∧ (UseFireData.hasFireData p = true ↔ (0 < UseFireData.fireCount p)%nat)
  ∧ UseFireData.averageArea p * Js.ofNat (UseFireData.fireCount p) = UseFireData.totalArea p
  ∧ (UseFireData.hasFireData p = false → p = UseFireData.noFireData).

(** The grid service over other cache files. *)
Definition withFiles (files : gmap string HexagonGridService.HexagonGrid)
    (st : HexagonGridService.State) : HexagonGridService.State :=
  {| HexagonGridService.files := files;
     HexagonGridService.writable := HexagonGridService.writable st;
     HexagonGridService.clock := HexagonGridService.clock st;
     HexagonGridService.coverings := HexagonGridService.coverings st |}.

(** A viewport a thousandth of a degree away from [Sample.paris]. *)
Definition nearParis : HexagonGridService.Viewport :=
  {| HexagonGridService.north := Js.decimal 49001 1000;
     HexagonGridService.south := Js.decimal 48001 1000;
     HexagonGridService.east := Js.decimal 4001 1000;
     HexagonGridService.west := Js.decimal 2001 1000 |}.

(** The zoom that the [/hexagon-grid] route works with: [parseFloat(...) || 5]. *)
Definition zoomOr5 (zoom : option Qc) : Qc :=
  match zoom with
  | Some z => if decide (z = 0) then Js.int 5 else z
  | None => Js.int 5
  end.

(** The one covering that a grid request can ask of the library. *)
Definition coveringOf (zoom : Qc) (viewport : option HexagonGridService.Viewport)
    : Coordinates * Z :=
  (HexagonGridService.boundsPolygon (default HexagonGridService.SPAIN_BOUNDS viewport),
   HexagonGridService.getResolutionForZoom zoom).

(** [Sample.emptyDisk] after it has served the Spain grid of resolution 6. *)
Definition servedDisk : HexagonGridService.State :=
  (HexagonGridService.getHexagonGridForSpain (H := Lattice.lib) 6 Sample.emptyDisk).2.

(** The square cells as children of one base cell: a sample of the
    hierarchy that the client-side grid walks. The base cell has nine
    children, around the north-west corner of the Spain bounds of the
    browser, whatever the resolution within 0..15. *)
Definition latticeHierarchy : UseHexagonGridFallback.Hierarchy :=
  {| UseHexagonGridFallback.getRes0Cells := ["base"];
     UseHexagonGridFallback.cellToChildren := λ cell resolution,
       if Lattice.validResolution resolution
       then Some (if String.eqb cell "base"
                  then i ← seqZ 42 3; j ← seqZ (-11) 3; [Lattice.cellName i j]
                  else [])
       else None |}.


(** The first polygon of a record as h3-js takes a polygon: its rings, in
    [[lat, lng]] pairs. *)
Definition firstPolygon (fire : FireData) : Coordinates :=
  Polygon (default [] (head (UseFireData.swapRings (default [] (shape fire))))).

(** ** Numbers *)

Lemma lt_true x y : Js.lt x y = true ↔ x < y.
Proof. unfold Js.lt. apply bool_decide_eq_true. Qed.

Lemma lt_false x y : Js.lt x y = false ↔ y ≤ x.
Proof. unfold Js.lt. rewrite bool_decide_eq_false. symmetry. apply Qcle_ngt. Qed.

Lemma int_lt (a b : Z) : (a < b)%Z → Js.int a < Js.int b.
Proof. intros Hab. unfold Qclt. simpl. by rewrite <- Zlt_Qlt. Qed.

Lemma ofNat_nonzero (n : nat) : n ≠ 0%nat → Js.ofNat n ≠ 0.
Proof.
  intros Hn Heq. apply (f_equal this) in Heq. simpl in Heq.
  injection Heq as Heq. lia.
Qed.

Lemma ofNat_S (n : nat) : Js.ofNat (S n) = Js.ofNat n + 1.
Proof.
  apply Qc_is_canon. unfold Js.ofNat, Js.int. simpl.
  rewrite Qred_correct. unfold Qeq. simpl. lia.
Qed.


(** ** Sums over a dictionary *)

Section Sums.
Context {V : Type}.
Implicit Types (m : gmap string V) (k : string) (v : V).

Lemma sumNatOver_empty (f : V → nat) : sumNatOver f (∅ : gmap string V) = 0%nat.
Proof. apply map_fold_empty. Qed.

Lemma sumNatOver_insert_None (f : V → nat) m k v :
  m !! k = None → sumNatOver f (<[k:=v]> m) = (sumNatOver f m + f v)%nat.
Proof.
  intros Hk. unfold sumNatOver.
  rewrite map_fold_insert_L; [done | intros; lia | done].
Qed.

Lemma sumNatOver_delete (f : V → nat) m k v :
  m !! k = Some v → sumNatOver f m = (sumNatOver f (delete k m) + f v)%nat.
Proof.
  intros Hk. unfold sumNatOver.
  rewrite (map_fold_delete_L _ _ k v m); [done | intros; lia | done].
Qed.

Lemma sumNatOver_insert_Some (f : V → nat) m k v v0 :
  m !! k = Some v0 →
  (sumNatOver f (<[k:=v]> m) + f v0 = sumNatOver f m + f v)%nat.
Proof.
  intros Hk. rewrite <- (insert_delete_eq m k v).
  rewrite sumNatOver_insert_None by apply lookup_delete_eq.
  rewrite (sumNatOver_delete f m k v0 Hk). lia.
Qed.

Lemma sumQcOver_empty (f : V → Qc) : sumQcOver f (∅ : gmap string V) = 0.
Proof. apply map_fold_empty. Qed.

Lemma sumQcOver_insert_None (f : V → Qc) m k v :
  m !! k = None → sumQcOver f (<[k:=v]> m) = sumQcOver f m + f v.
Proof.
  intros Hk. unfold sumQcOver.
  rewrite map_fold_insert_L; [done | intros; ring | done].
Qed.

Lemma sumQcOver_delete (f : V → Qc) m k v :
  m !! k = Some v → sumQcOver f m = sumQcOver f (delete k m) + f v.
Proof.
  intros Hk. unfold sumQcOver.
  rewrite (map_fold_delete_L _ _ k v m); [done | intros; ring | done].
Qed.

Lemma sumQcOver_insert_Some (f : V → Qc) m k v v0 :
  m !! k = Some v0 →
  sumQcOver f (<[k:=v]> m) + f v0 = sumQcOver f m + f v.
Proof.
  intros Hk. rewrite <- (insert_delete_eq m k v).
  rewrite sumQcOver_insert_None by apply lookup_delete_eq.
  rewrite (sumQcOver_delete f m k v0 Hk). ring.
Qed.

End Sums.

Lemma sumNatOver_fmap {V W} (f : W → nat) (g : V → W) (m : gmap string V) :
  sumNatOver f (g <$> m) = sumNatOver (f ∘ g) m.
Proof. unfold sumNatOver. by rewrite map_fold_fmap. Qed.

Lemma sumQcOver_fmap {V W} (f : W → Qc) (g : V → W) (m : gmap string V) :
  sumQcOver f (g <$> m) = sumQcOver (f ∘ g) m.
Proof. unfold sumQcOver. by rewrite map_fold_fmap. Qed.

(** ** Resolution for a zoom level *)

(** C9. [getResolutionForZoom] is a total function of the zoom level alone:
    below 9 it answers 6, from 9 on it answers 7, and the browser-side copy
    (useHexagonGrid.ts) answers as the server-side one (hexagonGridService.ts)
    on every zoom. *)
Theorem getResolutionForZoom_steps (zoom : Qc) :
  (zoom < Js.int 9 →
     HexagonGridService.getResolutionForZoom zoom = 6%Z
     ∧ UseHexagonGrid.getResolutionForZoom zoom = 6%Z)
  ∧ (Js.int 9 ≤ zoom →
     HexagonGridService.getResolutionForZoom zoom = 7%Z
     ∧ UseHexagonGrid.getResolutionForZoom zoom = 7%Z)
  ∧ UseHexagonGrid.getResolutionForZoom zoom
    = HexagonGridService.getResolutionForZoom zoom.
Proof.
  unfold HexagonGridService.getResolutionForZoom, UseHexagonGrid.getResolutionForZoom.
  split; [|split]; [intros Hlt | intros Hge | reflexivity].
  - apply lt_true in Hlt. by rewrite Hlt.
  - apply lt_false in Hge. by rewrite Hge.
Qed.

(** ** The cumulated aggregation (backend) *)

Section Backend.
Context `{Lib}.
Import CumulatedFireService.
Implicit Types (m : gmap string Hex.t) (fire : FireData) (fires : list FireData).

Lemma sumList_cons x xs : sumList (x :: xs) = x + sumList xs.
Proof. reflexivity. Qed.

Lemma Qc_cancel_r (a b c : Qc) : a + c = b + c → a = b.
Proof. intros Heq. replace a with (a + c - c) by ring. rewrite Heq. ring. Qed.

Lemma alter_present {V} (f : V → V) (m : gmap string V) k v :
  m !! k = Some v → alter f k m = <[k := f v]> m.
Proof.
  intros Hk. apply map_eq. intros j.
  rewrite lookup_alter, lookup_insert. case_decide; subst; [by rewrite Hk | done].
Qed.

(** Centroid binning credits exactly one cell, the one of the centroid. *)
Lemma addFireToHexagonByCentroid_inv fire resolution m m' :
  addFireToHexagonByCentroid fire resolution m = Ok m' →
  ∃ k, latLngToCell (centroid fire).2 (centroid fire).1 resolution = Some k
       ∧ m' = <[k := credited fire (default emptyHexagon (m !! k))]> m.
Proof.
  unfold addFireToHexagonByCentroid. destruct (centroid fire) as [lng lat]. simpl.
  destruct (latLngToCell lat lng resolution) as [k|]; [|done].
  intros [= <-]. exists k. split; [done|].
  destruct (m !! k) as [hexagon|] eqn:Hk; simpl.
  - by apply alter_present.
  - rewrite (alter_present _ _ k emptyHexagon) by apply lookup_insert_eq.
    by rewrite insert_insert_eq.
Qed.

Lemma addFireToHexagonByCentroid_total fire resolution m :
  is_Some (latLngToCell (centroid fire).2 (centroid fire).1 resolution) →
  ∃ m', addFireToHexagonByCentroid fire resolution m = Ok m'.
Proof.
  unfold addFireToHexagonByCentroid. destruct (centroid fire) as [lng lat]. simpl.
  intros [k ->]. eauto.
Qed.

Lemma credit_fireCount fire m k :
  sumNatOver Hex.fireCount (<[k := credited fire (default emptyHexagon (m !! k))]> m)
  = S (sumNatOver Hex.fireCount m).
Proof.
  destruct (m !! k) as [hexagon|] eqn:Hk; simpl.
  - pose proof (sumNatOver_insert_Some Hex.fireCount m k (credited fire hexagon) _ Hk) as Hs.
    simpl in Hs. lia.
  - rewrite sumNatOver_insert_None by done. simpl. lia.
Qed.

Lemma credit_totalArea fire m k :
  sumQcOver Hex.totalArea (<[k := credited fire (default emptyHexagon (m !! k))]> m)
  = sumQcOver Hex.totalArea m + area_ha fire.
Proof.
  destruct (m !! k) as [hexagon|] eqn:Hk; simpl.
  - pose proof (sumQcOver_insert_Some Hex.totalArea m k (credited fire hexagon) _ Hk) as Hs.
    simpl in Hs. apply (Qc_cancel_r _ _ (Hex.totalArea hexagon)). rewrite Hs. ring.
  - rewrite sumQcOver_insert_None by done. simpl. ring.
Qed.

Lemma credit_counted fire m k :
  map_Forall (λ _ hexagon, 1 ≤ Hex.fireCount hexagon)%nat m →
  map_Forall (λ _ hexagon, 1 ≤ Hex.fireCount hexagon)%nat
    (<[k := credited fire (default emptyHexagon (m !! k))]> m).
Proof. intros Hm. apply map_Forall_insert_2; [simpl; lia | done]. Qed.

(** What the loop over the fires keeps: both counters follow the input, and
    the dictionary holds the same number of fires and the same area. *)
Lemma forEach_processFire resolution fires m totalFires totalArea acc :
  forEach (processFire resolution) fires (m, totalFires, totalArea) = Ok acc →
  acc.1.2 = (totalFires + length fires)%nat
  ∧ acc.2 = totalArea + sumList (area_ha <$> fires)
  ∧ sumNatOver Hex.fireCount acc.1.1 = (sumNatOver Hex.fireCount m + length fires)%nat
  ∧ sumQcOver Hex.totalArea acc.1.1
    = sumQcOver Hex.totalArea m + sumList (area_ha <$> fires)
  ∧ (map_Forall (λ _ hexagon, 1 ≤ Hex.fireCount hexagon)%nat m →
     map_Forall (λ _ hexagon, 1 ≤ Hex.fireCount hexagon)%nat acc.1.1).
Proof.
  revert m totalFires totalArea.
  induction fires as [|fire fires IH]; intros m totalFires totalArea Hloop;
    simpl in Hloop.
  - injection Hloop as <-. simpl. repeat split; try lia; try ring; done.
  - destruct (addFireToHexagonByCentroid fire resolution m) as [m1|] eqn:Hadd;
      simpl in Hloop; [|done].
    apply addFireToHexagonByCentroid_inv in Hadd as (k & _ & ->).
    apply IH in Hloop as (Hn & Ha & Hcount & Harea & Hpos).
    rewrite credit_fireCount in Hcount. rewrite credit_totalArea in Harea.
    rewrite fmap_cons, sumList_cons, length_cons.
    repeat split.
    + lia.
    + rewrite Ha. ring.
    + lia.
    + rewrite Harea. ring.
    + intros Hm. by apply Hpos, credit_counted.
Qed.

Lemma forEach_processFire_total resolution fires acc :
  centroidsResolve resolution fires →
  ∃ acc', forEach (processFire resolution) fires acc = Ok acc'.
Proof.
  intros Hres. revert acc. induction Hres as [|fire fires Hfire _ IH]; intros acc; simpl.
  - eauto.
  - destruct acc as [[m totalFires] totalArea]. simpl.
    destruct (addFireToHexagonByCentroid_total fire resolution m Hfire) as [m1 ->].
    simpl. apply IH.
Qed.

Lemma aggregate_inv fires startDate endDate resolution r :
  aggregate fires startDate endDate resolution = Ok r →
  totalFires r = length fires
  ∧ totalArea r = sumList (area_ha <$> fires)
  ∧ consistent r.
Proof.
  unfold aggregate.
  destruct (forEach _ fires _) as [[[m n] a]|] eqn:Hloop; simpl; [|done].
  intros [= <-]. unfold consistent. simpl.
  apply forEach_processFire in Hloop as (Hn & Ha & Hcount & Harea & Hpos).
  simpl in *. rewrite sumNatOver_empty in Hcount. rewrite sumQcOver_empty in Harea.
  split; [lia|]. split; [rewrite Ha; ring|]. split; [|split].
  - intros k hexagon. rewrite lookup_fmap.
    destruct (m !! k) as [hexagon0|] eqn:Hk; simpl; [|done].
    intros [= <-]. simpl. split; [|done].
    apply (Hpos (map_Forall_empty _) k hexagon0 Hk).
  - rewrite sumNatOver_fmap. unfold sumNatOver, compose. simpl.
    unfold sumNatOver in Hcount. lia.
  - rewrite sumQcOver_fmap. unfold sumQcOver, compose. simpl.
    rewrite Ha. unfold sumQcOver in Harea. rewrite Harea. ring.
Qed.

Lemma aggregate_total fires startDate endDate resolution :
  centroidsResolve resolution fires →
  ∃ r, aggregate fires startDate endDate resolution = Ok r.
Proof.
  intros Hres. unfold aggregate.
  destruct (forEach_processFire_total resolution fires (∅, 0%nat, 0) Hres)
    as [[[m n] a] ->].
  simpl. eauto.
Qed.

(** Every cached result was produced by the aggregation. *)
Lemma reachable_cache st :
  reachable st → map_Forall (λ _ r, consistent r) (cache st).
Proof.
  induction 1 as [store | st startDate endDate resolution _ IH | st _ IH | st store _ IH].
  - apply map_Forall_empty.
  - unfold calculateCumulatedFireData.
    destruct (cache st !! _) as [cached|]; [done|].
    destruct (getFiresInDateRange st startDate endDate) as [fires|]; [|done].
    destruct (aggregate fires startDate endDate resolution) as [r|] eqn:Hagg; simpl; [|done].
    apply map_Forall_insert_2; [|done]. by apply aggregate_inv in Hagg as (_ & _ & ?).
  - apply map_Forall_empty.
  - done.
Qed.

Lemma calculateCumulatedFireData_consistent st startDate endDate resolution r st' :
  reachable st →
  calculateCumulatedFireData startDate endDate resolution st = (Ok r, st') →
  consistent r.
Proof.
  intros Hst. unfold calculateCumulatedFireData.
  destruct (cache st !! _) as [cached|] eqn:Hhit.
  - intros [= <- _]. by apply (reachable_cache st Hst _ _ Hhit).
  - destruct (getFiresInDateRange st startDate endDate) as [fires|]; [|done].
    destruct (aggregate fires startDate endDate resolution) as [r0|] eqn:Hagg; [|done].
    intros [= <- _]. by apply aggregate_inv in Hagg as (_ & _ & ?).
Qed.

End Backend.

(** ** Totals and invariants of the cumulated aggregation *)

Section CumulatedTotals.
Context `{Lib}.
Import CumulatedFireService.

(** C3. When the request is not answered from the cache and the library
    resolves the centroid of every record, [calculateCumulatedFireData]
    returns a result whose [totalFires] is the number of input records and
    whose [totalArea] is the sum of their [area_ha]: both counters are
    advanced once per record of the input, whatever cell the record went to. *)
Theorem totals_over_input_records st startDate endDate resolution fires :
  cache st !! cacheKey startDate endDate resolution = None →
  getFiresInDateRange st startDate endDate = Ok fires →
  centroidsResolve resolution fires →
  ∃ r st',
    calculateCumulatedFireData startDate endDate resolution st = (Ok r, st')
    ∧ totalFires r = length fires
    ∧ totalArea r = sumList (area_ha <$> fires).
Proof.
  intros Hmiss Hstore Hres. unfold calculateCumulatedFireData.
  rewrite Hmiss, Hstore.
  destruct (aggregate_total fires startDate endDate resolution Hres) as [r Hagg].
  rewrite Hagg. eexists _, _. split; [reflexivity|].
  by apply aggregate_inv in Hagg as (? & ? & _).
Qed.

(** C10. Every result that [calculateCumulatedFireData] returns, computed
    or taken from its cache, has no cell with a zero [fireCount], its
    [fireCount]s add up to [totalFires] and its per-cell [totalArea]s add up
    to [totalArea]. *)
Theorem cumulated_result_invariant st startDate endDate resolution r st' :
  reachable st →
  calculateCumulatedFireData startDate endDate resolution st = (Ok r, st') →
  (∀ h3Index hexagon,
     hexagonData r !! h3Index = Some hexagon → (1 ≤ Hex.fireCount hexagon)%nat)
  ∧ sumNatOver Hex.fireCount (hexagonData r) = totalFires r
  ∧ sumQcOver Hex.totalArea (hexagonData r) = totalArea r.
Proof.
  intros Hst Hcall.
  destruct (calculateCumulatedFireData_consistent _ _ _ _ _ _ Hst Hcall)
    as (Hcells & Hcount & Harea).
  split; [|done]. intros k hexagon Hk. by destruct (Hcells k hexagon Hk).
Qed.

End CumulatedTotals.

Lemma totals_over_input_records_witness :
  ∃ r st',
    CumulatedFireService.calculateCumulatedFireData
      (H := Lattice.lib) "2025-08-01" "2025-08-03" 6 Sample.service = (Ok r, st')
    ∧ CumulatedFireService.totalFires r = length Sample.fires
    ∧ CumulatedFireService.totalArea r = sumList (area_ha <$> Sample.fires).
Proof.
  apply (totals_over_input_records (H := Lattice.lib) Sample.service).
  - reflexivity.
  - reflexivity.
  - repeat constructor; by eexists.
Defined.

Lemma cumulated_result_invariant_witness :
  ∃ r,
    (CumulatedFireService.calculateCumulatedFireData
       (H := Lattice.lib) "2025-08-01" "2025-08-03" 6 Sample.cumulated.2).1 = Ok r
    ∧ (∀ h3Index hexagon,
         CumulatedFireService.hexagonData r !! h3Index = Some hexagon →
         (1 ≤ CumulatedFireService.Hex.fireCount hexagon)%nat)
    ∧ sumNatOver CumulatedFireService.Hex.fireCount (CumulatedFireService.hexagonData r)
      = CumulatedFireService.totalFires r
    ∧ sumQcOver CumulatedFireService.Hex.totalArea (CumulatedFireService.hexagonData r)
      = CumulatedFireService.totalArea r.
Proof.
  eexists. split; [vm_compute; reflexivity|].
  apply (cumulated_result_invariant (H := Lattice.lib) Sample.cumulated.2
           "2025-08-01" "2025-08-03" 6 _ Sample.cumulated.2).
  - apply reachable_request, reachable_start.
  - vm_compute. reflexivity.
Defined.

(** The sample run: three fires, 175 ha, one cell per fire. *)
Example sample_cumulated_totals :
  (λ r, (CumulatedFireService.totalFires r,
         this (CumulatedFireService.totalArea r),
         (λ kv, (kv.1, CumulatedFireService.Hex.fireCount kv.2,
                 CumulatedFireService.Hex.size kv.2))
           <$> map_to_list (CumulatedFireService.hexagonData r)))
    <$> (match Sample.cumulated.1 with Ok r => Some r | Throw _ => None end)
  = Some (3%nat, 175%Q,
          [("38:-2", 1%nat, medium); ("41:-6", 1%nat, large); ("40:-4", 1%nat, small)]).
Proof. vm_compute. reflexivity. Qed.

(** ** Size classes *)

Lemma getFireSize_agree : UseFireData.getFireSize = CumulatedFireService.getFireSize.
Proof. reflexivity. Qed.

Lemma getFireSize_sizeClass area fireCount :
  fireCount ≠ 0%nat → sizeClass area fireCount (CumulatedFireService.getFireSize area).
Proof.
  intros Hcount. unfold CumulatedFireService.getFireSize.
  destruct (Js.lt area (Js.int 10)) eqn:H10.
  { apply sizeClass_small; [done | by apply lt_true]. }
  apply lt_false in H10.
  destruct (Js.lt area (Js.int 100)) eqn:H100.
  { apply sizeClass_medium; [done | done | by apply lt_true]. }
  apply lt_false in H100. by apply sizeClass_large.
Qed.

Lemma sizeClass_functional area fireCount size1 size2 :
  sizeClass area fireCount size1 → sizeClass area fireCount size2 → size1 = size2.
Proof.
  assert (H10 : Js.int 10 < Js.int 100) by (by apply int_lt).
  intros H1 H2.
  inversion H1; subst; inversion H2; subst; try done;
    exfalso;
    repeat match goal with
           | Hle : ?a ≤ ?b |- _ => apply Qcle_ngt in Hle
           end;
    eauto using Qclt_trans.
Qed.

Lemma updateProperties_sizeClass (hexagonFireMap : gmap string UseFireData.Agg.t) hexagon :
  sizeClass (UseFireData.totalArea (UseFireData.properties
                                      (UseFireData.updateProperties hexagonFireMap hexagon)))
            (UseFireData.fireCount (UseFireData.properties
                                      (UseFireData.updateProperties hexagonFireMap hexagon)))
            (UseFireData.size (UseFireData.properties
                                 (UseFireData.updateProperties hexagonFireMap hexagon))).
Proof.
  unfold UseFireData.updateProperties. simpl.
  destruct (hexagonFireMap !! UseFireData.h3Index hexagon) as [fireData|];
    [|apply sizeClass_none].
  destruct (0 <? UseFireData.Agg.fireCount fireData)%nat eqn:Hpos;
    [|apply sizeClass_none].
  simpl. rewrite getFireSize_agree. apply getFireSize_sizeClass.
  apply Nat.ltb_lt in Hpos. lia.
Qed.

Lemma clearFireLayers_sizeClass features out hexagon :
  UseFireData.clearFireLayers (Some (Some features)) = Some (Some out) →
  hexagon ∈ out →
  sizeClass (UseFireData.totalArea (UseFireData.properties hexagon))
            (UseFireData.fireCount (UseFireData.properties hexagon))
            (UseFireData.size (UseFireData.properties hexagon)).
Proof.
  simpl. intros [= <-] Hin.
  apply list_elem_of_fmap in Hin as (hexagon0 & -> & _). apply sizeClass_none.
Qed.

Section SizeClasses.
Context `{Lib}.

(** C1. The size class of every aggregated cell is the one the thresholds
    give for its total area and fire count, and they give only one: on the
    hexagons that [addFireDataToMap] writes and on the cells of every result
    of [calculateCumulatedFireData]. The four boundary values fall in
    Small, Medium, Medium and Large. *)
Theorem sizeClass_of_aggregated_cells :
  (∀ zoom fires map out hexagon,
     UseFireData.addFireDataToMap zoom fires map = Ok (Some (Some out)) →
     hexagon ∈ out →
     sizeClass (UseFireData.totalArea (UseFireData.properties hexagon))
               (UseFireData.fireCount (UseFireData.properties hexagon))
               (UseFireData.size (UseFireData.properties hexagon)))
  ∧ (∀ st startDate endDate resolution r st' h3Index hexagon,
       reachable st →
       CumulatedFireService.calculateCumulatedFireData startDate endDate resolution st
       = (Ok r, st') →
       CumulatedFireService.hexagonData r !! h3Index = Some hexagon →
       sizeClass (CumulatedFireService.Hex.totalArea hexagon)
                 (CumulatedFireService.Hex.fireCount hexagon)
                 (CumulatedFireService.Hex.size hexagon))
  ∧ (∀ area fireCount size1 size2,
       sizeClass area fireCount size1 → sizeClass area fireCount size2 → size1 = size2)
  ∧ UseFireData.getFireSize
      <$> [Js.decimal 9999 1000; Js.int 10; Js.decimal 99999 1000; Js.int 100]
    = [small; medium; medium; large]
  ∧ CumulatedFireService.getFireSize
      <$> [Js.decimal 9999 1000; Js.int 10; Js.decimal 99999 1000; Js.int 100]
    = [small; medium; medium; large].
Proof.
  split; [|split; [|split; [|split]]].
  - intros zoom fires map out hexagon. unfold UseFireData.addFireDataToMap.
    destruct map as [[features|]|]; [| |done].
    + destruct fires as [|fire fires].
      { intros [= Hout]. apply (clearFireLayers_sizeClass features). simpl. by rewrite Hout. }
      cbn [UseFireData.clearFireLayers]. unfold UseFireData.aggregateOnGrid.
      destruct (forEach _ (fire :: fires) _) as [hexagonFireMap|]; simpl; [|done].
      intros [= <-] Hin.
      apply list_elem_of_fmap in Hin as (hexagon0 & -> & _).
      apply updateProperties_sizeClass.
    + simpl. by destruct fires.
  - intros st startDate endDate resolution r st' h3Index hexagon Hst Hcall Hcell.
    destruct (calculateCumulatedFireData_consistent _ _ _ _ _ _ Hst Hcall)
      as (Hcells & _ & _).
    destruct (Hcells h3Index hexagon Hcell) as [Hcount ->].
    apply getFireSize_sizeClass. lia.
  - apply sizeClass_functional.
  - vm_compute. reflexivity.
  - vm_compute. reflexivity.
Qed.

End SizeClasses.

(** ** Binning on the grid (browser side) *)

Section GridBinning.
Import UseFireData.
Implicit Types (m : gmap string Agg.t) (fire : FireData) (cells : list H3Index).

Lemma ofNat_1 : Js.ofNat 1 = 1.
Proof. apply Qc_is_canon. reflexivity. Qed.

Lemma ofNat_0 : Js.ofNat 0 = 0.
Proof. apply Qc_is_canon. reflexivity. Qed.

Lemma share_times_count (area : Qc) (n : nat) :
  n ≠ 0%nat → Js.ofNat n * (area / Js.ofNat n) = area.
Proof. intros Hn. field. by apply ofNat_nonzero. Qed.

Lemma creditedTimes_0 fire area hexagonData :
  creditedTimes fire area 0 hexagonData = hexagonData.
Proof.
  destruct hexagonData as [total count fs]. unfold creditedTimes.
  cbn [Agg.totalArea Agg.fireCount Agg.fires replicate].
  f_equal; [rewrite ofNat_0; ring | lia | apply app_nil_r].
Qed.

Lemma creditedTimes_S fire area n hexagonData :
  creditedTimes fire area n (creditedTimes fire area 1 hexagonData)
  = creditedTimes fire area (S n) hexagonData.
Proof.
  unfold creditedTimes. cbn [Agg.totalArea Agg.fireCount Agg.fires]. f_equal.
  - rewrite (ofNat_S n), ofNat_1. ring.
  - lia.
  - by rewrite <- app_assoc.
Qed.

Lemma lookup_addToHexagon fire area k m j :
  addToHexagon fire area k m !! j
  = (if decide (k = j) then creditedTimes fire area 1 else λ hexagonData, hexagonData)
      <$> m !! j.
Proof.
  unfold addToHexagon. destruct (m !! k) as [hexagonData|] eqn:Hk.
  - rewrite lookup_insert. case_decide as Hkj.
    + subst j. rewrite Hk. simpl. f_equal. unfold creditedTimes. f_equal.
      rewrite ofNat_1. ring.
    + by destruct (m !! j).
  - case_decide as Hkj; [subst j; by rewrite Hk | by destruct (m !! j)].
Qed.

Lemma addToHexagon_is_Some fire area k m j :
  is_Some (addToHexagon fire area k m !! j) ↔ is_Some (m !! j).
Proof. rewrite lookup_addToHexagon. apply fmap_is_Some. Qed.

Lemma sum_addToHexagon fire area k m :
  sumQcOver Agg.totalArea (addToHexagon fire area k m)
  = sumQcOver Agg.totalArea m + (if decide (is_Some (m !! k)) then area else 0).
Proof.
  unfold addToHexagon. destruct (m !! k) as [hexagonData|] eqn:Hk.
  - rewrite decide_True by eauto.
    pose proof (sumQcOver_insert_Some Agg.totalArea m k
                  {| Agg.totalArea := Agg.totalArea hexagonData + area;
                     Agg.fireCount := Agg.fireCount hexagonData + 1;
                     Agg.fires := Agg.fires hexagonData ++ [fire] |}
                  hexagonData Hk) as Hs.
    cbn [Agg.totalArea] in Hs.
    apply (Qc_cancel_r _ _ (Agg.totalArea hexagonData)). rewrite Hs. ring.
  - rewrite decide_False by (by intros [? ?]). ring.
Qed.

(** The loop over the intersecting hexagons. *)
Lemma lookup_foldl_addToHexagon fire area cells m j :
  foldl (λ m h3Index, addToHexagon fire area h3Index m) m cells !! j
  = creditedTimes fire area (listings j cells) <$> m !! j.
Proof.
  revert m. induction cells as [|cell cells IH]; intros m.
  - simpl. destruct (m !! j) as [hexagonData|]; simpl; [|done].
    by rewrite creditedTimes_0.
  - cbn [foldl]. rewrite IH, lookup_addToHexagon. unfold listings.
    rewrite filter_cons. case_decide as Hcell.
    + destruct (m !! j) as [hexagonData|]; simpl; [|done].
      by rewrite creditedTimes_S.
    + by destruct (m !! j).
Qed.

Lemma onGrid_addToHexagon fire area k m cells :
  onGrid (addToHexagon fire area k m) cells = onGrid m cells.
Proof.
  unfold onGrid. apply list_filter_iff. intros cell. apply addToHexagon_is_Some.
Qed.

Lemma sum_foldl_addToHexagon fire area cells m :
  sumQcOver Agg.totalArea (foldl (λ m h3Index, addToHexagon fire area h3Index m) m cells)
  = sumQcOver Agg.totalArea m + Js.ofNat (length (onGrid m cells)) * area.
Proof.
  revert m. induction cells as [|cell cells IH]; intros m.
  - simpl. rewrite ofNat_0. ring.
  - cbn [foldl]. rewrite IH, sum_addToHexagon, onGrid_addToHexagon.
    unfold onGrid at 2. rewrite filter_cons. fold (onGrid m cells).
    case_decide.
    + rewrite length_cons, ofNat_S. ring.
    + ring.
Qed.

End GridBinning.

Section PolygonCall.
Context `{Lib}.
Import UseFireData.

Lemma binFire_polygon resolution fire polygons cells m :
  shape fire = Some polygons → polygons ≠ [] →
  polygonToCells (MultiPolygon (swapRings polygons)) resolution = Some cells →
  binFire resolution fire m
  = Ok (foldl (λ m h3Index,
                 addToHexagon fire (area_ha fire / Js.ofNat (length cells)) h3Index m)
              m cells).
Proof.
  intros Hshape Hne Hcells. unfold binFire. rewrite Hshape.
  destruct polygons as [|polygon polygons]; [done|]. cbv zeta. by rewrite Hcells.
Qed.


End PolygonCall.


(** ** Polygon binning and centroid binning *)

Section PolygonOrCentroid.
Context `{Lib}.

Lemma addByCentroid_lookup fire resolution (m : gmap string UseFireData.Agg.t) h3Index :
  latLngToCell (centroid fire).2 (centroid fire).1 resolution = Some h3Index →
  ∃ m',
    UseFireData.addByCentroid fire resolution m = Ok m'
    ∧ ∀ j, m' !! j
           = (if decide (h3Index = j) then creditedTimes fire (area_ha fire) 1
              else λ hexagonData, hexagonData) <$> m !! j.
Proof.
  unfold UseFireData.addByCentroid. destruct (centroid fire) as [lng lat]. simpl.
  intros ->. eexists. split; [done|]. intros j. apply lookup_addToHexagon.
Qed.

Lemma addFireToHexagonByCentroid_eraseShape fire resolution m :
  CumulatedFireService.addFireToHexagonByCentroid (eraseShape fire) resolution m
  = CumulatedFireService.addFireToHexagonByCentroid fire resolution m.
Proof. reflexivity. Qed.

Lemma forEach_processFire_eraseShape resolution fires acc :
  forEach (CumulatedFireService.processFire resolution) (eraseShape <$> fires) acc
  = forEach (CumulatedFireService.processFire resolution) fires acc.
Proof.
  revert acc. induction fires as [|fire fires IH]; intros acc; [done|].
  rewrite fmap_cons. cbn [forEach].
  assert (CumulatedFireService.processFire resolution (eraseShape fire) acc
          = CumulatedFireService.processFire resolution fire acc) as -> by done.
  destruct (CumulatedFireService.processFire resolution fire acc); simpl; [apply IH | done].
Qed.

(** C4, as the code has it. On the browser side a record with polygon
    geometry is binned through the cells its polygon intersects at the
    resolution of the current zoom: a cell that the grid holds gets
    [area_ha / |cells|] and one more fire per listing, a cell that the grid
    does not hold is skipped; the centroid is used when the record has no
    polygon or the polygon-to-cell computation throws. The cumulated
    aggregation bins by the centroid only: it gives the same result on the
    records without their polygons. *)
Theorem binning_by_polygon_or_centroid :
  (∀ resolution fire polygons cells (m : gmap string UseFireData.Agg.t),
     shape fire = Some polygons → polygons ≠ [] →
     polygonToCells (MultiPolygon (UseFireData.swapRings polygons)) resolution
     = Some cells →
     ∃ m',
       UseFireData.binFire resolution fire m = Ok m'
       ∧ ∀ h3Index,
           m' !! h3Index
           = creditedTimes fire (area_ha fire / Js.ofNat (length cells))
               (listings h3Index cells) <$> m !! h3Index)
  ∧ (∀ resolution fire (m : gmap string UseFireData.Agg.t),
       shape fire = None ∨ shape fire = Some []
       ∨ (∃ polygons,
            shape fire = Some polygons
            ∧ polygonToCells (MultiPolygon (UseFireData.swapRings polygons)) resolution
              = None) →
       UseFireData.binFire resolution fire m
       = UseFireData.addByCentroid fire resolution m)
  ∧ (∀ resolution fire (m : gmap string UseFireData.Agg.t) h3Index,
       latLngToCell (centroid fire).2 (centroid fire).1 resolution = Some h3Index →
       ∃ m',
         UseFireData.addByCentroid fire resolution m = Ok m'
         ∧ ∀ j, m' !! j
                = (if decide (h3Index = j) then creditedTimes fire (area_ha fire) 1
                   else λ hexagonData, hexagonData) <$> m !! j)
  ∧ (∀ fires startDate endDate resolution,
       CumulatedFireService.aggregate (eraseShape <$> fires)
         startDate endDate resolution
       = CumulatedFireService.aggregate fires startDate endDate resolution)
  ∧ (∀ fire resolution m m',
       CumulatedFireService.addFireToHexagonByCentroid fire resolution m = Ok m' →
       ∃ h3Index,
         latLngToCell (centroid fire).2 (centroid fire).1 resolution = Some h3Index
         ∧ m' = <[h3Index := credited fire (default emptyHexagon (m !! h3Index))]> m).
Proof.
  split; [|split; [|split; [|split]]].
  - intros resolution fire polygons cells m Hshape Hne Hcells.
    eexists. split; [by apply (binFire_polygon _ _ polygons)|].
    intros h3Index. apply lookup_foldl_addToHexagon.
  - intros resolution fire m [Hnone | [Hempty | (polygons & Hshape & Hthrow)]];
      unfold UseFireData.binFire.
    + by rewrite Hnone.
    + by rewrite Hempty.
    + rewrite Hshape. destruct polygons; [done|]. cbv zeta. by rewrite Hthrow.
  - intros resolution fire m h3Index. apply addByCentroid_lookup.
  - intros fires startDate endDate resolution. unfold CumulatedFireService.aggregate.
    by rewrite forEach_processFire_eraseShape.
  - apply addFireToHexagonByCentroid_inv.
Qed.

End PolygonOrCentroid.

(** C4 as stated fails on the cumulated aggregation: the polygon of fire B
    intersects three cells, and its 150 ha and its count go to the cell of
    its centroid alone; the two other cells are not in the result. *)
Lemma cumulated_bins_polygon_by_centroid :
  polygonToCells (Lib := Lattice.lib) (firstPolygon Sample.fireB) 6
  = Some ["41:-7"; "41:-6"; "41:-5"]
  ∧ shape Sample.fireB
    = Some (Sample.box (Js.decimal (-68) 10) (Js.decimal 412 10)
                       (Js.decimal (-42) 10) (Js.decimal 418 10))
  ∧ match Sample.cumulated.1 with
    | Ok r =>
        CumulatedFireService.hexagonData r !! "41:-7" = None
        ∧ CumulatedFireService.hexagonData r !! "41:-5" = None
        ∧ (λ hexagon, (this (CumulatedFireService.Hex.totalArea hexagon),
                       CumulatedFireService.Hex.fireCount hexagon,
                       CumulatedFireService.Hex.fires hexagon))
            <$> CumulatedFireService.hexagonData r !! "41:-6"
          = Some (150%Q, 1%nat, ["2"])
    | Throw _ => False
    end.
Proof. vm_compute. done. Qed.

(** ** The hexagon grid service *)

Section GridService.
Context `{Lib}.
Import HexagonGridService.

Lemma generateGrid_covering resolution polygon viewport spainBounds st cells :
  polygonToCells polygon resolution = Some cells →
  ∃ grid st',
    generateGrid resolution polygon viewport spainBounds st = (Ok grid, st')
    ∧ index <$> hexagons grid = cells
    ∧ HexagonGridService.resolution grid = resolution
    ∧ totalHexagons (metadata grid) = length cells
    ∧ files st' = files st.
Proof.
  intros Hcells. unfold generateGrid. rewrite Hcells.
  eexists _, _. split; [reflexivity|]. simpl. unfold toHexagons.
  rewrite length_fmap. split; [|done].
  clear. induction cells as [|cell cells IH]; [done|].
  rewrite !fmap_cons, IH. done.
Qed.

Lemma generateGrid_throws resolution polygon viewport spainBounds st e st' :
  generateGrid resolution polygon viewport spainBounds st = (Throw e, st') → e = H3Error.
Proof.
  unfold generateGrid. destruct (polygonToCells polygon resolution); [done|].
  by intros [= <- _].
Qed.

(** C6, as the code has it. The grid of a viewport holds the cells that the
    covering procedure yields for the rectangle of the viewport, wherever
    that rectangle lies: generation succeeds when the covering does, and the
    grid is empty exactly when the covering is. *)
Theorem viewport_grid_is_its_covering resolution viewport st cells :
  polygonToCells (boundsPolygon viewport) resolution = Some cells →
  ∃ grid st',
    generateHexagonGridForViewport resolution viewport st = (Ok grid, st')
    ∧ index <$> hexagons grid = cells
    ∧ (hexagons grid = [] ↔ cells = [])
    ∧ totalHexagons (metadata grid) = length cells.
Proof.
  intros Hcells. unfold generateHexagonGridForViewport.
  destruct (generateGrid_covering resolution (boundsPolygon viewport)
              (Some viewport) None st cells Hcells)
    as (grid & st' & Hgen & Hindex & _ & Htotal & _).
  exists grid, st'. split; [done|]. split; [done|]. split; [|done].
  rewrite <- Hindex. split; [by intros -> | apply fmap_nil_inv].
Qed.

(** C7. A resolution outside 0..15 makes [getHexagonGridForSpain] throw and
    the cumulated-fires route answer 400, both leaving the state of the
    service as it was: nothing is covered, binned, read or cached. A
    resolution within 0..15 raises neither. *)
Theorem resolution_validated_first :
  (∀ resolution st,
     (resolution < 0 ∨ 15 < resolution)%Z →
     getHexagonGridForSpain resolution st = (Throw (InvalidResolution resolution), st))
  ∧ (∀ resolution st rejected,
       (0 ≤ resolution ≤ 15)%Z →
       (getHexagonGridForSpain resolution st).1 ≠ Throw (InvalidResolution rejected))
  ∧ (∀ query st,
       match Js.parseInt (default "" (CumulatedFireRoutes.resolution query)) with
       | Some resolutionNum => (resolutionNum < 0 ∨ 15 < resolutionNum)%Z
       | None => True
       end →
       ∃ error,
         CumulatedFireRoutes.getCumulatedFires query st
         = (CumulatedFireRoutes.Status400 error, st))
  ∧ (∀ query st startDate endDate resolution resolutionNum error,
       CumulatedFireRoutes.startDate query = Some startDate →
       CumulatedFireRoutes.endDate query = Some endDate →
       CumulatedFireRoutes.resolution query = Some resolution →
       Js.dateRegexTest startDate = true → Js.dateRegexTest endDate = true →
       Js.parseInt resolution = Some resolutionNum →
       (0 ≤ resolutionNum ≤ 15)%Z →
       (CumulatedFireRoutes.getCumulatedFires query st).1
       ≠ CumulatedFireRoutes.Status400 error).
Proof.
  split; [|split; [|split]].
  - intros resolution st Hout. unfold getHexagonGridForSpain.
    assert ((resolution <? 0)%Z || (resolution >? 15)%Z = true) as ->; [|done].
    destruct Hout; [rewrite (proj2 (Z.ltb_lt _ _)) by lia; done|].
    rewrite orb_true_iff. right. rewrite Z.gtb_ltb. apply Z.ltb_lt. lia.
  - intros resolution st rejected Hin. unfold getHexagonGridForSpain.
    assert ((resolution <? 0)%Z || (resolution >? 15)%Z = false) as ->.
    { rewrite orb_false_iff, Z.gtb_ltb, !Z.ltb_ge. lia. }
    unfold loadOrGenerate. destruct (files st !! _); [done|].
    unfold generateHexagonGridForSpain.
    destruct (generateGrid _ _ _ _ st) as [[grid|e] st'] eqn:Hgen; [done|].
    apply generateGrid_throws in Hgen as ->. done.
  - intros query st Hbad. unfold CumulatedFireRoutes.getCumulatedFires.
    destruct (_ || _ || _); [eauto|].
    destruct (_ || _); [eauto|].
    destruct (Js.parseInt _) as [resolutionNum|]; [|eauto].
    assert ((resolutionNum <? 0)%Z || (resolutionNum >? 15)%Z = true) as ->; [|eauto].
    rewrite orb_true_iff, Z.gtb_ltb, !Z.ltb_lt. lia.
  - intros query st startDate endDate resolution resolutionNum error
      Hstart Hend Hres Hd1 Hd2 Hparse Hin.
    unfold CumulatedFireRoutes.getCumulatedFires. rewrite Hstart, Hend, Hres. simpl.
    destruct startDate as [|c1 startDate]; [done|].
    destruct endDate as [|c2 endDate]; [done|].
    destruct resolution as [|c3 resolution]; [done|].
    simpl. rewrite Hd1, Hd2, Hparse. simpl.
    assert ((resolutionNum <? 0)%Z || (resolutionNum >? 15)%Z = false) as ->.
    { rewrite orb_false_iff, Z.gtb_ltb, !Z.ltb_ge. lia. }
    by destruct (CumulatedFireService.calculateCumulatedFireData _ _ _ st) as [[?|?] ?].
Qed.

Lemma loadOrGenerate_cached cacheFilePath generate st grid :
  files st !! cacheFilePath = Some grid →
  loadOrGenerate cacheFilePath generate st = (Ok grid, st).
Proof. intros Hhit. unfold loadOrGenerate. by rewrite Hhit. Qed.

(** On a writable cache directory the grid that a getter returns is the
    content of its cache file afterwards. *)
Lemma loadOrGenerate_persists cacheFilePath resolution polygon viewport spainBounds
    st grid st' :
  writable st = true →
  loadOrGenerate cacheFilePath (generateGrid resolution polygon viewport spainBounds) st
  = (Ok grid, st') →
  files st' !! cacheFilePath = Some grid.
Proof.
  intros Hw. unfold loadOrGenerate.
  destruct (files st !! cacheFilePath) as [cached|] eqn:Hhit.
  { by intros [= <- <-]. }
  unfold generateGrid. destruct (polygonToCells polygon resolution); [|done].
  intros [= <- <-]. unfold writeCache. simpl. rewrite Hw. simpl.
  apply lookup_insert_eq.
Qed.

(** C8. Once the grid of a first call is in the cache file of its
    (resolution, region), a second call with the same arguments returns that
    very grid, hence the same cell ids, and leaves the cache as it is: for
    the Spain getter and for the viewport getter. *)
Theorem second_call_returns_cached_grid :
  (∀ resolution st grid st1,
     getHexagonGridForSpain resolution st = (Ok grid, st1) →
     files st1 !! getCacheFilePath resolution None = Some grid →
     getHexagonGridForSpain resolution st1 = (Ok grid, st1)
     ∧ ∀ grid2 st2,
         getHexagonGridForSpain resolution st1 = (Ok grid2, st2) →
         index <$> hexagons grid2 = index <$> hexagons grid)
  ∧ (∀ zoom viewport st grid st1,
       getHexagonGridForViewport zoom viewport st = (Ok grid, st1) →
       files st1 !! getCacheFilePath (getResolutionForZoom zoom) (Some viewport)
       = Some grid →
       getHexagonGridForViewport zoom viewport st1 = (Ok grid, st1)
       ∧ ∀ grid2 st2,
           getHexagonGridForViewport zoom viewport st1 = (Ok grid2, st2) →
           index <$> hexagons grid2 = index <$> hexagons grid).
Proof.
  split.
  - intros resolution st grid st1 Hfirst Hfile.
    assert (Hsecond : getHexagonGridForSpain resolution st1 = (Ok grid, st1)).
    { revert Hfirst. unfold getHexagonGridForSpain.
      destruct (_ || _); [done|]. intros _. by apply loadOrGenerate_cached. }
    split; [done|]. intros grid2 st2. rewrite Hsecond. by intros [= <- _].
  - intros zoom viewport st grid st1 _ Hfile.
    assert (Hsecond : getHexagonGridForViewport zoom viewport st1 = (Ok grid, st1)).
    { unfold getHexagonGridForViewport. by apply loadOrGenerate_cached. }
    split; [done|]. intros grid2 st2. rewrite Hsecond. by intros [= <- _].
Qed.

End GridService.

Lemma viewport_grid_is_its_covering_witness :
  ∃ grid st',
    HexagonGridService.generateHexagonGridForViewport (H := Lattice.lib) 6
      Sample.paris Sample.emptyDisk = (Ok grid, st')
    ∧ HexagonGridService.index <$> HexagonGridService.hexagons grid = ["48:2"; "48:3"]
    ∧ (HexagonGridService.hexagons grid = [] ↔ ["48:2"; "48:3"] = [])
    ∧ HexagonGridService.totalHexagons (HexagonGridService.metadata grid)
      = length ["48:2"; "48:3"].
Proof.
  apply (viewport_grid_is_its_covering (H := Lattice.lib) 6 Sample.paris Sample.emptyDisk).
  vm_compute. reflexivity.
Defined.

(** C6 as stated fails on a viewport around Paris: it lies wholly north of
    [SPAIN_BOUNDS], and its grid holds the two cells that cover it. *)
Lemma viewport_outside_spain_has_cells :
  HexagonGridService.north HexagonGridService.SPAIN_BOUNDS
  < HexagonGridService.south Sample.paris
  ∧ match (HexagonGridService.generateHexagonGridForViewport (H := Lattice.lib) 6
             Sample.paris Sample.emptyDisk).1 with
    | Ok grid =>
        HexagonGridService.index <$> HexagonGridService.hexagons grid = ["48:2"; "48:3"]
        ∧ HexagonGridService.hexagons grid ≠ []
    | Throw _ => False
    end.
Proof. split; [by apply int_lt | by vm_compute]. Qed.

Lemma second_call_returns_cached_grid_witness :
  ∃ grid st1,
    HexagonGridService.getHexagonGridForSpain (H := Lattice.lib) 6 Sample.emptyDisk
    = (Ok grid, st1)
    ∧ HexagonGridService.getHexagonGridForSpain (H := Lattice.lib) 6 st1 = (Ok grid, st1)
    ∧ length (HexagonGridService.hexagons grid) = 112%nat.
Proof.
  eexists _, _. split; [vm_compute; reflexivity|]. split; [|vm_compute; reflexivity].
  apply (proj1 (second_call_returns_cached_grid (H := Lattice.lib)) 6%Z Sample.emptyDisk).
  - vm_compute. reflexivity.
  - vm_compute. reflexivity.
Defined.

(** The validation on the sample data: resolution 16 is refused by the
    getter and by the route with nothing done, resolution 6 is served. *)
Example resolution_validation_sample :
  HexagonGridService.getHexagonGridForSpain (H := Lattice.lib) 16 Sample.emptyDisk
  = (Throw (InvalidResolution 16), Sample.emptyDisk)
  ∧ CumulatedFireRoutes.getCumulatedFires (H := Lattice.lib)
      {| CumulatedFireRoutes.startDate := Some "2025-08-01";
         CumulatedFireRoutes.endDate := Some "2025-08-03";
         CumulatedFireRoutes.resolution := Some "16" |} Sample.service
    = (CumulatedFireRoutes.Status400 CumulatedFireRoutes.invalidResolution, Sample.service)
  ∧ (CumulatedFireRoutes.getCumulatedFires (H := Lattice.lib)
       {| CumulatedFireRoutes.startDate := Some "2025-08-01";
          CumulatedFireRoutes.endDate := Some "2025-08-03";
          CumulatedFireRoutes.resolution := Some "6" |} Sample.service).1
    = match Sample.cumulated.1 with
      | Ok r => CumulatedFireRoutes.Status200 r
      | Throw e => CumulatedFireRoutes.Status500 e
      end.
Proof. vm_compute. done. Qed.

(** ** The GeoJSON view of a grid *)

Section GeoJSON.
Context `{Lib}.
Import HexagonGridService.

(** On a cache miss the ring of every feature lists the vertices of its
    cell as [(lng, lat)] pairs, in the order of the library and without
    repeating the first one. *)
Lemma getHexagonGridAsGeoJSON_rings zoom viewport st cells :
  files st !! getCacheFilePath (getResolutionForZoom zoom) (Some viewport) = None →
  polygonToCells (boundsPolygon viewport) (getResolutionForZoom zoom) = Some cells →
  ∃ collection st',
    getHexagonGridAsGeoJSON zoom (Some viewport) st = (Ok collection, st')
    ∧ (λ feature, (h3Index feature, coordinates feature)) <$> features collection
      = (λ cell, (cell, [ (λ vertex, (lng vertex, lat vertex)) <$> cellVertices cell ]))
          <$> cells.
Proof.
  intros Hmiss Hcells.
  unfold getHexagonGridAsGeoJSON, getHexagonGridForViewport, loadOrGenerate.
  rewrite Hmiss. unfold generateHexagonGridForViewport, generateGrid. rewrite Hcells.
  eexists _, _. split; [reflexivity|]. simpl. unfold toHexagons.
  rewrite <- !list_fmap_compose. apply list_fmap_ext. intros _ cell _.
  unfold compose, toFeature, cellToBoundary. simpl. do 2 f_equal.
  rewrite <- list_fmap_compose. by apply list_fmap_ext.
Qed.

End GeoJSON.

(** C5 fails on the code. For the viewport around Paris and an empty cache,
    [getHexagonGridAsGeoJSON] emits for the cell 48:2 the ring
    (2,48) (3,48) (3,49) (2,49): longitude first, but the first vertex is
    not repeated at the end. *)
Theorem geojson_ring_is_left_open :
  match (HexagonGridService.getHexagonGridAsGeoJSON (H := Lattice.lib) (Js.int 6)
           (Some Sample.paris) Sample.emptyDisk).1 with
  | Ok collection =>
      match HexagonGridService.features collection with
      | feature :: _ =>
          HexagonGridService.h3Index feature = "48:2"
          ∧ HexagonGridService.coordinates feature
            = [[ (Js.int 2, Js.int 48); (Js.int 3, Js.int 48);
                 (Js.int 3, Js.int 49); (Js.int 2, Js.int 49) ]]
          ∧ ∀ ring, ring ∈ HexagonGridService.coordinates feature → head ring ≠ last ring
      | [] => False
      end
  | Throw _ => False
  end.
Proof.
  vm_compute. split; [done|]. split; [done|].
  intros ring Hring. apply list_elem_of_singleton in Hring as ->. discriminate.
Qed.

(** With [formatAsGeoJson] the library itself hands out a GeoJSON ring, as
    the client-side grid of useHexagonGrid.ts relies on: the pairs are
    [(lng, lat)] and the first vertex closes the ring. *)
Lemma cellToBoundary_geojson_closed `{Lib} index :
  cellVertices index ≠ [] →
  head (cellToBoundary index true) = last (cellToBoundary index true)
  ∧ take (length (cellVertices index)) (cellToBoundary index true)
    = (λ vertex, (lng vertex, lat vertex)) <$> cellVertices index.
Proof.
  unfold cellToBoundary. destruct (cellVertices index) as [|vertex vertices]; [done|].
  intros _. split.
  - rewrite fmap_cons. cbn [take head app]. rewrite take_0.
    change (?p :: ?l ++ [?q]) with ((p :: l) ++ [q]). by rewrite last_snoc.
  - rewrite <- (length_fmap (λ vertex, (lng vertex, lat vertex))). by rewrite take_app_length.
Qed.

(** ** The scenario of section 8 on the browser side *)

(** Each fire goes whole to the cell of its centroid, the library refusing
    the polygons of fires A and B as h3-js does: fire A credits its cell
    with 5 ha (Small), fire B with 150 ha (Large), fire C with 20 ha
    (Medium); the other 109 cells of the grid stay without fire data. *)
Example sample_aggregateOnGrid :
  (λ out,
     (length out,
      (λ hexagon, (UseFireData.h3Index hexagon,
                   this (UseFireData.totalArea (UseFireData.properties hexagon)),
                   UseFireData.fireCount (UseFireData.properties hexagon),
                   UseFireData.size (UseFireData.properties hexagon)))
        <$> filter (λ hexagon, UseFireData.hasFireData (UseFireData.properties hexagon) = true)
                   out))
    <$> (match UseFireData.aggregateOnGrid (H := Lattice.lib) (Js.int 6)
                 Sample.spainGrid Sample.fires with
         | Ok out => Some out
         | Throw _ => None
         end)
  = Some (112%nat,
          [ ("38:-2", 20%Q, 1%nat, medium);
            ("40:-4", 5%Q, 1%nat, small);
            ("41:-6", 150%Q, 1%nat, large) ]).
Proof. vm_compute. reflexivity. Qed.

(** ** Further properties of the grid service *)

(** On a writable cache directory, the grid that [getHexagonGridForSpain]
    returns is the content of its cache file afterwards: a miss persists
    what it generated. *)
Theorem getHexagonGridForSpain_persists `{Lib} resolution st grid st' :
  HexagonGridService.writable st = true →
  HexagonGridService.getHexagonGridForSpain resolution st = (Ok grid, st') →
  HexagonGridService.files st' !! HexagonGridService.getCacheFilePath resolution None
  = Some grid.
Proof.
  intros Hw. unfold HexagonGridService.getHexagonGridForSpain.
  destruct (_ || _); [done|].
  by apply loadOrGenerate_persists.
Qed.

Lemma getHexagonGridForSpain_persists_witness :
  ∃ grid st',
    HexagonGridService.getHexagonGridForSpain (H := Lattice.lib) 6 Sample.emptyDisk
    = (Ok grid, st')
    ∧ HexagonGridService.files st' !! "data/hexagon-grids/spain-grid-res-6.json"
      = Some grid.
Proof.
  eexists _, _. split; [vm_compute; reflexivity|].
  apply (getHexagonGridForSpain_persists (H := Lattice.lib) 6%Z Sample.emptyDisk).
  - reflexivity.
  - vm_compute. reflexivity.
Defined.

Lemma getHexagonGridAsGeoJSON_rings_witness :
  ∃ collection st',
    HexagonGridService.getHexagonGridAsGeoJSON (H := Lattice.lib) (Js.int 6)
      (Some Sample.paris) Sample.emptyDisk = (Ok collection, st')
    ∧ (λ feature, (HexagonGridService.h3Index feature,
                   HexagonGridService.coordinates feature))
        <$> HexagonGridService.features collection
      = (λ cell, (cell, [ (λ vertex, (lng vertex, lat vertex))
                            <$> cellVertices (Lib := Lattice.lib) cell ]))
          <$> ["48:2"; "48:3"].
Proof.
  apply (getHexagonGridAsGeoJSON_rings (H := Lattice.lib) (Js.int 6) Sample.paris
           Sample.emptyDisk).
  - reflexivity.
  - vm_compute. reflexivity.
Defined.

(** ** The built-ins and the sample library on examples *)

Example toFixed2_examples :
  Js.toFixed2 (Js.decimal (-95) 10) = "-9.50"
  ∧ Js.toFixed2 (Js.decimal 35805 1000) = "35.81"
  ∧ Js.toFixed2 (Js.decimal (-1) 1000) = "-0.00"
  ∧ Js.toFixed2 (Js.int 44) = "44.00"
  ∧ HexagonGridService.getCacheFilePath 6 (Some Sample.paris)
    = "data/hexagon-grids/viewport-res-6-2.00_48.00_4.00_49.00.json".
Proof. vm_compute. done. Qed.

Example parseInt_examples :
  Js.parseInt "7" = Some 7%Z ∧ Js.parseInt "16" = Some 16%Z
  ∧ Js.parseInt "-1" = Some (-1)%Z ∧ Js.parseInt "abc" = None
  ∧ Js.parseInt " 12px" = Some 12%Z ∧ Js.parseInt "0x1f" = Some 31%Z
  ∧ Js.parseInt "" = None
  ∧ Js.dateRegexTest "2025-01-31" = true ∧ Js.dateRegexTest "2025-1-31" = false.
Proof. vm_compute. done. Qed.

Example lattice_examples :
  Lattice.cover (HexagonGridService.boundsPolygon Sample.paris) 6 = Some ["48:2"; "48:3"]
  ∧ Lattice.cover (HexagonGridService.boundsPolygon Sample.paris) 16 = None
  ∧ Lattice.locate (Js.decimal 485 10) (Js.decimal (-35) 10) 6 = Some "48:-4"
  ∧ Lattice.locate (Js.decimal 485 10) (Js.decimal (-35) 10) 16 = None
  ∧ (λ vertex, (this (lat vertex), this (lng vertex))) <$> Lattice.corners "48:-4"
    = [(48%Q, (-4)%Q); (48%Q, (-3)%Q); (49%Q, (-3)%Q); (49%Q, (-4)%Q)].
Proof. vm_compute. done. Qed.

(** ** The cells of the cumulated aggregation *)

Section CumulatedCells.
Context `{Lib}.
Import CumulatedFireService.
Implicit Types (m : gmap string Hex.t) (fire : FireData) (fires : list FireData).

Lemma foldl_credited fires hexagon :
  foldl (λ hexagon fire, credited fire hexagon) hexagon fires
  = {| Hex.totalArea := Hex.totalArea hexagon + sumList (area_ha <$> fires);
       Hex.fireCount := Hex.fireCount hexagon + length fires;
       Hex.fires := Hex.fires hexagon ++ ((λ fire, pretty (id fire)) <$> fires);
       Hex.size := Hex.size hexagon |}.
Proof.
  revert hexagon. induction fires as [|fire fires IH]; intros hexagon.
  - destruct hexagon. cbn [foldl fmap list_fmap sumList foldr length Hex.totalArea
                           Hex.fireCount Hex.fires Hex.size].
    f_equal; [ring | lia | by rewrite app_nil_r].
  - cbn [foldl]. rewrite IH. unfold credited.
    cbn [Hex.totalArea Hex.fireCount Hex.fires Hex.size].
    rewrite !fmap_cons, sumList_cons, length_cons. f_equal.
    + ring.
    + lia.
    + by rewrite <- app_assoc.
Qed.

Lemma binnedTo_cons resolution h3Index fire fires :
  binnedTo resolution h3Index (fire :: fires)
  = if decide (latLngToCell (centroid fire).2 (centroid fire).1 resolution = Some h3Index)
    then fire :: binnedTo resolution h3Index fires
    else binnedTo resolution h3Index fires.
Proof. unfold binnedTo. by rewrite filter_cons. Qed.

Lemma forEach_processFire_lookup resolution fires m totalFires totalArea acc h3Index :
  forEach (processFire resolution) fires (m, totalFires, totalArea) = Ok acc →
  acc.1.1 !! h3Index
  = if decide (binnedTo resolution h3Index fires = []) then m !! h3Index
    else Some (foldl (λ hexagon fire, credited fire hexagon)
                     (default emptyHexagon (m !! h3Index))
                     (binnedTo resolution h3Index fires)).
Proof.
  revert m totalFires totalArea.
  induction fires as [|fire fires IH]; intros m totalFires totalArea Hloop;
    simpl in Hloop.
  - injection Hloop as <-. by rewrite decide_True.
  - destruct (addFireToHexagonByCentroid fire resolution m) as [m1|] eqn:Hadd;
      simpl in Hloop; [|done].
    apply addFireToHexagonByCentroid_inv in Hadd as (k & Hk & ->).
    apply IH in Hloop as ->. rewrite binnedTo_cons.
    destruct (decide (k = h3Index)) as [->|Hne].
    + rewrite (decide_True (P := latLngToCell _ _ _ = Some _)) by done.
      rewrite (decide_False (P := _ :: _ = [])) by done.
      rewrite lookup_insert_eq. cbn [foldl default]. by case_decide as Hrest; [rewrite Hrest|].
    + rewrite (decide_False (P := latLngToCell _ _ _ = Some _)) by congruence.
      by rewrite lookup_insert_ne.
Qed.

(** The cumulated aggregation, cell by cell: a cell is in [hexagonData]
    exactly when the centroid of some record resolves to it, and then it
    holds the summed area, the number and the ids, in input order, of the
    records that do, with the size class of that area. *)
Theorem aggregate_cells fires startDate endDate resolution r :
  aggregate fires startDate endDate resolution = Ok r →
  ∀ h3Index,
    hexagonData r !! h3Index
    = if decide (binnedTo resolution h3Index fires = []) then None
      else Some {| Hex.totalArea := sumList (area_ha <$> binnedTo resolution h3Index fires);
                   Hex.fireCount := length (binnedTo resolution h3Index fires);
                   Hex.fires := (λ fire, pretty (id fire))
                                  <$> binnedTo resolution h3Index fires;
                   Hex.size := getFireSize
                                 (sumList (area_ha <$> binnedTo resolution h3Index fires)) |}.
Proof.
  unfold aggregate.
  destruct (forEach _ fires _) as [[[m n] a]|] eqn:Hloop; simpl; [|done].
  intros [= <-] h3Index. simpl. rewrite lookup_fmap.
  pose proof (forEach_processFire_lookup _ _ _ _ _ _ h3Index Hloop) as Hcell.
  cbn [fst snd] in Hcell. rewrite Hcell, lookup_empty.
  case_decide; [done|].
  cbn [default fmap option_fmap option_map]. rewrite foldl_credited. unfold setSize.
  cbn [emptyHexagon Hex.totalArea Hex.fireCount Hex.fires Hex.size app].
  by rewrite Qcplus_0_l.
Qed.

End CumulatedCells.

Lemma aggregate_cells_witness :
  ∃ r,
    CumulatedFireService.aggregate (H := Lattice.lib) Sample.fires
      "2025-08-01" "2025-08-03" 6 = Ok r
    ∧ ∀ h3Index,
        CumulatedFireService.hexagonData r !! h3Index
        = if decide (binnedTo (H := Lattice.lib) 6 h3Index Sample.fires = []) then None
          else Some {| CumulatedFireService.Hex.totalArea :=
                         sumList (area_ha <$> binnedTo (H := Lattice.lib) 6 h3Index
                                                Sample.fires);
                       CumulatedFireService.Hex.fireCount :=
                         length (binnedTo (H := Lattice.lib) 6 h3Index Sample.fires);
                       CumulatedFireService.Hex.fires :=
                         (λ fire, pretty (id fire))
                           <$> binnedTo (H := Lattice.lib) 6 h3Index Sample.fires;
                       CumulatedFireService.Hex.size :=
                         CumulatedFireService.getFireSize
                           (sumList (area_ha <$> binnedTo (H := Lattice.lib) 6 h3Index
                                                   Sample.fires)) |}.
Proof.
  eexists. split; [vm_compute; reflexivity|].
  apply (aggregate_cells (H := Lattice.lib) Sample.fires "2025-08-01" "2025-08-03" 6%Z).
  vm_compute. reflexivity.
Defined.

(** ** The cache of the cumulated fire service *)

Lemma string_app_inj_length (s1 s2 t1 t2 : string) :
  String.length s1 = String.length s2 →
  s1 +:+ t1 = s2 +:+ t2 → s1 = s2 ∧ t1 = t2.
Proof.
  revert s2. induction s1 as [|c1 s1 IH]; intros [|c2 s2]; simpl; try done.
  intros [= Hlen] [= -> Happ]. by destruct (IH s2 Hlen Happ) as [-> ->].
Qed.

Lemma dateRegexTest_length s : Js.dateRegexTest s = true → String.length s = 10%nat.
Proof.
  unfold Js.dateRegexTest.
  assert (Hlen : String.length s = length (list_ascii_of_string s)).
  { induction s as [|c s IH]; simpl; [done | by rewrite IH]. }
  rewrite Hlen. destruct (list_ascii_of_string s) as [|? l]; [done|].
  do 9 (destruct l as [|? l]; [done|]). by destruct l.
Qed.

Section CumulatedCache.
Context `{Lib}.
Import CumulatedFireService.

(** Two requests that pass the date check of the route share a cache entry
    only when they ask for the same dates and the same resolution. *)
Theorem cacheKey_of_validated_dates startDate endDate resolution
    startDate' endDate' resolution' :
  Js.dateRegexTest startDate = true → Js.dateRegexTest endDate = true →
  Js.dateRegexTest startDate' = true → Js.dateRegexTest endDate' = true →
  cacheKey startDate endDate resolution = cacheKey startDate' endDate' resolution' →
  startDate = startDate' ∧ endDate = endDate' ∧ resolution = resolution'.
Proof.
  intros Hs He Hs' He' Hkey. unfold cacheKey in Hkey.
  apply dateRegexTest_length in Hs, He, Hs', He'.
  destruct (string_app_inj_length _ _ _ _ (eq_trans Hs (eq_sym Hs')) Hkey) as [-> Hrest].
  injection Hrest as Hrest.
  destruct (string_app_inj_length _ _ _ _ (eq_trans He (eq_sym He')) Hrest) as [-> Hres].
  injection Hres as Hres. by rewrite (pretty_Z_inj _ _ Hres).
Qed.

Lemma calculateCumulatedFireData_cached startDate endDate resolution st r st' :
  calculateCumulatedFireData startDate endDate resolution st = (Ok r, st') →
  cache st' !! cacheKey startDate endDate resolution = Some r.
Proof.
  unfold calculateCumulatedFireData.
  destruct (cache st !! _) as [cached|] eqn:Hhit; [by intros [= <- <-]|].
  destruct (getFiresInDateRange st startDate endDate) as [fires|]; [|done].
  destruct (aggregate fires startDate endDate resolution) as [r0|]; [|done].
  intros [= <- <-]. simpl. apply lookup_insert_eq.
Qed.

(** Once a request has been answered, the same request gets the same
    answer, with no further binning, whatever the record store has become in
    between; only after [clearCache] is it answered from the record store as
    it is then, by a new aggregation of the fires the store returns. *)
Theorem answer_is_kept_until_clearCache startDate endDate resolution st r st' :
  calculateCumulatedFireData startDate endDate resolution st = (Ok r, st') →
  (∀ store,
     calculateCumulatedFireData startDate endDate resolution (withStore store st')
     = (Ok r, withStore store st'))
  ∧ (∀ store fires,
       store startDate endDate = Ok fires →
       (calculateCumulatedFireData startDate endDate resolution
          (clearCache (withStore store st'))).1
       = aggregate fires startDate endDate resolution
       ∧ binnings (calculateCumulatedFireData startDate endDate resolution
                     (clearCache (withStore store st'))).2
         = S (binnings st')).
Proof.
  intros Hcall. apply calculateCumulatedFireData_cached in Hcall. split.
  - intros store. unfold calculateCumulatedFireData. simpl. by rewrite Hcall.
  - intros store fires Hstore. unfold calculateCumulatedFireData, clearCache. simpl.
    rewrite lookup_empty, Hstore.
    by destruct (aggregate fires startDate endDate resolution).
Qed.

(** A request touches no cache entry but its own, adds that one only
    together with an answer, and leaves the record store as it is; a request
    that throws (the store fails, or the library refuses a centroid) caches
    nothing. *)
Theorem request_keeps_other_entries startDate endDate resolution st :
  let (answer, st') := calculateCumulatedFireData startDate endDate resolution st in
  (∀ key, key ≠ cacheKey startDate endDate resolution → cache st' !! key = cache st !! key)
  ∧ (cache st' !! cacheKey startDate endDate resolution
     = match answer with
       | Ok r => Some r
       | Throw _ => cache st !! cacheKey startDate endDate resolution
       end)
  ∧ (∀ e, answer = Throw e → cache st' = cache st)
  ∧ getFiresInDateRange st' = getFiresInDateRange st.
Proof.
  unfold calculateCumulatedFireData.
  destruct (cache st !! cacheKey startDate endDate resolution) as [cached|] eqn:Hhit; [done|].
  destruct (getFiresInDateRange st startDate endDate) as [fires|]; [|by rewrite Hhit].
  destruct (aggregate fires startDate endDate resolution) as [r0|]; simpl; [|by rewrite Hhit].
  split; [|split; [|done]].
  - intros key Hkey. by rewrite lookup_insert_ne.
  - apply lookup_insert_eq.
Qed.

End CumulatedCache.

Lemma cacheKey_of_validated_dates_witness :
  "2025-08-01" = "2025-08-01" ∧ "2025-08-03" = "2025-08-03" ∧ 6%Z = 6%Z.
Proof.
  apply (cacheKey_of_validated_dates "2025-08-01" "2025-08-03" 6
           "2025-08-01" "2025-08-03" 6); reflexivity.
Defined.

Lemma answer_is_kept_until_clearCache_witness :
  ∃ r,
    Sample.cumulated.1 = Ok r
    ∧ (∀ store,
         CumulatedFireService.calculateCumulatedFireData (H := Lattice.lib)
           "2025-08-01" "2025-08-03" 6 (withStore store Sample.cumulated.2)
         = (Ok r, withStore store Sample.cumulated.2))
    ∧ (∀ store fires,
         store "2025-08-01" "2025-08-03" = Ok fires →
         (CumulatedFireService.calculateCumulatedFireData (H := Lattice.lib)
            "2025-08-01" "2025-08-03" 6
            (CumulatedFireService.clearCache (withStore store Sample.cumulated.2))).1
         = CumulatedFireService.aggregate (H := Lattice.lib) fires
             "2025-08-01" "2025-08-03" 6
         ∧ CumulatedFireService.binnings
             (CumulatedFireService.calculateCumulatedFireData (H := Lattice.lib)
                "2025-08-01" "2025-08-03" 6
                (CumulatedFireService.clearCache
                   (withStore store Sample.cumulated.2))).2
           = S (CumulatedFireService.binnings Sample.cumulated.2)).
Proof.
  eexists. split; [vm_compute; reflexivity|].
  apply (answer_is_kept_until_clearCache (H := Lattice.lib)
           "2025-08-01" "2025-08-03" 6%Z Sample.service).
  vm_compute. reflexivity.
Defined.

(** ** What the browser-side aggregation keeps *)

Section GridInvariants.
Context `{Lib}.
Import UseFireData.
Implicit Types (m : gmap string Agg.t) (fire : FireData) (fires : list FireData)
  (features : list Feature).

Lemma lookup_foldl_initFireMap features (m0 : gmap string Agg.t) k :
  foldl (λ hexagonFireMap hexagon,
           <[h3Index hexagon := {| Agg.totalArea := 0; Agg.fireCount := 0;
                                   Agg.fires := [] |}]> hexagonFireMap)
        m0 features !! k
  = if decide (k ∈ h3Index <$> features)
    then Some {| Agg.totalArea := 0; Agg.fireCount := 0; Agg.fires := [] |}
    else m0 !! k.
Proof.
  revert m0. induction features as [|hexagon features IH]; intros m0.
  - cbn [foldl]. rewrite fmap_nil. by rewrite decide_False by apply not_elem_of_nil.
  - cbn [foldl]. rewrite IH, fmap_cons.
    destruct (decide (k ∈ h3Index <$> features)) as [Hin|Hnin].
    + by rewrite decide_True by (by apply elem_of_cons; right).
    + destruct (decide (k = h3Index hexagon)) as [->|Hne].
      * rewrite decide_True by (by apply elem_of_cons; left). apply lookup_insert_eq.
      * rewrite decide_False by (rewrite elem_of_cons; tauto).
        by rewrite lookup_insert_ne.
Qed.

Lemma lookup_initFireMap features k :
  initFireMap features !! k
  = if decide (k ∈ h3Index <$> features)
    then Some {| Agg.totalArea := 0; Agg.fireCount := 0; Agg.fires := [] |}
    else None.
Proof. unfold initFireMap. by rewrite lookup_foldl_initFireMap, lookup_empty. Qed.

Lemma addToHexagon_entryOf fires fire area k m :
  fire ∈ fires →
  map_Forall (λ _, entryOf fires) m →
  map_Forall (λ _, entryOf fires) (addToHexagon fire area k m).
Proof.
  intros Hfire Hm. unfold addToHexagon.
  destruct (m !! k) as [hexagonData|] eqn:Hk; [|done].
  apply map_Forall_insert_2; [|done].
  destruct (Hm k hexagonData Hk) as (Hlen & _ & Hin). repeat split; simpl.
  - rewrite length_app. simpl. lia.
  - lia.
  - intros fire0 [?| ->%list_elem_of_singleton]%elem_of_app; auto.
Qed.

Lemma binFire_keeps resolution fires fire m m' :
  fire ∈ fires →
  binFire resolution fire m = Ok m' →
  (map_Forall (λ _, entryOf fires) m → map_Forall (λ _, entryOf fires) m')
  ∧ ∀ k, is_Some (m' !! k) ↔ is_Some (m !! k).
Proof.
  intros Hfire.
  assert (Hcentroid : ∀ m1, addByCentroid fire resolution m = Ok m1 →
            (map_Forall (λ _, entryOf fires) m → map_Forall (λ _, entryOf fires) m1)
            ∧ ∀ k, is_Some (m1 !! k) ↔ is_Some (m !! k)).
  { intros m1. unfold addByCentroid. destruct (centroid fire) as [lng0 lat0].
    destruct (latLngToCell lat0 lng0 resolution) as [k0|]; [|done].
    intros [= <-]. split; [by apply addToHexagon_entryOf|].
    intros k. apply addToHexagon_is_Some. }
  unfold binFire. destruct (shape fire) as [[|polygon polygons]|]; [by auto| |by auto].
  cbv zeta. destruct (polygonToCells _ resolution) as [cells|]; [|by auto].
  intros [= <-]. generalize (area_ha fire / Js.ofNat (length cells)). intros share.
  clear Hcentroid. revert m. induction cells as [|cell cells IH]; intros m; [done|].
  cbn [foldl]. destruct (IH (addToHexagon fire share cell m)) as [Hall Hdom]. split.
  - intros Hm. by apply Hall, addToHexagon_entryOf.
  - intros k. rewrite Hdom. apply addToHexagon_is_Some.
Qed.

Lemma forEach_binFire_keeps resolution fires0 fires m m' :
  (∀ fire, fire ∈ fires → fire ∈ fires0) →
  forEach (binFire resolution) fires m = Ok m' →
  (map_Forall (λ _, entryOf fires0) m → map_Forall (λ _, entryOf fires0) m')
  ∧ ∀ k, is_Some (m' !! k) ↔ is_Some (m !! k).
Proof.
  revert m. induction fires as [|fire fires IH]; intros m Hsub; simpl.
  - by intros [= <-].
  - destruct (binFire resolution fire m) as [m1|] eqn:Hbin; simpl; [|done].
    intros Hrest.
    destruct (binFire_keeps resolution fires0 fire m m1) as [Hall1 Hdom1];
      [apply Hsub; by left | done |].
    destruct (IH m1) as [Hall Hdom]; [intros; apply Hsub; by right | done |].
    split; [auto|]. intros k. by rewrite Hdom, Hdom1.
Qed.

Lemma initFireMap_entryOf fires features :
  map_Forall (λ _, entryOf fires) (initFireMap features).
Proof.
  intros k hexagonData. rewrite lookup_initFireMap. case_decide; [|done].
  intros [= <-]. split; [done|]. split; [done|]. by intros fire ?%not_elem_of_nil.
Qed.

Lemma noFireData_fireProperties fires : fireProperties fires noFireData.
Proof.
  unfold fireProperties. simpl.
  repeat split; first [done | lia | by intros ? ?%not_elem_of_nil | ring].
Qed.

Lemma updateProperties_fireProperties fires m hexagon :
  map_Forall (λ _, entryOf fires) m →
  fireProperties fires (properties (updateProperties m hexagon)).
Proof.
  intros Hall. unfold updateProperties. cbn [properties h3Index].
  destruct (m !! h3Index hexagon) as [fireData|] eqn:Hcell;
    [|apply noFireData_fireProperties].
  destruct (Hall _ _ Hcell) as (Hlen & Hzero & Hin).
  destruct (0 <? Agg.fireCount fireData)%nat eqn:Hpos;
    [|apply noFireData_fireProperties].
  apply Nat.ltb_lt in Hpos. unfold fireProperties. simpl. repeat split; try done.
  unfold Qcdiv. rewrite <- Qcmult_assoc, (Qcmult_comm (/ _)), Qcmult_inv_r, Qcmult_1_r;
    [done | apply ofNat_nonzero; lia].
Qed.

(** What [addFireDataToMap] keeps. The hexagons come out in the order and
    under the ids they went in. On each of them [fireCount] is the length of
    [fires], which lists fires of the input only; [hasFireData] says whether
    [fireCount] is positive; [averageArea] times [fireCount] is [totalArea];
    and a hexagon without fire data carries the blank properties. *)
Theorem addFireDataToMap_keeps zoom fires features out :
  addFireDataToMap zoom fires (Some (Some features)) = Ok (Some (Some out)) →
  h3Index <$> out = h3Index <$> features
  ∧ ∀ hexagon, hexagon ∈ out →
      fireCount (properties hexagon) = length (UseFireData.fires (properties hexagon))
      ∧ (∀ fire, fire ∈ UseFireData.fires (properties hexagon) → fire ∈ fires)
      ∧ (hasFireData (properties hexagon) = true ↔ (0 < fireCount (properties hexagon))%nat)
      ∧ averageArea (properties hexagon) * Js.ofNat (fireCount (properties hexagon))
        = totalArea (properties hexagon)
      ∧ (hasFireData (properties hexagon) = false → properties hexagon = noFireData).
Proof.
  unfold addFireDataToMap. cbn [clearFireLayers].
  destruct fires as [|fire fires].
  { intros [= <-]. split; [by rewrite <- list_fmap_compose|].
    intros hexagon (hexagon0 & -> & _)%list_elem_of_fmap.
    apply (noFireData_fireProperties []). }
  unfold aggregateOnGrid.
  destruct (forEach _ (fire :: fires) _) as [m|] eqn:Hloop; simpl; [|done].
  intros [= <-]. split; [by rewrite <- !list_fmap_compose|].
  intros hexagon (hexagon0 & -> & _)%list_elem_of_fmap.
  apply forEach_binFire_keeps with (fires0 := fire :: fires) in Hloop as [Hall _]; [|done].
  apply (updateProperties_fireProperties (fire :: fires)), Hall, initFireMap_entryOf.
Qed.

End GridInvariants.

Lemma addFireDataToMap_keeps_witness :
  ∃ out,
    UseFireData.addFireDataToMap (H := Lattice.lib) (Js.int 6) Sample.fires
      (Some (Some Sample.spainGrid)) = Ok (Some (Some out))
    ∧ UseFireData.h3Index <$> out = UseFireData.h3Index <$> Sample.spainGrid
    ∧ ∀ hexagon, hexagon ∈ out →
        UseFireData.fireCount (UseFireData.properties hexagon)
        = length (UseFireData.fires (UseFireData.properties hexagon))
        ∧ (∀ fire, fire ∈ UseFireData.fires (UseFireData.properties hexagon) →
                   fire ∈ Sample.fires)
        ∧ (UseFireData.hasFireData (UseFireData.properties hexagon) = true
           ↔ (0 < UseFireData.fireCount (UseFireData.properties hexagon))%nat)
        ∧ UseFireData.averageArea (UseFireData.properties hexagon)
          * Js.ofNat (UseFireData.fireCount (UseFireData.properties hexagon))
          = UseFireData.totalArea (UseFireData.properties hexagon)
        ∧ (UseFireData.hasFireData (UseFireData.properties hexagon) = false →
           UseFireData.properties hexagon = UseFireData.noFireData).
Proof.
  eexists. split; [vm_compute; reflexivity|].
  apply (addFireDataToMap_keeps (H := Lattice.lib) (Js.int 6) Sample.fires Sample.spainGrid).
  vm_compute. reflexivity.
Defined.

(** ** No area out of nothing *)

Lemma ofNat_le (k n : nat) : (k ≤ n)%nat → Js.ofNat k ≤ Js.ofNat n.
Proof.
  intros Hkn. unfold Js.ofNat, Js.int, Qcle. simpl. rewrite <- Zle_Qle. lia.
Qed.

Lemma share_le (area : Qc) (k n : nat) :
  0 ≤ area → (k ≤ n)%nat → Js.ofNat k * (area / Js.ofNat n) ≤ area.
Proof.
  intros Harea Hkn. destruct n as [|n].
  - assert (k = 0%nat) as -> by lia. rewrite ofNat_0, Qcmult_0_l. done.
  - rewrite <- (share_times_count area (S n)) at 2 by done.
    apply Qcmult_le_mono_nonneg_r; [|by apply ofNat_le].
    unfold Qcdiv. apply Qcmult_nonneg_nonneg; [done|].
    apply Qclt_le_weak, Qcinv_pos.
    apply Qclt_nge. intros Hle.
    apply (ofNat_nonzero (S n)); [done|].
    apply Qcle_antisym; [done|]. rewrite <- ofNat_0. apply ofNat_le. lia.
Qed.

Lemma sumQcOver_all_zero {V} (f : V → Qc) (m : gmap string V) :
  map_Forall (λ _ v, f v = 0) m → sumQcOver f m = 0.
Proof.
  induction m as [|k v m Hk IH] using map_ind; intros Hm.
  - apply sumQcOver_empty.
  - rewrite sumQcOver_insert_None by done.
    apply map_Forall_insert in Hm as [-> Hm]; [|done]. rewrite IH by done. ring.
Qed.

(** A sum over the ids of a dictionary is the sum over its entries. *)
Lemma sumList_over_ids {V} (f : V → Qc) (ids : list string) (m : gmap string V) :
  NoDup ids → (∀ k, is_Some (m !! k) ↔ k ∈ ids) →
  sumList ((λ k, default 0 (f <$> m !! k)) <$> ids) = sumQcOver f m.
Proof.
  intros Hnd. revert m. induction Hnd as [|k ids Hk Hnd IH]; intros m Hdom.
  - rewrite fmap_nil. simpl. symmetry.
    assert (m = ∅) as ->; [|apply sumQcOver_empty].
    apply map_empty. intros k. apply eq_None_not_Some. rewrite Hdom. apply not_elem_of_nil.
  - destruct (proj2 (Hdom k)) as [v Hv]; [by left|].
    rewrite fmap_cons, sumList_cons, Hv, (sumQcOver_delete f m k v Hv).
    cbn [fmap option_fmap option_map default].
    rewrite <- (IH (delete k m)).
    + rewrite Qcplus_comm. do 2 f_equal. apply list_fmap_ext. intros _ j Hj%list_elem_of_lookup_2.
      rewrite lookup_delete_ne; [done|]. by intros ->.
    + intros j. rewrite lookup_delete. case_decide as Hkj.
      * subst j. split; [by intros [? ?] | done].
      * rewrite Hdom, elem_of_cons. split; [intros [?|?]; by subst | by right].
Qed.

Section NoAreaOutOfNothing.
Context `{Lib}.
Import UseFireData.

Lemma binFire_sum_le resolution fire (m m' : gmap string Agg.t) :
  0 ≤ area_ha fire →
  binFire resolution fire m = Ok m' →
  sumQcOver Agg.totalArea m' ≤ sumQcOver Agg.totalArea m + area_ha fire.
Proof.
  intros Harea.
  assert (Hcentroid : ∀ m1, addByCentroid fire resolution m = Ok m1 →
            sumQcOver Agg.totalArea m1 ≤ sumQcOver Agg.totalArea m + area_ha fire).
  { intros m1. unfold addByCentroid. destruct (centroid fire) as [lng0 lat0].
    destruct (latLngToCell lat0 lng0 resolution) as [k0|]; [|done].
    intros [= <-]. rewrite sum_addToHexagon. apply Qcplus_le_mono_l.
    by case_decide. }
  unfold binFire. destruct (shape fire) as [[|polygon polygons]|]; [by auto| |by auto].
  cbv zeta. destruct (polygonToCells _ resolution) as [cells|]; [|by auto].
  intros [= <-]. rewrite sum_foldl_addToHexagon. apply Qcplus_le_mono_l.
  apply share_le; [done|]. unfold onGrid. apply length_filter.
Qed.

Lemma forEach_binFire_sum_le resolution fires (m m' : gmap string Agg.t) :
  Forall (λ fire, 0 ≤ area_ha fire) fires →
  forEach (binFire resolution) fires m = Ok m' →
  sumQcOver Agg.totalArea m'
  ≤ sumQcOver Agg.totalArea m + sumList (area_ha <$> fires).
Proof.
  intros Hareas. revert m. induction Hareas as [|fire fires Harea _ IH]; intros m.
  - intros [= <-]. rewrite fmap_nil. simpl. rewrite Qcplus_0_r. done.
  - rewrite fmap_cons, sumList_cons, Qcplus_assoc. cbn [forEach].
    destruct (binFire resolution fire m) as [m1|] eqn:Hbin; [|done].
    intros Hrest. etrans; [by apply IH|]. apply Qcplus_le_mono_r.
    by apply (binFire_sum_le resolution).
Qed.

(** The aggregation never shows more burnt area than the records carry:
    when no two hexagons of the grid share an id and no area is negative,
    the [totalArea]s written on the grid add up to at most the sum of the
    [area_ha] of the fires. *)
Theorem grid_area_at_most_input zoom fires features out :
  NoDup (h3Index <$> features) →
  Forall (λ fire, 0 ≤ area_ha fire) fires →
  addFireDataToMap zoom fires (Some (Some features)) = Ok (Some (Some out)) →
  sumList ((λ hexagon, totalArea (properties hexagon)) <$> out)
  ≤ sumList (area_ha <$> fires).
Proof.
  intros Hnd Hareas. unfold addFireDataToMap. cbn [clearFireLayers].
  destruct fires as [|fire fires].
  { intros [= <-]. rewrite <- list_fmap_compose. simpl.
    induction features as [|hexagon features IH]; [done|].
    rewrite fmap_cons, sumList_cons. simpl. rewrite Qcplus_0_l. apply IH.
    by apply NoDup_cons in Hnd as [_ ?]. }
  unfold aggregateOnGrid.
  destruct (forEach _ (fire :: fires) _) as [m|] eqn:Hloop; simpl; [|done].
  intros [= <-]. rewrite <- !list_fmap_compose.
  pose proof (forEach_binFire_sum_le _ _ _ _ Hareas Hloop) as Hle.
  apply forEach_binFire_keeps with (fires0 := fire :: fires) in Hloop as [Hall Hdom];
    [|done].
  specialize (Hall (initFireMap_entryOf _ _)).
  rewrite (sumQcOver_all_zero Agg.totalArea (initFireMap _)), Qcplus_0_l in Hle.
  2:{ intros k hexagonData. rewrite lookup_initFireMap. case_decide; [|done].
      by intros [= <-]. }
  match goal with
  | |- ?total ≤ _ => enough (total = sumQcOver Agg.totalArea m) as -> by exact Hle
  end.
  rewrite <- (sumList_over_ids Agg.totalArea (h3Index <$> features) m Hnd).
  2:{ intros k. rewrite Hdom, lookup_initFireMap. rewrite <- list_fmap_compose.
      case_decide; [split; [done | by eauto] | split; [by intros [? ?] | done]]. }
  rewrite <- list_fmap_compose. f_equal. apply list_fmap_ext. intros _ hexagon _.
  unfold compose, updateProperties. simpl.
  destruct (m !! h3Index hexagon) as [fireData|] eqn:Hcell; [|done].
  destruct (Hall _ _ Hcell) as (_ & Hzero & _).
  destruct (0 <? Agg.fireCount fireData)%nat eqn:Hpos; [done|].
  apply Nat.ltb_ge in Hpos. simpl. symmetry. apply Hzero. lia.
Qed.

End NoAreaOutOfNothing.

Lemma grid_area_at_most_input_witness :
  ∃ out,
    UseFireData.addFireDataToMap (H := Lattice.lib) (Js.int 6) Sample.fires
      (Some (Some Sample.croppedGrid)) = Ok (Some (Some out))
    ∧ sumList ((λ hexagon, UseFireData.totalArea (UseFireData.properties hexagon)) <$> out)
      ≤ sumList (area_ha <$> Sample.fires).
Proof.
  eexists. split; [vm_compute; reflexivity|].
  apply (grid_area_at_most_input (H := Lattice.lib) (Js.int 6) Sample.fires
           Sample.croppedGrid).
  - apply NoDup_singleton.
  - repeat constructor; discriminate.
  - vm_compute. reflexivity.
Defined.

(** ** The browser-side aggregation, cell by cell *)

Section GridCells.
Context `{Lib}.
Import UseFireData.

Lemma binFire_cases resolution fire (m : gmap string Agg.t) :
  binFire resolution fire m
  = match polygonCells resolution fire with
    | Some cells =>
        Ok (foldl (λ m h3Index,
                     addToHexagon fire (area_ha fire / Js.ofNat (length cells)) h3Index m)
                  m cells)
    | None => addByCentroid fire resolution m
    end.
Proof.
  unfold binFire, polygonCells. by destruct (shape fire) as [[|polygon polygons]|].
Qed.

Lemma binFire_lookup resolution fire (m m' : gmap string Agg.t) k :
  binFire resolution fire m = Ok m' →
  m' !! k
  = creditedTimes fire (shareOf resolution fire) (timesIn resolution k fire) <$> m !! k.
Proof.
  rewrite binFire_cases. unfold shareOf, timesIn.
  destruct (polygonCells resolution fire) as [cells|].
  - intros [= <-]. apply lookup_foldl_addToHexagon.
  - unfold addByCentroid. destruct (centroid fire) as [lng0 lat0]. simpl.
    destruct (latLngToCell lat0 lng0 resolution) as [cell|]; [|done].
    intros [= <-]. rewrite lookup_addToHexagon.
    case_decide; [done|]. destruct (m !! k) as [hexagonData|]; simpl; [|done].
    by rewrite creditedTimes_0.
Qed.

(** The aggregation fails exactly when a record that falls back to its
    centroid has a centroid that the library refuses; a polygon that the
    library refuses never fails it. *)
Theorem binning_throws_on_refused_centroid resolution fires (m : gmap string Agg.t) :
  (∃ e, forEach (binFire resolution) fires m = Throw e)
  ↔ Exists (λ fire,
              polygonCells resolution fire = None
              ∧ latLngToCell (centroid fire).2 (centroid fire).1 resolution = None)
           fires.
Proof.
  revert m. induction fires as [|fire fires IH]; intros m.
  - simpl. split; [by intros [? ?] | by intros ?%Exists_nil].
  - cbn [forEach]. rewrite Exists_cons, binFire_cases.
    destruct (polygonCells resolution fire) as [cells|] eqn:Hcells; simpl.
    + rewrite IH. split; [by right | by intros [[? _]|?]].
    + unfold addByCentroid. destruct (centroid fire) as [lng0 lat0]. simpl.
      destruct (latLngToCell lat0 lng0 resolution) as [cell|]; simpl.
      * rewrite IH. split; [by right | by intros [[_ ?]|?]].
      * split; [by left | by eauto].
Qed.

Lemma foldl_creditedTimes resolution k fires hexagonData :
  foldl (λ hexagonData fire,
           creditedTimes fire (shareOf resolution fire) (timesIn resolution k fire)
             hexagonData)
        hexagonData fires
  = {| Agg.totalArea :=
         Agg.totalArea hexagonData
         + sumList ((λ fire, Js.ofNat (timesIn resolution k fire) * shareOf resolution fire)
                      <$> fires);
       Agg.fireCount :=
         Agg.fireCount hexagonData + sum_list (timesIn resolution k <$> fires);
       Agg.fires :=
         Agg.fires hexagonData
         ++ concat ((λ fire, replicate (timesIn resolution k fire) fire) <$> fires) |}.
Proof.
  revert hexagonData. induction fires as [|fire fires IH]; intros hexagonData.
  - destruct hexagonData. cbn [foldl fmap list_fmap sumList foldr sum_list sum_list_with
                               concat Agg.totalArea Agg.fireCount Agg.fires].
    f_equal; [ring | lia | by rewrite app_nil_r].
  - cbn [foldl]. rewrite IH. unfold creditedTimes.
    cbn [Agg.totalArea Agg.fireCount Agg.fires].
    rewrite !fmap_cons, sumList_cons. cbn [concat].
    change (sum_list (?x :: ?l)) with (x + sum_list l)%nat. f_equal.
    + ring.
    + lia.
    + by rewrite <- app_assoc.
Qed.

Lemma forEach_binFire_lookup resolution fires (m m' : gmap string Agg.t) k :
  forEach (binFire resolution) fires m = Ok m' →
  m' !! k
  = (λ hexagonData,
       foldl (λ hexagonData fire,
                creditedTimes fire (shareOf resolution fire) (timesIn resolution k fire)
                  hexagonData)
             hexagonData fires)
      <$> m !! k.
Proof.
  revert m. induction fires as [|fire fires IH]; intros m; cbn [forEach].
  - intros [= <-]. by destruct (m !! k).
  - destruct (binFire resolution fire m) as [m1|] eqn:Hbin; simpl; [|done].
    intros Hrest. rewrite (IH _ Hrest), (binFire_lookup _ _ _ _ k Hbin).
    by destruct (m !! k).
Qed.

(** The properties written on a hexagon are the sums of what each fire
    brings to its cell: a fire with a covered polygon brings its share
    [area_ha / |cells|] once per listing of the cell among its cells, a fire
    binned by its centroid brings its whole area to the cell of the
    centroid, and [fires] lists each fire as often as it was added. *)
Theorem aggregateOnGrid_cells zoom features fires out :
  aggregateOnGrid zoom features fires = Ok out →
  ∀ hexagon, hexagon ∈ out →
    let resolution := UseHexagonGrid.getResolutionForZoom zoom in
    let h3Index := h3Index hexagon in
    fireCount (properties hexagon) = sum_list (timesIn resolution h3Index <$> fires)
    ∧ totalArea (properties hexagon)
      = sumList ((λ fire, Js.ofNat (timesIn resolution h3Index fire)
                          * shareOf resolution fire) <$> fires)
    ∧ UseFireData.fires (properties hexagon)
      = concat ((λ fire, replicate (timesIn resolution h3Index fire) fire) <$> fires).
Proof.
  unfold aggregateOnGrid.
  destruct (forEach _ fires _) as [m|] eqn:Hloop; simpl; [|done].
  intros [= <-] hexagon (hexagon0 & -> & Hin)%list_elem_of_fmap.
  pose proof (forEach_binFire_lookup _ _ _ _ (h3Index hexagon0) Hloop) as Hcell.
  rewrite lookup_initFireMap in Hcell.
  rewrite decide_True in Hcell by (apply list_elem_of_fmap; eauto).
  simpl in Hcell. rewrite foldl_creditedTimes in Hcell. simpl in Hcell.
  unfold updateProperties. cbn [properties UseFireData.h3Index]. rewrite Hcell.
  cbn [Agg.fireCount Agg.totalArea Agg.fires].
  destruct (0 <? _)%nat eqn:Hpos; simpl.
  - by rewrite Qcplus_0_l.
  - apply Nat.ltb_ge in Hpos.
    assert (Hnone : Forall (λ fire, timesIn (UseHexagonGrid.getResolutionForZoom zoom)
                                      (h3Index hexagon0) fire = 0%nat) fires).
    { clear -Hpos. induction fires as [|fire fires IH]; [done|].
      rewrite fmap_cons in Hpos. simpl in Hpos. constructor; [lia|]. apply IH. lia. }
    clear -Hnone. induction Hnone as [|fire fires Hfire _ (IH1 & IH2 & IH3)]; [done|].
    rewrite !fmap_cons, sumList_cons, Hfire. simpl.
    rewrite <- IH1, <- IH2, <- IH3, ofNat_0. split; [done|]. split; [ring | done].
Qed.

End GridCells.

Lemma aggregateOnGrid_cells_witness :
  ∃ out,
    UseFireData.aggregateOnGrid (H := Lattice.lib) (Js.int 6) Sample.spainGrid Sample.fires
    = Ok out
    ∧ ∀ hexagon, hexagon ∈ out →
        UseFireData.fireCount (UseFireData.properties hexagon)
        = sum_list (timesIn (H := Lattice.lib) 6 (UseFireData.h3Index hexagon)
                      <$> Sample.fires)
        ∧ UseFireData.totalArea (UseFireData.properties hexagon)
          = sumList ((λ fire, Js.ofNat (timesIn (H := Lattice.lib) 6
                                          (UseFireData.h3Index hexagon) fire)
                              * shareOf (H := Lattice.lib) 6 fire) <$> Sample.fires)
        ∧ UseFireData.fires (UseFireData.properties hexagon)
          = concat ((λ fire, replicate (timesIn (H := Lattice.lib) 6
                                          (UseFireData.h3Index hexagon) fire) fire)
                      <$> Sample.fires).
Proof.
  eexists. split; [vm_compute; reflexivity|].
  apply (aggregateOnGrid_cells (H := Lattice.lib) (Js.int 6) Sample.spainGrid Sample.fires).
  vm_compute. reflexivity.
Defined.

(** ** The cache files of the hexagon grid service *)

Lemma string_length_app (s t : string) :
  String.length (s +:+ t) = (String.length s + String.length t)%nat.
Proof. induction s as [|c s IH]; simpl; [done | by rewrite IH]. Qed.

Lemma string_app_inv_tail (s1 s2 t : string) : s1 +:+ t = s2 +:+ t → s1 = s2.
Proof.
  intros Happ. apply (string_app_inj_length s1 s2 t t); [|done].
  apply (f_equal String.length) in Happ. rewrite !string_length_app in Happ. lia.
Qed.

Lemma withFiles_same st : withFiles (HexagonGridService.files st) st = st.
Proof. by destruct st. Qed.

Section CacheFiles.
Context `{Lib}.
Import HexagonGridService HexagonGridCache.

Lemma getCacheFilePath_spain_inj resolution resolution' :
  getCacheFilePath resolution None = getCacheFilePath resolution' None →
  resolution = resolution'.
Proof.
  unfold getCacheFilePath, CACHE_DIR. intros Hpath.
  apply (inj (String.app _)) in Hpath. apply (inj (String.app _)) in Hpath.
  apply string_app_inv_tail in Hpath. by apply (inj pretty).
Qed.

Lemma getCacheFilePath_spain_viewport resolution resolution' viewport :
  getCacheFilePath resolution None ≠ getCacheFilePath resolution' (Some viewport).
Proof. unfold getCacheFilePath, CACHE_DIR. simpl. intros [=]. Qed.

(** A cache file other than the one a getter looks for changes neither
    what the getter returns nor what it asks of the library. *)
Lemma loadOrGenerate_other_file cacheFilePath resolution polygon viewport spainBounds
    st other files0 grid :
  files st = <[other := grid]> files0 →
  other ≠ cacheFilePath →
  let served :=
    loadOrGenerate cacheFilePath (generateGrid resolution polygon viewport spainBounds) st in
  let unprepared :=
    loadOrGenerate cacheFilePath (generateGrid resolution polygon viewport spainBounds)
                   (withFiles files0 st) in
  served.1 = unprepared.1 ∧ coverings served.2 = coverings unprepared.2.
Proof.
  intros Hfiles Hother. unfold loadOrGenerate. cbn [files withFiles].
  rewrite Hfiles, lookup_insert_ne by done.
  destruct (files0 !! cacheFilePath) as [cached|]; [done|].
  unfold generateGrid. destruct (polygonToCells polygon resolution); [|done].
  unfold writeCache. simpl. by destruct (writable st).
Qed.

Lemma pregenerateSpainOverview_files st r st1 :
  pregenerateSpainOverview st = (r, st1) →
  files st1 = files st
  ∨ ∃ grid, files st1 = <[getCacheFilePath 5 None := grid]> (files st).
Proof.
  unfold pregenerateSpainOverview, getHexagonGridForSpain.
  change ((5 <? 0)%Z || (5 >? 15)%Z) with false. cbv iota.
  unfold loadOrGenerate.
  destruct (files st !! getCacheFilePath 5 None) as [cached|].
  { intros [= _ <-]. by left. }
  unfold generateHexagonGridForSpain, generateGrid.
  destruct (polygonToCells _ _).
  - unfold writeCache. cbn [writable files clock coverings].
    destruct (writable st); intros [= _ <-]; cbn [files]; eauto.
  - intros [= _ <-]. by left.
Qed.

Lemma getHexagonGridAsGeoJSON_other_file zoom viewport st files0 grid resolution :
  files st = <[getCacheFilePath resolution None := grid]> files0 →
  resolution ≠ 6%Z → resolution ≠ 7%Z →
  (getHexagonGridAsGeoJSON zoom viewport st).1
  = (getHexagonGridAsGeoJSON zoom viewport (withFiles files0 st)).1
  ∧ coverings (getHexagonGridAsGeoJSON zoom viewport st).2
    = coverings (getHexagonGridAsGeoJSON zoom viewport (withFiles files0 st)).2.
Proof.
  intros Hfiles H6 H7. unfold getHexagonGridAsGeoJSON.
  destruct viewport as [v|].
  - unfold getHexagonGridForViewport, generateHexagonGridForViewport.
    destruct (loadOrGenerate_other_file
                (getCacheFilePath (getResolutionForZoom zoom) (Some v))
                (getResolutionForZoom zoom) (boundsPolygon v) (Some v) None
                st _ files0 grid Hfiles) as [Hanswer Hcoverings].
    { apply getCacheFilePath_spain_viewport. }
    destruct (loadOrGenerate _ _ st) as [r1 st1], (loadOrGenerate _ _ (withFiles _ _)) as [r2 st2].
    simpl in *. by rewrite Hanswer.
  - assert (Hres : getResolutionForZoom zoom = 6%Z ∨ getResolutionForZoom zoom = 7%Z).
    { unfold getResolutionForZoom. destruct (Js.lt _ _); auto. }
    unfold getHexagonGridForSpain, generateHexagonGridForSpain.
    destruct (loadOrGenerate_other_file
                (getCacheFilePath (getResolutionForZoom zoom) None)
                (getResolutionForZoom zoom) (boundsPolygon SPAIN_BOUNDS) None
                (Some SPAIN_BOUNDS) st _ files0 grid Hfiles) as [Hanswer Hcoverings].
    { intros Hpath%getCacheFilePath_spain_inj. destruct Hres; congruence. }
    assert (Hvalid : (getResolutionForZoom zoom <? 0)%Z
                     || (getResolutionForZoom zoom >? 15)%Z = false)
      by (by destruct Hres as [-> | ->]).
    rewrite Hvalid.
    destruct (loadOrGenerate _ _ st) as [r1 st1],
             (loadOrGenerate _ _ (withFiles _ _)) as [r2 st2].
    simpl in *. by rewrite Hanswer.
Qed.

(** The file that [pregenerateSpainOverview] writes is the Spain grid of
    resolution 5, and no grid request reads it: after the pre-generation,
    [getHexagonGridAsGeoJSON] and both grid routes answer what they answer
    over the cache files of before, and ask the same coverings of the
    library. *)
Theorem pregenerated_overview_is_never_served st r st1 :
  pregenerateSpainOverview st = (r, st1) →
  (files st1 = files st
   ∨ ∃ grid, files st1 = <[getCacheFilePath 5 None := grid]> (files st))
  ∧ (∀ zoom viewport,
     (getHexagonGridAsGeoJSON zoom viewport st1).1
     = (getHexagonGridAsGeoJSON zoom viewport (withFiles (files st) st1)).1
     ∧ coverings (getHexagonGridAsGeoJSON zoom viewport st1).2
       = coverings (getHexagonGridAsGeoJSON zoom viewport (withFiles (files st) st1)).2)
  ∧ (∀ zoom viewport,
       (FireRoutes.getHexagonGrid zoom viewport st1).1
       = (FireRoutes.getHexagonGrid zoom viewport (withFiles (files st) st1)).1)
  ∧ (∀ resolution,
       (FireRoutes.getHexagonGridByResolution resolution st1).1
       = (FireRoutes.getHexagonGridByResolution resolution (withFiles (files st) st1)).1).
Proof.
  intros Hpre. split; [by apply (pregenerateSpainOverview_files st r)|].
  assert (Hservice : ∀ zoom viewport,
     (getHexagonGridAsGeoJSON zoom viewport st1).1
     = (getHexagonGridAsGeoJSON zoom viewport (withFiles (files st) st1)).1
     ∧ coverings (getHexagonGridAsGeoJSON zoom viewport st1).2
       = coverings (getHexagonGridAsGeoJSON zoom viewport (withFiles (files st) st1)).2).
  { intros zoom viewport.
    destruct (pregenerateSpainOverview_files _ _ _ Hpre) as [Hsame | [grid Hfiles]].
    - by rewrite <- Hsame, withFiles_same.
    - by apply (getHexagonGridAsGeoJSON_other_file zoom viewport st1 (files st) grid 5%Z). }
  split; [done|]. split.
  - intros zoom viewport. unfold FireRoutes.getHexagonGrid.
    destruct viewport as [| |value]; [|done|];
      (destruct (_ || _); [done|]);
      (destruct (FireRoutes.readViewport _) as [bounds|]; [|done]);
      match goal with
      | |- context [getHexagonGridAsGeoJSON ?z bounds st1] =>
          destruct (Hservice z bounds) as [Hanswer _];
          destruct (getHexagonGridAsGeoJSON z bounds st1) as [[?|?] ?],
                   (getHexagonGridAsGeoJSON z bounds (withFiles _ _)) as [[?|?] ?]
      end; simpl in *; congruence.
  - intros resolution. unfold FireRoutes.getHexagonGridByResolution.
    destruct (Js.parseInt resolution) as [resolutionNum|]; [|done].
    destruct (_ || _); [done|].
    destruct (Hservice (Js.int 5) None) as [Hanswer _].
    destruct (getHexagonGridAsGeoJSON (Js.int 5) None st1) as [[?|?] ?],
             (getHexagonGridAsGeoJSON (Js.int 5) None (withFiles _ _)) as [[?|?] ?];
      simpl in *; congruence.
Qed.

(** Two viewports whose four bounds print alike with two decimals, asked
    at zooms of the same resolution, share one cache file: on a writable
    cache directory the grid that the first request returns is returned,
    unchanged, to the second. *)
Theorem viewports_rounding_alike_share_a_grid zoom viewport zoom' viewport' st grid st1 :
  writable st = true →
  getHexagonGridForViewport zoom viewport st = (Ok grid, st1) →
  getResolutionForZoom zoom' = getResolutionForZoom zoom →
  Js.toFixed2 (west viewport') = Js.toFixed2 (west viewport) →
  Js.toFixed2 (south viewport') = Js.toFixed2 (south viewport) →
  Js.toFixed2 (east viewport') = Js.toFixed2 (east viewport) →
  Js.toFixed2 (north viewport') = Js.toFixed2 (north viewport) →
  getHexagonGridForViewport zoom' viewport' st1 = (Ok grid, st1).
Proof.
  intros Hw Hfirst Hres Hwest Hsouth Heast Hnorth.
  unfold getHexagonGridForViewport in *. apply loadOrGenerate_cached.
  unfold getCacheFilePath. rewrite Hres, Hwest, Hsouth, Heast, Hnorth.
  unfold generateHexagonGridForViewport in Hfirst.
  apply (loadOrGenerate_persists _ _ _ _ _ _ _ _ Hw Hfirst).
Qed.

(** What a request of the GeoJSON of a grid does, whatever the zoom: one
    covering at most, and an error only when the library refuses it. *)
Lemma getHexagonGridAsGeoJSON_outcome zoom bounds st :
  match getHexagonGridAsGeoJSON zoom bounds st with
  | (Ok _, st') =>
      coverings st' = coverings st
      ∨ coverings st' = coverings st ++ [coveringOf zoom bounds]
  | (Throw e, st') =>
      e = H3Error
      ∧ polygonToCells (coveringOf zoom bounds).1 (coveringOf zoom bounds).2 = None
      ∧ coverings st' = coverings st ++ [coveringOf zoom bounds]
      ∧ files st' = files st
  end.
Proof.
  assert (Hvalid : (getResolutionForZoom zoom <? 0)%Z
                   || (getResolutionForZoom zoom >? 15)%Z = false).
  { unfold getResolutionForZoom. by destruct (Js.lt _ _). }
  assert (Hload : ∀ cacheFilePath v s,
            match loadOrGenerate cacheFilePath
                    (generateGrid (getResolutionForZoom zoom)
                       (coveringOf zoom bounds).1 v s) st with
            | (Ok _, st') =>
                coverings st' = coverings st
                ∨ coverings st' = coverings st ++ [coveringOf zoom bounds]
            | (Throw e, st') =>
                e = H3Error
                ∧ polygonToCells (coveringOf zoom bounds).1 (coveringOf zoom bounds).2 = None
                ∧ coverings st' = coverings st ++ [coveringOf zoom bounds]
                ∧ files st' = files st
            end).
  { intros cacheFilePath v s. unfold loadOrGenerate.
    destruct (files st !! cacheFilePath) as [cached|]; [by left|].
    unfold generateGrid. cbn [coveringOf fst snd].
    destruct (polygonToCells _ _) eqn:Hcells.
    - right. unfold writeCache. simpl. by destruct (writable st).
    - done. }
  unfold getHexagonGridAsGeoJSON.
  destruct bounds as [v|].
  - unfold getHexagonGridForViewport, generateHexagonGridForViewport.
    specialize (Hload (getCacheFilePath (getResolutionForZoom zoom) (Some v))
                      (Some v) None).
    cbn [coveringOf fst snd default] in Hload |- *.
    by destruct (loadOrGenerate _ _ st) as [[grid|e] st'].
  - unfold getHexagonGridForSpain, generateHexagonGridForSpain. rewrite Hvalid.
    specialize (Hload (getCacheFilePath (getResolutionForZoom zoom) None)
                      None (Some SPAIN_BOUNDS)).
    cbn [coveringOf fst snd default] in Hload |- *.
    by destruct (loadOrGenerate _ _ st) as [[grid|e] st'].
Qed.

(** What the [/hexagon-grid] route does with a request. A [viewport] that
    [JSON.parse] refuses makes the handler throw before its [try]: it sends
    none of its answers and touches nothing, whatever the zoom. Otherwise a
    missing, unparsable or zero zoom counts as 5, and a zoom outside 0..20
    is answered 400 and touches nothing. Otherwise a [viewport] value that
    is truthy without four numbers as its bounds is answered 500 on the
    TypeError of the cache path: nothing is covered, read or written.
    Otherwise the answer is the GeoJSON of the service, after at most one
    covering: of the rectangle of the four bounds, or of [SPAIN_BOUNDS]
    without a viewport or with a falsy one, at resolution 6 below zoom 9
    and 7 from there on; it is 500 when the library refuses that covering,
    and then no file is written. *)
Theorem hexagon_grid_route_answers zoom viewport st :
  match FireRoutes.getHexagonGrid zoom viewport st with
  | (FireRoutes.Uncaught, st') => viewport = FireRoutes.unparsable ∧ st' = st
  | (FireRoutes.Status400 error, st') =>
      viewport ≠ FireRoutes.unparsable
      ∧ error = FireRoutes.invalidZoom ∧ st' = st
      ∧ (zoomOr5 zoom < 0 ∨ Js.int 20 < zoomOr5 zoom)
  | (FireRoutes.Json geojson, st') =>
      viewport ≠ FireRoutes.unparsable
      ∧ 0 ≤ zoomOr5 zoom ≤ Js.int 20
      ∧ ∃ bounds,
          FireRoutes.readViewport viewport = Some bounds
          ∧ getHexagonGridAsGeoJSON (zoomOr5 zoom) bounds st = (Ok geojson, st')
          ∧ (coverings st' = coverings st
             ∨ coverings st' = coverings st ++ [coveringOf (zoomOr5 zoom) bounds])
  | (FireRoutes.Status500 error message, st') =>
      viewport ≠ FireRoutes.unparsable
      ∧ 0 ≤ zoomOr5 zoom ≤ Js.int 20
      ∧ error = FireRoutes.failed
      ∧ ((message = TypeError ∧ FireRoutes.readViewport viewport = None ∧ st' = st)
         ∨ (message = H3Error
            ∧ ∃ bounds,
                FireRoutes.readViewport viewport = Some bounds
                ∧ polygonToCells (coveringOf (zoomOr5 zoom) bounds).1
                                 (coveringOf (zoomOr5 zoom) bounds).2 = None
                ∧ coverings st' = coverings st ++ [coveringOf (zoomOr5 zoom) bounds]
                ∧ files st' = files st))
  end.
Proof.
  assert (Hroute : ∀ viewport,
            viewport ≠ FireRoutes.unparsable →
            FireRoutes.getHexagonGrid zoom viewport st
            = if Js.lt (zoomOr5 zoom) 0 || Js.lt (Js.int 20) (zoomOr5 zoom)
              then (FireRoutes.Status400 FireRoutes.invalidZoom, st)
              else match FireRoutes.readViewport viewport with
                   | None => (FireRoutes.Status500 FireRoutes.failed TypeError, st)
                   | Some bounds =>
                       match getHexagonGridAsGeoJSON (zoomOr5 zoom) bounds st with
                       | (Ok geojson, st1) => (FireRoutes.Json geojson, st1)
                       | (Throw e, st1) => (FireRoutes.Status500 FireRoutes.failed e, st1)
                       end
                   end).
  { by intros [| |value] Hparsable. }
  assert (Hcases : viewport = FireRoutes.unparsable ∨ viewport ≠ FireRoutes.unparsable)
    by (destruct viewport; auto).
  destruct Hcases as [->|Hparsable]; [done|].
  rewrite (Hroute viewport Hparsable).
  destruct (Js.lt (zoomOr5 zoom) 0) eqn:Hlow; simpl.
  { apply lt_true in Hlow. auto. }
  destruct (Js.lt (Js.int 20) (zoomOr5 zoom)) eqn:Hhigh; simpl.
  { apply lt_true in Hhigh. auto. }
  apply lt_false in Hlow, Hhigh.
  destruct (FireRoutes.readViewport viewport) as [bounds|] eqn:Hbounds.
  - pose proof (getHexagonGridAsGeoJSON_outcome (zoomOr5 zoom) bounds st) as Houtcome.
    destruct (getHexagonGridAsGeoJSON (zoomOr5 zoom) bounds st) as [[geojson|e] st']
      eqn:Hanswer.
    + split; [done|]. split; [done|]. exists bounds. split; [done|]. split; [done|].
      exact Houtcome.
    + destruct Houtcome as (-> & Hrefused & Hcoverings & Hfiles).
      split; [done|]. split; [done|]. split; [done|]. right. split; [done|].
      exists bounds. split; [done|]. split; [done|]. split; done.
  - split; [done|]. split; [done|]. split; [done|]. by left.
Qed.

(** The legacy route [/hexagon-grid/:resolution] validates the resolution it
    is given and then serves the Spain grid of resolution 6, whatever the
    resolution was: its answer is the GeoJSON of [getHexagonGridForSpain 6],
    and when that grid is generated every feature carries resolution 6. *)
Theorem legacy_route_serves_resolution_6 resolution resolutionNum st :
  Js.parseInt resolution = Some resolutionNum →
  (0 ≤ resolutionNum ≤ 15)%Z →
  FireRoutes.getHexagonGridByResolution resolution st
  = match getHexagonGridForSpain 6 st with
    | (Ok grid, st') =>
        (FireRoutes.Json {| features := toFeature grid <$> hexagons grid;
                            collectionMetadata := metadata grid |}, st')
    | (Throw e, st') => (FireRoutes.Status500 FireRoutes.failed e, st')
    end
  ∧ (files st !! getCacheFilePath 6 None = None →
     ∀ geojson st',
       FireRoutes.getHexagonGridByResolution resolution st = (FireRoutes.Json geojson, st') →
       Forall (λ feature, featureResolution feature = 6%Z) (features geojson)).
Proof.
  intros Hparse Hrange.
  assert (Hroute : FireRoutes.getHexagonGridByResolution resolution st
    = match getHexagonGridForSpain 6 st with
      | (Ok grid, st') =>
          (FireRoutes.Json {| features := toFeature grid <$> hexagons grid;
                              collectionMetadata := metadata grid |}, st')
      | (Throw e, st') => (FireRoutes.Status500 FireRoutes.failed e, st')
      end).
  { unfold FireRoutes.getHexagonGridByResolution. rewrite Hparse.
    replace ((resolutionNum <? 0)%Z || (resolutionNum >? 15)%Z) with false
      by (symmetry; apply orb_false_iff; split; lia).
    unfold getHexagonGridAsGeoJSON.
    replace (getResolutionForZoom (Js.int 5)) with 6%Z by done.
    by destruct (getHexagonGridForSpain 6 st) as [[grid|e] st']. }
  split; [done|]. rewrite Hroute. clear Hroute.
  intros Hmiss geojson st'. unfold getHexagonGridForSpain.
  change ((6 <? 0)%Z || (6 >? 15)%Z) with false. cbv iota.
  unfold loadOrGenerate. rewrite Hmiss.
  unfold generateHexagonGridForSpain, generateGrid.
  destruct (polygonToCells _ _) as [cells|]; [|done].
  intros [= <- _]. cbn [features hexagons]. apply Forall_fmap, Forall_true. done.
Qed.

End CacheFiles.

(** The [/hexagon-grid] route on the sample library and an empty cache
    directory: a viewport text that does not parse, a zoom out of range, an
    object without bounds, a viewport with its four bounds, and [null]. *)
Example sample_getHexagonGrid :
  FireRoutes.getHexagonGrid (H := Lattice.lib) (Some (Js.int 6)) FireRoutes.unparsable
    Sample.emptyDisk = (FireRoutes.Uncaught, Sample.emptyDisk)
  ∧ FireRoutes.getHexagonGrid (H := Lattice.lib) (Some (Js.int 25))
      (FireRoutes.parsed (FireRoutes.JObject [])) Sample.emptyDisk
    = (FireRoutes.Status400 FireRoutes.invalidZoom, Sample.emptyDisk)
  ∧ FireRoutes.getHexagonGrid (H := Lattice.lib) (Some (Js.int 6))
      (FireRoutes.parsed (FireRoutes.JObject [])) Sample.emptyDisk
    = (FireRoutes.Status500 FireRoutes.failed TypeError, Sample.emptyDisk)
  ∧ FireRoutes.getHexagonGrid (H := Lattice.lib) (Some (Js.int 6))
      (FireRoutes.parsed
         (FireRoutes.JObject [("north", FireRoutes.JNumber (Js.int 49));
                              ("south", FireRoutes.JNumber (Js.int 48));
                              ("east", FireRoutes.JNumber (Js.int 4));
                              ("west", FireRoutes.JString "2")])) Sample.emptyDisk
    = (FireRoutes.Status500 FireRoutes.failed TypeError, Sample.emptyDisk)
  ∧ match FireRoutes.getHexagonGrid (H := Lattice.lib) (Some (Js.int 6))
            (FireRoutes.parsed
               (FireRoutes.JObject [("north", FireRoutes.JNumber (Js.int 49));
                                    ("south", FireRoutes.JNumber (Js.int 48));
                                    ("east", FireRoutes.JNumber (Js.int 4));
                                    ("west", FireRoutes.JNumber (Js.int 2))]))
            Sample.emptyDisk with
    | (FireRoutes.Json geojson, _) =>
        HexagonGridService.h3Index <$> HexagonGridService.features geojson
        = ["48:2"; "48:3"]
    | _ => False
    end
  ∧ match FireRoutes.getHexagonGrid (H := Lattice.lib) None
            (FireRoutes.parsed FireRoutes.JNull) Sample.emptyDisk with
    | (FireRoutes.Json geojson, _) =>
        length (HexagonGridService.features geojson) = 112%nat
    | _ => False
    end.
Proof. vm_compute. repeat split. Qed.

Lemma pregenerated_overview_is_never_served_witness :
  (HexagonGridCache.pregenerateSpainOverview (H := Lattice.lib) Sample.emptyDisk).1 = Ok ()
  ∧ ∀ zoom viewport,
      (HexagonGridService.getHexagonGridAsGeoJSON (H := Lattice.lib) zoom viewport
         (HexagonGridCache.pregenerateSpainOverview (H := Lattice.lib)
            Sample.emptyDisk).2).1
      = (HexagonGridService.getHexagonGridAsGeoJSON (H := Lattice.lib) zoom viewport
           (withFiles (HexagonGridService.files Sample.emptyDisk)
              (HexagonGridCache.pregenerateSpainOverview (H := Lattice.lib)
                 Sample.emptyDisk).2)).1.
Proof.
  split; [vm_compute; reflexivity|]. intros zoom viewport.
  destruct (pregenerated_overview_is_never_served (H := Lattice.lib) Sample.emptyDisk
              (HexagonGridCache.pregenerateSpainOverview (H := Lattice.lib)
                 Sample.emptyDisk).1
              (HexagonGridCache.pregenerateSpainOverview (H := Lattice.lib)
                 Sample.emptyDisk).2)
    as (_ & Hservice & _).
  - by destruct (HexagonGridCache.pregenerateSpainOverview Sample.emptyDisk).
  - apply Hservice.
Defined.

Lemma viewports_rounding_alike_share_a_grid_witness :
  ∃ grid st1,
    HexagonGridService.getHexagonGridForViewport (H := Lattice.lib) (Js.int 6)
      Sample.paris Sample.emptyDisk = (Ok grid, st1)
    ∧ HexagonGridService.viewport (HexagonGridService.metadata grid) = Some Sample.paris
    ∧ HexagonGridService.getHexagonGridForViewport (H := Lattice.lib) (Js.int 8)
        nearParis st1 = (Ok grid, st1).
Proof.
  eexists _, _. split; [vm_compute; reflexivity|]. split; [reflexivity|].
  apply (viewports_rounding_alike_share_a_grid (H := Lattice.lib) (Js.int 6) Sample.paris
           (Js.int 8) nearParis Sample.emptyDisk);
    vm_compute; reflexivity.
Defined.

Lemma legacy_route_serves_resolution_6_witness :
  FireRoutes.getHexagonGridByResolution (H := Lattice.lib) "3" Sample.emptyDisk
  = match HexagonGridService.getHexagonGridForSpain (H := Lattice.lib) 6 Sample.emptyDisk with
    | (Ok grid, st') =>
        (FireRoutes.Json
           {| HexagonGridService.features :=
                HexagonGridService.toFeature grid <$> HexagonGridService.hexagons grid;
              HexagonGridService.collectionMetadata := HexagonGridService.metadata grid |},
         st')
    | (Throw e, st') => (FireRoutes.Status500 FireRoutes.failed e, st')
    end
  ∧ (HexagonGridService.files Sample.emptyDisk
       !! HexagonGridService.getCacheFilePath 6 None = None →
     ∀ geojson st',
       FireRoutes.getHexagonGridByResolution (H := Lattice.lib) "3" Sample.emptyDisk
       = (FireRoutes.Json geojson, st') →
       Forall (λ feature, HexagonGridService.featureResolution feature = 6%Z)
              (HexagonGridService.features geojson)).
Proof.
  apply (legacy_route_serves_resolution_6 (H := Lattice.lib) "3" 3%Z Sample.emptyDisk).
  - vm_compute. reflexivity.
  - lia.
Defined.

(** ** Status and clearing of the cache directory *)

Lemma dropPrefix_app prefix s : HexagonGridCache.dropPrefix prefix (prefix +:+ s) = Some s.
Proof. induction prefix as [|c prefix IH]; simpl; [done | by rewrite Ascii.eqb_refl]. Qed.

Lemma dropPrefix_Some prefix s rest :
  HexagonGridCache.dropPrefix prefix s = Some rest → s = prefix +:+ rest.
Proof.
  revert s. induction prefix as [|c prefix IH]; intros s; simpl.
  - by intros [= ->].
  - destruct s as [|d s]; [done|].
    destruct (Ascii.eqb_spec c d) as [->|]; [|done].
    intros Hrest. by rewrite (IH _ Hrest).
Qed.

Lemma endsWith_refl suffix : HexagonGridCache.endsWith suffix suffix = true.
Proof. destruct suffix; simpl; [done | by rewrite Ascii.eqb_refl, String.eqb_refl]. Qed.

Lemma endsWith_app s t suffix :
  HexagonGridCache.endsWith suffix t = true →
  HexagonGridCache.endsWith suffix (s +:+ t) = true.
Proof.
  intros Ht. induction s as [|c s IH]; [done|].
  simpl. rewrite IH. apply orb_true_r.
Qed.

Section CacheDirectory.
Context `{Lib}.
Variable byteLength : HexagonGridService.HexagonGrid → nat.
Import HexagonGridService HexagonGridCache.

Lemma readdir_spec st name :
  name ∈ readdir st ↔ is_Some (files st !! (CACHE_DIR +:+ name)).
Proof.
  unfold readdir. rewrite list_elem_of_omap. split.
  - intros (path & Hpath & Hname). apply dropPrefix_Some in Hname as ->.
    apply list_elem_of_fmap in Hpath as ([path grid] & -> & Hin).
    apply elem_of_map_to_list in Hin. by exists grid.
  - intros [grid Hgrid]. exists (CACHE_DIR +:+ name). split; [|apply dropPrefix_app].
    apply list_elem_of_fmap. exists (CACHE_DIR +:+ name, grid).
    split; [done|]. by apply elem_of_map_to_list.
Qed.

(** Every cache file that the service writes is a [.json] file of the
    cache directory. *)
Lemma getCacheFilePath_name resolution viewport :
  ∃ name, getCacheFilePath resolution viewport = CACHE_DIR +:+ name
          ∧ endsWith ".json" name = true.
Proof.
  unfold getCacheFilePath. destruct viewport as [v|].
  - eexists. split; [reflexivity|].
    do 4 apply endsWith_app. apply endsWith_refl.
  - eexists. split; [reflexivity|].
    do 2 apply endsWith_app. apply endsWith_refl.
Qed.

Lemma lookup_foldl_delete (names : list string) (m : gmap string HexagonGrid) path :
  foldl (λ files file, delete (CACHE_DIR +:+ file) files) m names !! path
  = if decide (path ∈ String.append CACHE_DIR <$> names) then None else m !! path.
Proof.
  revert m. induction names as [|name names IH]; intros m.
  - cbn [foldl]. rewrite fmap_nil. by rewrite decide_False by apply not_elem_of_nil.
  - cbn [foldl]. rewrite IH, fmap_cons.
    destruct (decide (path ∈ String.append CACHE_DIR <$> names)) as [Hin|Hout].
    + by rewrite decide_True by (by right).
    + destruct (decide (path = CACHE_DIR +:+ name)) as [->|Hne].
      * rewrite lookup_delete_eq. by rewrite decide_True by left.
      * rewrite lookup_delete_ne by done.
        rewrite decide_False; [done|]. by intros [?|?]%elem_of_cons.
Qed.

Lemma clearCache_files st st' :
  clearCache st = Some st' →
  st' = withFiles
          (foldl (λ files file, delete (CACHE_DIR +:+ file) files) (files st)
                 (filter (λ file, endsWith ".json" file = true) (readdir st)))
          st.
Proof.
  unfold clearCache.
  destruct (filter _ (readdir st)) as [|name names].
  - intros [= <-]. simpl. by rewrite withFiles_same.
  - destruct (writable st) eqn:Hw; [|done]. intros [= <-].
    unfold withFiles. by rewrite Hw.
Qed.

Lemma clearCache_lookup st st' name :
  clearCache st = Some st' →
  endsWith ".json" name = true →
  files st' !! (CACHE_DIR +:+ name) = None.
Proof.
  intros ->%clearCache_files Hjson. cbn [withFiles files].
  rewrite lookup_foldl_delete.
  destruct (decide _) as [Hin|Hout]; [done|].
  destruct (files st !! (CACHE_DIR +:+ name)) as [grid|] eqn:Hgrid; [|done].
  destruct Hout. apply list_elem_of_fmap. exists name. split; [done|].
  apply list_elem_of_filter. split; [done|]. apply readdir_spec. by exists grid.
Qed.

(** After [clearCache] has returned, the cache directory holds no grid:
    [getCacheStatus] reports no resolution, no viewport cache and no byte,
    no cache file of a grid request is left, so that the next request of
    any grid generates it anew, and no file was added or changed. *)
Theorem clearCache_empties st st' :
  clearCache st = Some st' →
  cachedResolutions (getCacheStatus byteLength st') = []
  ∧ totalCacheSize (getCacheStatus byteLength st') = 0%nat
  ∧ viewportCaches (getCacheStatus byteLength st') = 0%nat
  ∧ (∀ resolution viewport, files st' !! getCacheFilePath resolution viewport = None)
  ∧ (∀ resolution cells,
       (0 ≤ resolution ≤ 15)%Z →
       polygonToCells (boundsPolygon SPAIN_BOUNDS) resolution = Some cells →
       ∃ grid st'',
         getHexagonGridForSpain resolution st' = (Ok grid, st'')
         ∧ index <$> hexagons grid = cells
         ∧ generatedAt (metadata grid) = clock st
         ∧ coverings st'' = coverings st ++ [(boundsPolygon SPAIN_BOUNDS, resolution)])
  ∧ (∀ path grid, files st' !! path = Some grid → files st !! path = Some grid).
Proof.
  intros Hclear.
  assert (Hnone : ∀ resolution viewport,
            files st' !! getCacheFilePath resolution viewport = None).
  { intros resolution viewport.
    destruct (getCacheFilePath_name resolution viewport) as (name & -> & Hjson).
    by apply (clearCache_lookup st). }
  assert (Hempty : filter (λ file, endsWith ".json" file = true) (readdir st') = []).
  { apply elem_of_nil_inv. intros name [Hjson Hname]%list_elem_of_filter.
    apply readdir_spec in Hname as [grid Hgrid].
    by rewrite (clearCache_lookup st st' name) in Hgrid. }
  unfold getCacheStatus. rewrite Hempty. cbn [cachedResolutions totalCacheSize viewportCaches].
  split; [done|]. split; [done|]. split; [done|]. split; [done|]. split.
  - intros resolution cells Hrange Hcells. unfold getHexagonGridForSpain.
    replace ((resolution <? 0)%Z || (resolution >? 15)%Z) with false
      by (symmetry; apply orb_false_iff; split; lia).
    unfold loadOrGenerate. rewrite Hnone.
    unfold generateHexagonGridForSpain, generateGrid. rewrite Hcells.
    apply clearCache_files in Hclear as ->. cbn [withFiles files writable clock coverings].
    eexists _, _. split; [reflexivity|]. cbn [hexagons metadata generatedAt].
    split; [|split; [done|]].
    + unfold toHexagons. rewrite <- list_fmap_compose. apply list_fmap_id.
    + unfold writeCache. cbn [writable]. by destruct (writable st).
  - intros path grid. apply clearCache_files in Hclear as ->. cbn [withFiles files].
    rewrite lookup_foldl_delete. by destruct (decide _).
Qed.

Lemma matchSpainGrid_valid resolution :
  (0 ≤ resolution ≤ 15)%Z →
  matchSpainGrid ("spain-grid-res-" +:+ pretty resolution +:+ ".json") ≫= Js.parseInt
  = Some resolution.
Proof.
  intros Hrange.
  assert (Hcases : resolution ∈ seqZ 0 16) by (apply elem_of_seqZ; lia).
  vm_compute seqZ in Hcases.
  repeat (apply elem_of_cons in Hcases as [-> | Hcases]; [vm_compute; reflexivity|]).
  by apply elem_of_nil in Hcases.
Qed.

(** What [getCacheStatus] reports of a writable cache directory after a
    grid request has returned: the resolution of a Spain grid is among
    [cachedResolutions], which is sorted, and a viewport grid counts among
    [viewportCaches]. *)
Theorem status_reports_served_grids st :
  writable st = true →
  (∀ resolution grid st',
     getHexagonGridForSpain resolution st = (Ok grid, st') →
     resolution ∈ cachedResolutions (getCacheStatus byteLength st'))
  ∧ (∀ zoom viewport grid st',
       getHexagonGridForViewport zoom viewport st = (Ok grid, st') →
       (0 < viewportCaches (getCacheStatus byteLength st'))%nat)
  ∧ (∀ st', Sorted Z.le (cachedResolutions (getCacheStatus byteLength st'))).
Proof.
  intros Hw. split; [|split].
  - intros resolution grid st'. unfold getHexagonGridForSpain.
    destruct ((resolution <? 0)%Z || (resolution >? 15)%Z) eqn:Hvalid; [done|].
    apply orb_false_iff in Hvalid as [Hlow Hhigh].
    unfold generateHexagonGridForSpain. intros Hget.
    apply (loadOrGenerate_persists _ _ _ _ _ _ _ _ Hw) in Hget.
    unfold getCacheStatus. cbn [cachedResolutions].
    rewrite merge_sort_Permutation. apply list_elem_of_omap.
    exists ("spain-grid-res-" +:+ pretty resolution +:+ ".json"). split.
    + apply list_elem_of_filter. split; [unfold startsWith; by rewrite dropPrefix_app|].
      apply list_elem_of_filter. split.
      * do 2 apply endsWith_app. apply endsWith_refl.
      * apply readdir_spec. by exists grid.
    + apply matchSpainGrid_valid. lia.
  - intros zoom viewport grid st'. unfold getHexagonGridForViewport.
    unfold generateHexagonGridForViewport. intros Hget.
    apply (loadOrGenerate_persists _ _ _ _ _ _ _ _ Hw) in Hget.
    unfold getCacheStatus. cbn [viewportCaches].
    destruct (getCacheFilePath_name (getResolutionForZoom zoom) (Some viewport))
      as (name & Hpath & Hjson).
    assert (Hname : name ∈ filter (λ file, startsWith "viewport-res-" file = true)
                      (filter (λ file, endsWith ".json" file = true) (readdir st'))).
    { apply list_elem_of_filter. split.
      - unfold getCacheFilePath in Hpath. apply (inj (String.app _)) in Hpath.
        rewrite <- Hpath. unfold startsWith. by rewrite dropPrefix_app.
      - apply list_elem_of_filter. split; [done|]. apply readdir_spec.
        rewrite <- Hpath. by exists grid. }
    destruct (filter _ (filter _ _)); [by apply elem_of_nil in Hname | simpl; lia].
  - intros st'. apply (Sorted_merge_sort Z.le).
Qed.

End CacheDirectory.

Lemma clearCache_empties_witness :
  HexagonGridCache.cachedResolutions
    (HexagonGridCache.getCacheStatus (λ _, 1%nat) servedDisk) = [6%Z]
  ∧ ∃ st',
      HexagonGridCache.clearCache servedDisk = Some st'
      ∧ HexagonGridCache.cachedResolutions
          (HexagonGridCache.getCacheStatus (λ _, 1%nat) st') = []
      ∧ HexagonGridCache.totalCacheSize
          (HexagonGridCache.getCacheStatus (λ _, 1%nat) st') = 0%nat
      ∧ HexagonGridCache.viewportCaches
          (HexagonGridCache.getCacheStatus (λ _, 1%nat) st') = 0%nat.
Proof.
  split; [vm_compute; reflexivity|].
  eexists. split; [vm_compute; reflexivity|].
  match goal with
  | |- context [HexagonGridCache.getCacheStatus _ ?st'] =>
      destruct (clearCache_empties (H := Lattice.lib) (λ _, 1%nat) servedDisk st')
        as (Hresolutions & Hsize & Hviewports & _)
  end; [vm_compute; reflexivity|].
  split; [exact Hresolutions|]. split; [exact Hsize | exact Hviewports].
Defined.

Lemma status_reports_served_grids_witness :
  (∀ resolution grid st',
     HexagonGridService.getHexagonGridForSpain (H := Lattice.lib) resolution Sample.emptyDisk
     = (Ok grid, st') →
     resolution ∈ HexagonGridCache.cachedResolutions
                    (HexagonGridCache.getCacheStatus (λ _, 1%nat) st'))
  ∧ (∀ zoom viewport grid st',
       HexagonGridService.getHexagonGridForViewport (H := Lattice.lib) zoom viewport
         Sample.emptyDisk = (Ok grid, st') →
       (0 < HexagonGridCache.viewportCaches
              (HexagonGridCache.getCacheStatus (λ _, 1%nat) st'))%nat)
  ∧ (∀ st', Sorted Z.le (HexagonGridCache.cachedResolutions
                           (HexagonGridCache.getCacheStatus (λ _, 1%nat) st'))).
Proof.
  apply (status_reports_served_grids (H := Lattice.lib) (λ _, 1%nat) Sample.emptyDisk).
  reflexivity.
Defined.

(** ** The cumulated mode of the browser *)

Lemma lookup_foldr_delete {V} (ids : list string) (m : gmap string V) k :
  foldr delete m ids !! k = if decide (k ∈ ids) then None else m !! k.
Proof.
  induction ids as [|id ids IH]; cbn [foldr].
  - by rewrite decide_False by apply not_elem_of_nil.
  - destruct (decide (k = id)) as [->|Hne].
    + rewrite lookup_delete_eq. by rewrite decide_True by left.
    + rewrite lookup_delete_ne, IH by done.
      destruct (decide (k ∈ ids)) as [Hin|Hout].
      * by rewrite decide_True by (by right).
      * rewrite decide_False; [done|]. by intros [?|?]%elem_of_cons.
Qed.

(** A sum over distinct ids and the sum over the entries under other ids
    make up the sum over the dictionary. *)
Lemma sum_list_over_some_ids {V} (f : V → nat) (ids : list string) (m : gmap string V) :
  NoDup ids →
  (sum_list ((λ k, from_option f 0%nat (m !! k)) <$> ids)
   + sumNatOver f (foldr delete m ids) = sumNatOver f m)%nat.
Proof.
  induction 1 as [|k ids Hk Hnd IH]; [done|].
  rewrite fmap_cons. cbn [sum_list foldr].
  change (foldr Nat.add 0%nat ?l) with (sum_list l).
  destruct (foldr delete m ids !! k) as [v|] eqn:Hv.
  - rewrite lookup_foldr_delete, decide_False in Hv by done.
    assert (Hv' : foldr delete m ids !! k = Some v)
      by (by rewrite lookup_foldr_delete, decide_False).
    rewrite (sumNatOver_delete f _ k v Hv') in IH. rewrite Hv. simpl. lia.
  - rewrite delete_id by done.
    rewrite lookup_foldr_delete, decide_False in Hv by done. rewrite Hv. simpl. lia.
Qed.

Lemma sumList_over_some_ids {V} (f : V → Qc) (ids : list string) (m : gmap string V) :
  NoDup ids →
  sumList ((λ k, from_option f 0 (m !! k)) <$> ids) + sumQcOver f (foldr delete m ids)
  = sumQcOver f m.
Proof.
  induction 1 as [|k ids Hk Hnd IH].
  - rewrite fmap_nil. simpl. unfold sumList. simpl. ring.
  - rewrite fmap_cons, sumList_cons. cbn [foldr].
    destruct (foldr delete m ids !! k) as [v|] eqn:Hv.
    + rewrite lookup_foldr_delete, decide_False in Hv by done.
      assert (Hv' : foldr delete m ids !! k = Some v)
        by (by rewrite lookup_foldr_delete, decide_False).
      rewrite (sumQcOver_delete f _ k v Hv') in IH. rewrite Hv, <- IH. simpl. ring.
    + rewrite delete_id by done.
      rewrite lookup_foldr_delete, decide_False in Hv by done.
      rewrite Hv, <- IH. simpl. ring.
Qed.

Lemma foldr_delete_all {V} (ids : list string) (m : gmap string V) :
  (∀ k, is_Some (m !! k) → k ∈ ids) → foldr delete m ids = ∅.
Proof.
  intros Hdom. apply map_empty. intros k. rewrite lookup_foldr_delete.
  destruct (decide (k ∈ ids)) as [Hin|Hout]; [done|].
  apply eq_None_not_Some. by intros ?%Hdom.
Qed.

Lemma sumNatOver_0 {V} (f : V → nat) (m : gmap string V) :
  map_Forall (λ _ v, (1 ≤ f v)%nat) m → sumNatOver f m = 0%nat → m = ∅.
Proof.
  induction m as [|k v m Hk IH] using map_ind; [done|].
  intros Hall. rewrite sumNatOver_insert_None by done.
  apply map_Forall_insert in Hall as [Hv _]; [lia | done].
Qed.

Section CumulatedDisplay.
Context `{Lib}.
Import UseFireDataCumulated.

Lemma addCumulatedFireDataToMap_consistent r hexagons :
  consistent r →
  addCumulatedFireDataToMap r (Some (Some hexagons))
  = Some (Some (updateProperties r <$> hexagons)).
Proof.
  intros (Hcells & Hfires & _). unfold addCumulatedFireDataToMap.
  destruct (CumulatedFireService.totalFires r =? 0)%nat eqn:Hnone; [|done].
  apply Nat.eqb_eq in Hnone. rewrite <- Hfires in Hnone.
  apply sumNatOver_0 in Hnone; [|by intros k hexagon [? _]%Hcells].
  do 2 f_equal. apply list_fmap_ext. intros _ h3Index _.
  unfold updateProperties. by rewrite Hnone, lookup_empty.
Qed.

(** The display of an answer of the cumulated fire service, on a grid of
    distinct hexagons. The hexagons keep their ids and their order. A
    hexagon has fire data exactly when the answer holds its cell; its size
    follows the classification of its count and area, and its average area
    times its count is its area. The counts on the grid add up to at most
    [totalFires]; when the grid holds every cell of the answer, the counts
    add up to [totalFires] and the areas to [totalArea]. *)
Theorem cumulated_display_of_service_answer startDate endDate resolution st r st' hexagons :
  reachable st →
  CumulatedFireService.calculateCumulatedFireData startDate endDate resolution st
  = (Ok r, st') →
  NoDup hexagons →
  ∃ out,
    addCumulatedFireDataToMap r (Some (Some hexagons)) = Some (Some out)
    ∧ h3Index <$> out = hexagons
    ∧ (∀ feature, feature ∈ out →
         sizeClass (totalArea (properties feature)) (fireCount (properties feature))
                   (size (properties feature))
         ∧ (hasFireData (properties feature) = true
            ↔ is_Some (CumulatedFireService.hexagonData r !! h3Index feature))
         ∧ averageArea (properties feature) * Js.ofNat (fireCount (properties feature))
           = totalArea (properties feature))
    ∧ (sum_list ((λ feature, fireCount (properties feature)) <$> out)
       ≤ CumulatedFireService.totalFires r)%nat
    ∧ ((∀ h3Index, is_Some (CumulatedFireService.hexagonData r !! h3Index) →
                   h3Index ∈ hexagons) →
       sum_list ((λ feature, fireCount (properties feature)) <$> out)
       = CumulatedFireService.totalFires r
       ∧ sumList ((λ feature, totalArea (properties feature)) <$> out)
         = CumulatedFireService.totalArea r).
Proof.
  intros Hst Hanswer Hnd.
  pose proof (calculateCumulatedFireData_consistent _ _ _ _ _ _ Hst Hanswer) as Hr.
  exists (updateProperties r <$> hexagons).
  split; [by apply addCumulatedFireDataToMap_consistent|].
  destruct Hr as (Hcells & Hfires & Harea).
  assert (Hshown : ∀ h3Index,
            properties (updateProperties r h3Index)
            = match CumulatedFireService.hexagonData r !! h3Index with
              | Some fireData =>
                  {| hasFireData := true;
                     totalArea := CumulatedFireService.Hex.totalArea fireData;
                     fireCount := CumulatedFireService.Hex.fireCount fireData;
                     averageArea :=
                       CumulatedFireService.Hex.totalArea fireData
                       / Js.ofNat (CumulatedFireService.Hex.fireCount fireData);
                     size := CumulatedFireService.Hex.size fireData;
                     fires := CumulatedFireService.Hex.fires fireData |}
              | None => noFireData
              end).
  { intros h3Index. unfold updateProperties. cbn [properties].
    destruct (CumulatedFireService.hexagonData r !! h3Index) as [fireData|] eqn:Hcell;
      [|done].
    destruct (Hcells _ _ Hcell) as [Hcount _].
    by rewrite (proj2 (Nat.ltb_lt _ _)) by lia. }
  split; [|split; [|split]].
  - rewrite <- list_fmap_compose. apply list_fmap_id.
  - intros feature (h3Index & -> & _)%list_elem_of_fmap.
    rewrite Hshown. cbn [UseFireDataCumulated.h3Index updateProperties].
    destruct (CumulatedFireService.hexagonData r !! h3Index) as [fireData|] eqn:Hcell.
    + destruct (Hcells _ _ Hcell) as [Hcount Hsize].
      cbn [totalArea fireCount size hasFireData averageArea].
      split; [|split; [by split; eauto|]].
      * rewrite Hsize. apply getFireSize_sizeClass. lia.
      * unfold Qcdiv.
        rewrite <- Qcmult_assoc, (Qcmult_comm (/ _)), Qcmult_inv_r, Qcmult_1_r;
          [done | apply ofNat_nonzero; lia].
    + cbn [noFireData totalArea fireCount size hasFireData averageArea].
      split; [apply sizeClass_none|]. split; [|ring].
      split; [done | by intros [? ?]].
  - rewrite <- list_fmap_compose.
    pose proof (sum_list_over_some_ids CumulatedFireService.Hex.fireCount hexagons
                  (CumulatedFireService.hexagonData r) Hnd) as Hsum.
    rewrite Hfires in Hsum.
    replace (sum_list (_ <$> hexagons))
      with (sum_list ((λ k, from_option CumulatedFireService.Hex.fireCount 0%nat
                              (CumulatedFireService.hexagonData r !! k)) <$> hexagons));
      [lia|].
    f_equal. apply list_fmap_ext. intros _ h3Index _. unfold compose. rewrite Hshown.
    by destruct (CumulatedFireService.hexagonData r !! h3Index).
  - intros Hgrid. rewrite <- !list_fmap_compose.
    pose proof (sum_list_over_some_ids CumulatedFireService.Hex.fireCount hexagons
                  (CumulatedFireService.hexagonData r) Hnd) as Hsum.
    pose proof (sumList_over_some_ids CumulatedFireService.Hex.totalArea hexagons
                  (CumulatedFireService.hexagonData r) Hnd) as Hsum'.
    rewrite foldr_delete_all in Hsum, Hsum' by done.
    rewrite sumNatOver_empty, Hfires in Hsum. rewrite sumQcOver_empty, Harea in Hsum'.
    split.
    + rewrite <- Hsum, Nat.add_0_r.
      f_equal. apply list_fmap_ext. intros _ h3Index _. unfold compose. rewrite Hshown.
      by destruct (CumulatedFireService.hexagonData r !! h3Index).
    + rewrite <- Hsum', Qcplus_0_r.
      f_equal. apply list_fmap_ext. intros _ h3Index _. unfold compose. rewrite Hshown.
      by destruct (CumulatedFireService.hexagonData r !! h3Index).
Qed.

(** Restyling in cumulated mode shows no fire data: whatever the zoom, the
    date range and the number of fires of the last answer, every hexagon of
    the grid comes out with the blank properties, under its id and in its
    place. *)
Theorem reapplyFireStyling_shows_no_fire_data zoom dateRange count hexagons :
  reapplyFireStyling zoom dateRange count (Some (Some hexagons))
  = Some (Some ((λ h3Index, {| h3Index := h3Index; properties := noFireData |})
                  <$> hexagons)).
Proof.
  unfold reapplyFireStyling, addCumulatedFireDataToMap.
  cbn [CumulatedFireService.totalFires].
  destruct (count =? 0)%nat; reflexivity.
Qed.

End CumulatedDisplay.

Lemma cumulated_display_of_service_answer_witness :
  ∃ r,
    Sample.cumulated.1 = Ok r
    ∧ ∃ out,
        UseFireDataCumulated.addCumulatedFireDataToMap r
          (Some (Some (UseFireData.h3Index <$> Sample.spainGrid))) = Some (Some out)
        ∧ UseFireDataCumulated.h3Index <$> out = UseFireData.h3Index <$> Sample.spainGrid
        ∧ (sum_list ((λ feature, UseFireDataCumulated.fireCount
                                   (UseFireDataCumulated.properties feature)) <$> out)
           ≤ CumulatedFireService.totalFires r)%nat.
Proof.
  eexists. split; [vm_compute; reflexivity|].
  match goal with
  | |- context [UseFireDataCumulated.addCumulatedFireDataToMap ?r _] =>
      destruct (cumulated_display_of_service_answer (H := Lattice.lib)
                  "2025-08-01" "2025-08-03" 6%Z Sample.service r Sample.cumulated.2
                  (UseFireData.h3Index <$> Sample.spainGrid))
        as (out & Hout & Hids & _ & Hle & _)
  end.
  - apply reachable_start.
  - vm_compute. reflexivity.
  - apply (bool_decide_unpack _). vm_compute. reflexivity.
  - exists out. split; [exact Hout|]. split; [exact Hids | exact Hle].
Defined.

(** ** Restyling the current mode *)

Section Restyling.
Context `{Lib}.
Import UseFireData.

Lemma initFireMap_ids (features1 features2 : list Feature) :
  h3Index <$> features1 = h3Index <$> features2 →
  initFireMap features1 = initFireMap features2.
Proof.
  intros Hids. apply map_eq. intros k. rewrite !lookup_initFireMap. by rewrite Hids.
Qed.

Lemma updateProperties_ids m (features1 features2 : list Feature) :
  h3Index <$> features1 = h3Index <$> features2 →
  updateProperties m <$> features1 = updateProperties m <$> features2.
Proof.
  revert features2.
  induction features1 as [|hexagon1 features1 IH]; intros [|hexagon2 features2];
    try done.
  rewrite !fmap_cons. intros [= Hid Hids].
  f_equal; [|by apply IH]. unfold updateProperties. by rewrite Hid.
Qed.

(** [addFireDataToMap] reads the ids of the hexagons and nothing else of
    them. *)
Lemma addFireDataToMap_ids zoom fires (features1 features2 : list Feature) :
  h3Index <$> features1 = h3Index <$> features2 →
  addFireDataToMap zoom fires (Some (Some features1))
  = addFireDataToMap zoom fires (Some (Some features2)).
Proof.
  intros Hids. unfold addFireDataToMap. cbn [clearFireLayers].
  assert (Hcleared :
    (λ hexagon, {| h3Index := h3Index hexagon; properties := noFireData |}) <$> features1
    = (λ hexagon, {| h3Index := h3Index hexagon; properties := noFireData |})
        <$> features2).
  { change (λ hexagon, {| h3Index := h3Index hexagon; properties := noFireData |})
      with ((λ h3Index, {| h3Index := h3Index; properties := noFireData |}) ∘ h3Index).
    by rewrite !list_fmap_compose, Hids. }
  by rewrite Hcleared.
Qed.

Lemma addFireDataToMap_h3Index zoom fires features out :
  addFireDataToMap zoom fires (Some (Some features)) = Ok (Some (Some out)) →
  h3Index <$> out = h3Index <$> features.
Proof.
  unfold addFireDataToMap. cbn [clearFireLayers].
  destruct fires as [|fire fires].
  { intros [= <-]. by rewrite <- list_fmap_compose. }
  unfold aggregateOnGrid.
  destruct (forEach _ (fire :: fires) _) as [m|]; simpl; [|done].
  intros [= <-]. by rewrite <- !list_fmap_compose.
Qed.

(** Restyling in current mode, which applies [addFireDataToMap] with the
    same fires to the grid as it is displayed, reproduces the display: the
    properties that the first pass wrote are wiped and written again to the
    same values. Two grids of the same ids are given the same display. *)
Theorem restyling_reproduces_the_display zoom fires features out :
  addFireDataToMap zoom fires (Some (Some features)) = Ok (Some (Some out)) →
  addFireDataToMap zoom fires (Some (Some out)) = Ok (Some (Some out))
  ∧ ∀ features',
      h3Index <$> features' = h3Index <$> features →
      addFireDataToMap zoom fires (Some (Some features')) = Ok (Some (Some out)).
Proof.
  intros Hfirst. split.
  - rewrite <- Hfirst. apply addFireDataToMap_ids.
    by apply (addFireDataToMap_h3Index zoom fires).
  - intros features' Hids. rewrite <- Hfirst. by apply addFireDataToMap_ids.
Qed.

End Restyling.

Lemma restyling_reproduces_the_display_witness :
  ∃ out,
    UseFireData.addFireDataToMap (H := Lattice.lib) (Js.int 6) Sample.fires
      (Some (Some Sample.croppedGrid)) = Ok (Some (Some out))
    ∧ UseFireData.addFireDataToMap (H := Lattice.lib) (Js.int 6) Sample.fires
        (Some (Some out)) = Ok (Some (Some out)).
Proof.
  eexists. split; [vm_compute; reflexivity|].
  match goal with
  | |- context [Ok (Some (Some ?out))] =>
      destruct (restyling_reproduces_the_display (H := Lattice.lib) (Js.int 6)
                  Sample.fires Sample.croppedGrid out) as [Hagain _]
  end; [vm_compute; reflexivity | exact Hagain].
Defined.

(** ** The client-side grid *)

Section ClientSideGrid.
Context `{Lib} `{UseHexagonGridFallback.Hierarchy}.
Import HexagonGridService UseHexagonGridFallback.

Lemma inBounds_spec (coord : Position) :
  inBounds coord = true ↔
  UseHexagonGridFallback.south spainBounds ≤ coord.2
  ∧ coord.2 ≤ UseHexagonGridFallback.north spainBounds
  ∧ UseHexagonGridFallback.west spainBounds ≤ coord.1
  ∧ coord.1 ≤ UseHexagonGridFallback.east spainBounds.
Proof.
  unfold inBounds, ge, le. rewrite !andb_true_iff, !negb_true_iff, !lt_false. tauto.
Qed.

Lemma hexagonsOf_spec children hexagon :
  hexagon ∈ hexagonsOf children ↔
  index hexagon ∈ children
  ∧ boundary hexagon = cellToBoundary (index hexagon) true
  ∧ existsb inBounds (boundary hexagon) = true.
Proof.
  unfold hexagonsOf. rewrite list_elem_of_omap. split.
  - intros (child & Hchild & Hkept).
    destruct (existsb inBounds (cellToBoundary child true)) eqn:Hsome; [|done].
    injection Hkept as <-. done.
  - intros (Hchild & Hboundary & Hsome). exists (index hexagon). split; [done|].
    rewrite <- Hboundary, Hsome. by destruct hexagon.
Qed.

Lemma forEach_children resolution (P : Hexagon → Prop) cells hexagons0 hexagons :
  forEach (λ cell hexagons,
             match cellToChildren cell resolution with
             | Some children => Ok (hexagons ++ hexagonsOf children)
             | None => Throw H3Error
             end) cells hexagons0 = Ok hexagons →
  Forall P hexagons0 →
  (∀ cell children hexagon,
     cell ∈ cells → cellToChildren cell resolution = Some children →
     hexagon ∈ hexagonsOf children → P hexagon) →
  Forall P hexagons.
Proof.
  revert hexagons0. induction cells as [|cell cells IH]; intros hexagons0.
  - by intros [= <-].
  - cbn [forEach]. destruct (cellToChildren cell resolution) as [children|] eqn:Hchildren;
      [|done].
    simpl. intros Hrest Hacc Hstep. apply (IH _ Hrest).
    + apply Forall_app. split; [done|]. apply Forall_forall. intros hexagon Hin.
      apply (Hstep cell children); [by left | done | done].
    + intros cell' children' hexagon Hcell'. apply Hstep. by right.
Qed.

(** The grid that the browser generates when the server fails. It throws
    exactly when the library refuses the children of a base cell. Each of
    its hexagons is a child of a base cell at the resolution asked for, with
    the GeoJSON boundary of the library: [[lng, lat]] pairs, closed by the
    repetition of the first vertex. And each has a vertex within the Spain
    bounds of the browser. *)
Theorem generateHexagonGrid_hexagons resolution :
  ((∃ e, generateHexagonGrid resolution = Throw e)
   ↔ Exists (λ cell, cellToChildren cell resolution = None) getRes0Cells)
  ∧ ∀ hexagons hexagon,
      generateHexagonGrid resolution = Ok hexagons →
      hexagon ∈ hexagons →
      (∃ cell children,
         cell ∈ getRes0Cells ∧ cellToChildren cell resolution = Some children
         ∧ index hexagon ∈ children)
      ∧ boundary hexagon = cellToBoundary (index hexagon) true
      ∧ head (boundary hexagon) = last (boundary hexagon)
      ∧ take (length (cellVertices (index hexagon))) (boundary hexagon)
        = (λ vertex, (lng vertex, lat vertex)) <$> cellVertices (index hexagon)
      ∧ ∃ vertex,
          vertex ∈ cellVertices (index hexagon)
          ∧ UseHexagonGridFallback.south spainBounds ≤ lat vertex
            ≤ UseHexagonGridFallback.north spainBounds
          ∧ UseHexagonGridFallback.west spainBounds ≤ lng vertex
            ≤ UseHexagonGridFallback.east spainBounds.
Proof.
  unfold generateHexagonGrid. split.
  - generalize (@nil Hexagon). induction getRes0Cells as [|cell cells IH]; intros hexagons0.
    + simpl. split; [by intros [? ?] | by intros ?%Exists_nil].
    + cbn [forEach]. rewrite Exists_cons.
      destruct (cellToChildren cell resolution) as [children|]; simpl.
      * rewrite IH. split; [by right | by intros [?|?]].
      * split; [by left | by eauto].
  - intros hexagons hexagon Hgrid Hin.
    apply (forEach_children resolution
             (λ hexagon,
                (∃ cell children,
                   cell ∈ getRes0Cells ∧ cellToChildren cell resolution = Some children
                   ∧ index hexagon ∈ children)
                ∧ boundary hexagon = cellToBoundary (index hexagon) true
                ∧ existsb inBounds (boundary hexagon) = true)) in Hgrid.
    + rewrite Forall_forall in Hgrid.
      destruct (Hgrid hexagon Hin) as (Hchild & Hboundary & Hsome).
      apply existsb_exists in Hsome as (coord & Hcoord%list_elem_of_In & Hbounds).
      apply inBounds_spec in Hbounds.
      assert (Hvertex : ∃ vertex, vertex ∈ cellVertices (index hexagon)
                                  ∧ coord = (lng vertex, lat vertex)).
      { rewrite Hboundary in Hcoord. unfold cellToBoundary in Hcoord.
        apply elem_of_app in Hcoord as [Hcoord | Hcoord%elem_of_take].
        - apply list_elem_of_fmap in Hcoord as (vertex & -> & Hvertex). eauto.
        - destruct Hcoord as (i & Hi & _).
          apply list_elem_of_lookup_2, list_elem_of_fmap in Hi as (vertex & -> & Hvertex).
          eauto. }
      destruct Hvertex as (vertex & Hvertex & ->). simpl in Hbounds.
      assert (Hsome : cellVertices (index hexagon) ≠ [])
        by (intros Hnil; rewrite Hnil in Hvertex; by apply elem_of_nil in Hvertex).
      destruct (cellToBoundary_geojson_closed (index hexagon) Hsome) as [Hclosed Htake].
      rewrite Hboundary. split; [done|]. split; [done|]. split; [done|]. split; [done|].
      exists vertex. tauto.
    + constructor.
    + intros cell children hexagon' Hcell Hchildren
        (Hchild & Hboundary & Hsome)%hexagonsOf_spec.
      split; [by eauto|]. done.
Qed.

End ClientSideGrid.

(** The sample hierarchy: of the nine children of the base cell, the four
    with a corner within the bounds are kept. *)
Example sample_generateHexagonGrid :
  HexagonGridService.index
    <$> default [] (match UseHexagonGridFallback.generateHexagonGrid
                            (H := Lattice.lib) (H0 := latticeHierarchy) 6 with
                    | Ok hexagons => Some hexagons
                    | Throw _ => None
                    end)
  = ["42:-10"; "42:-9"; "43:-10"; "43:-9"].
Proof. vm_compute. reflexivity. Qed.
